(** * Event planner backend: handlers of controllers.go over a relational store

    A shallow embedding of the request handlers of the event planner
    (controllers.go, models.go, routes.go) together with the parts of the
    Go standard library and of GORM they rely on, followed by the
    properties of the authorization-and-query engine: the attendance row
    of the organizer, idempotent invitations, the cascade of DeleteEvent,
    the two writes of CreateEvent, the date range, the type parameter and
    the order of the results of the search, status normalization, and the
    order in which the handlers check a request.

    The last sections go further into the same handlers: what the three
    listings (organized events, invited events, attendees) return, what a
    successful CreateEvent, InviteUser, SetAttendance and CreateTask write
    and what the next read then shows, which results a search lets through
    and which it must find, the invariants of the reachable stores, and who
    must have sent a request for a row to appear, change or disappear.

    Conventions.
    - Go [uint] values (identifiers) are [N], Go [int] values are [Z]; the
      identifiers the handlers see come from [strconv.ParseUint] with bit
      size 64, from the decoded body or from the store.
    - Go strings are byte strings ([string]), read as UTF-8 by the
      functions of package [strings]: runes are decoded as [unicode/utf8]
      does, white space, letters, digits and case are those of package
      [unicode].
    - A [time.Time] is the instant it denotes, in nanoseconds since
      0001-01-01T00:00:00Z (the zero [Time] of Go).
    - The record store is explicit state.  Every SQL statement may fail;
      which ones do is given by a schedule of faults threaded next to the
      store, so that a handler is a function of the request, the store and
      the schedule. *)

From Stdlib Require Import ZArith NArith List String Ascii Bool Lia.
From Stdlib Require Import Sorting.Sorted Permutation.
Import ListNotations.

Local Open Scope string_scope.
Local Open Scope Z_scope.

(* ------------------------------------------------------------------ *)
(** ** Bytes *)

Definition byte_code (c : ascii) : N := N_of_ascii c.

Definition byte_between (lo hi : N) (c : ascii) : bool :=
  ((lo <=? byte_code c) && (byte_code c <=? hi))%N.

Definition is_digit (c : ascii) : bool := byte_between 48 57 c.
Definition is_upper (c : ascii) : bool := byte_between 65 90 c.

(* ------------------------------------------------------------------ *)
(** ** Package unicode/utf8 *)

Module utf8.

(** A rune is a code point and a byte its value; both are [Z]. *)
Definition RuneError : Z := 0xFFFD.
Definition RuneSelf : Z := 0x80.
Definition MaxRune : Z := 0x10FFFF.

Definition bytes (s : string) : list Z :=
  map (fun c => Z.of_N (byte_code c)) (list_ascii_of_string s).

Definition string_of (p : list Z) : string :=
  string_of_list_ascii (map (fun b => ascii_of_N (Z.to_N b)) p).

Definition within (lo hi b : Z) : bool := (lo <=? b) && (b <=? hi).

(** The continuation bytes, and the second bytes a leading byte accepts
    ([acceptRanges]): no overlong form, no surrogate, nothing above
    [MaxRune]. *)
Definition continuation (b : Z) : bool := within 0x80 0xBF b.

Definition accept (s0 s1 : Z) : bool :=
  if s0 =? 0xE0 then within 0xA0 0xBF s1
  else if s0 =? 0xED then within 0x80 0x9F s1
  else if s0 =? 0xF0 then within 0x90 0xBF s1
  else if s0 =? 0xF4 then within 0x80 0x8F s1
  else continuation s1.

Definition payload (b : Z) : Z := Z.land b 0x3F.

(** [utf8.DecodeRuneInString]: the first rune of [p] and its width.  An
    empty input gives [(RuneError, 0)]; a byte that starts no valid
    encoding, or whose encoding is cut short, gives [(RuneError, 1)]. *)
Definition DecodeRune (p : list Z) : Z * nat :=
  match p with
  | [] => (RuneError, 0%nat)
  | s0 :: p1 =>
      if s0 <? RuneSelf then (s0, 1%nat)
      else if within 0xC2 0xDF s0 then
        match p1 with
        | s1 :: _ =>
            if accept s0 s1
            then (Z.lor (Z.shiftl (Z.land s0 0x1F) 6) (payload s1), 2%nat)
            else (RuneError, 1%nat)
        | _ => (RuneError, 1%nat)
        end
      else if within 0xE0 0xEF s0 then
        match p1 with
        | s1 :: s2 :: _ =>
            if accept s0 s1 && continuation s2
            then (Z.lor (Z.shiftl (Z.land s0 0x0F) 12)
                    (Z.lor (Z.shiftl (payload s1) 6) (payload s2)), 3%nat)
            else (RuneError, 1%nat)
        | _ => (RuneError, 1%nat)
        end
      else if within 0xF0 0xF4 s0 then
        match p1 with
        | s1 :: s2 :: s3 :: _ =>
            if accept s0 s1 && continuation s2 && continuation s3
            then (Z.lor (Z.shiftl (Z.land s0 0x07) 18)
                    (Z.lor (Z.shiftl (payload s1) 12)
                       (Z.lor (Z.shiftl (payload s2) 6) (payload s3))), 4%nat)
            else (RuneError, 1%nat)
        | _ => (RuneError, 1%nat)
        end
      else (RuneError, 1%nat)
  end.

(** [utf8.AppendRune]: a surrogate or a value out of range is written as
    [RuneError]. *)
Definition EncodeRune (r : Z) : list Z :=
  let three (r : Z) :=
    [Z.lor 0xE0 (Z.shiftr r 12);
     Z.lor 0x80 (payload (Z.shiftr r 6));
     Z.lor 0x80 (payload r)] in
  if within 0 0x7F r then [r]
  else if within 0x80 0x7FF r then
    [Z.lor 0xC0 (Z.shiftr r 6); Z.lor 0x80 (payload r)]
  else if (r <? 0) || (MaxRune <? r) || within 0xD800 0xDFFF r then
    three RuneError
  else if r <=? 0xFFFF then three r
  else
    [Z.lor 0xF0 (Z.shiftr r 18);
     Z.lor 0x80 (payload (Z.shiftr r 12));
     Z.lor 0x80 (payload (Z.shiftr r 6));
     Z.lor 0x80 (payload r)].

Definition RuneStart (b : Z) : bool := negb (Z.land b 0xC0 =? 0x80).

(** The backward scan of [DecodeLastRuneInString]: from [start] down to
    [lim], the first index of a byte that can start a rune; [lim - 1]
    when there is none. *)
Fixpoint scanBack (p : list Z) (start lim : Z) (tries : nat) : Z :=
  match tries with
  | O => start
  | S tries' =>
      if start <? lim then start
      else if RuneStart (nth (Z.to_nat start) p 0) then start
      else scanBack p (start - 1) lim tries'
  end.

(** [utf8.DecodeLastRuneInString]: the last rune of [p] and its width;
    at most [UTFMax = 4] bytes are looked at, and the rune found has to
    end exactly where [p] ends. *)
Definition DecodeLastRune (p : list Z) : Z * nat :=
  let end_ := Z.of_nat (List.length p) in
  if end_ =? 0 then (RuneError, 0%nat)
  else
    let last := nth (Z.to_nat (end_ - 1)) p 0 in
    if last <? RuneSelf then (last, 1%nat)
    else
      let lim := Z.max (end_ - 4) 0 in
      let start := Z.max (scanBack p (end_ - 2) lim 3) 0 in
      let (r, size) := DecodeRune (skipn (Z.to_nat start) p) in
      if start + Z.of_nat size =? end_ then (r, size) else (RuneError, 1%nat).

End utf8.

(* ------------------------------------------------------------------ *)
(** ** Package unicode *)

Module unicode.

(** The tables are those of Unicode 14.0.0.  A Go toolchain fixes the
    version of its own tables (13.0.0 up to Go 1.20, 15.0.0 from Go 1.21);
    the versions differ on code points assigned in between only, none of
    which is white space or has an ASCII letter for lower or title case. *)

Definition MaxASCII : Z := 0x7F.
Definition MaxLatin1 : Z := 0xFF.

(** Membership in a range table. *)
Fixpoint Is (table : list (Z * Z)) (r : Z) : bool :=
  match table with
  | [] => false
  | (lo, hi) :: table' => utf8.within lo hi r || Is table' r
  end.

(** A case table: from [lo] to [hi] in steps of [stride], the mapped
    rune is at distance [delta]. *)
Fixpoint delta (table : list (Z * Z * Z * Z)) (r : Z) : Z :=
  match table with
  | [] => 0
  | (lo, hi, stride, d) :: table' =>
      if utf8.within lo hi r && ((r - lo) mod stride =? 0) then d
      else delta table' r
  end.

(** [unicode.White_Space] above Latin-1. *)
Definition White_Space : list (Z * Z) :=
  [(0x1680, 0x1680); (0x2000, 0x200A); (0x2028, 0x2029); (0x202F, 0x202F);
   (0x205F, 0x205F); (0x3000, 0x3000)].

(** [unicode.Letter]: the categories Lu, Ll, Lt, Lm and Lo. *)
Definition Letter : list (Z * Z) :=
  [(0x41, 0x5A); (0x61, 0x7A); (0xAA, 0xAA); (0xB5, 0xB5); (0xBA, 0xBA);
   (0xC0, 0xD6); (0xD8, 0xF6); (0xF8, 0x2C1); (0x2C6, 0x2D1); (0x2E0, 0x2E4);
   (0x2EC, 0x2EC); (0x2EE, 0x2EE); (0x370, 0x374); (0x376, 0x377);
   (0x37A, 0x37D); (0x37F, 0x37F); (0x386, 0x386); (0x388, 0x38A);
   (0x38C, 0x38C); (0x38E, 0x3A1); (0x3A3, 0x3F5); (0x3F7, 0x481);
   (0x48A, 0x52F); (0x531, 0x556); (0x559, 0x559); (0x560, 0x588);
   (0x5D0, 0x5EA); (0x5EF, 0x5F2); (0x620, 0x64A); (0x66E, 0x66F);
   (0x671, 0x6D3); (0x6D5, 0x6D5); (0x6E5, 0x6E6); (0x6EE, 0x6EF);
   (0x6FA, 0x6FC); (0x6FF, 0x6FF); (0x710, 0x710); (0x712, 0x72F);
   (0x74D, 0x7A5); (0x7B1, 0x7B1); (0x7CA, 0x7EA); (0x7F4, 0x7F5);
   (0x7FA, 0x7FA); (0x800, 0x815); (0x81A, 0x81A); (0x824, 0x824);
   (0x828, 0x828); (0x840, 0x858); (0x860, 0x86A); (0x870, 0x887);
   (0x889, 0x88E); (0x8A0, 0x8C9); (0x904, 0x939); (0x93D, 0x93D);
   (0x950, 0x950); (0x958, 0x961); (0x971, 0x980); (0x985, 0x98C);
   (0x98F, 0x990); (0x993, 0x9A8); (0x9AA, 0x9B0); (0x9B2, 0x9B2);
   (0x9B6, 0x9B9); (0x9BD, 0x9BD); (0x9CE, 0x9CE); (0x9DC, 0x9DD);
   (0x9DF, 0x9E1); (0x9F0, 0x9F1); (0x9FC, 0x9FC); (0xA05, 0xA0A);
   (0xA0F, 0xA10); (0xA13, 0xA28); (0xA2A, 0xA30); (0xA32, 0xA33);
   (0xA35, 0xA36); (0xA38, 0xA39); (0xA59, 0xA5C); (0xA5E, 0xA5E);
   (0xA72, 0xA74); (0xA85, 0xA8D); (0xA8F, 0xA91); (0xA93, 0xAA8);
   (0xAAA, 0xAB0); (0xAB2, 0xAB3); (0xAB5, 0xAB9); (0xABD, 0xABD);
   (0xAD0, 0xAD0); (0xAE0, 0xAE1); (0xAF9, 0xAF9); (0xB05, 0xB0C);
   (0xB0F, 0xB10); (0xB13, 0xB28); (0xB2A, 0xB30); (0xB32, 0xB33);
   (0xB35, 0xB39); (0xB3D, 0xB3D); (0xB5C, 0xB5D); (0xB5F, 0xB61);
   (0xB71, 0xB71); (0xB83, 0xB83); (0xB85, 0xB8A); (0xB8E, 0xB90);
   (0xB92, 0xB95); (0xB99, 0xB9A); (0xB9C, 0xB9C); (0xB9E, 0xB9F);
   (0xBA3, 0xBA4); (0xBA8, 0xBAA); (0xBAE, 0xBB9); (0xBD0, 0xBD0);
   (0xC05, 0xC0C); (0xC0E, 0xC10); (0xC12, 0xC28); (0xC2A, 0xC39);
   (0xC3D, 0xC3D); (0xC58, 0xC5A); (0xC5D, 0xC5D); (0xC60, 0xC61);
   (0xC80, 0xC80); (0xC85, 0xC8C); (0xC8E, 0xC90); (0xC92, 0xCA8);
   (0xCAA, 0xCB3); (0xCB5, 0xCB9); (0xCBD, 0xCBD); (0xCDD, 0xCDE);
   (0xCE0, 0xCE1); (0xCF1, 0xCF2); (0xD04, 0xD0C); (0xD0E, 0xD10);
   (0xD12, 0xD3A); (0xD3D, 0xD3D); (0xD4E, 0xD4E); (0xD54, 0xD56);
   (0xD5F, 0xD61); (0xD7A, 0xD7F); (0xD85, 0xD96); (0xD9A, 0xDB1);
   (0xDB3, 0xDBB); (0xDBD, 0xDBD); (0xDC0, 0xDC6); (0xE01, 0xE30);
   (0xE32, 0xE33); (0xE40, 0xE46); (0xE81, 0xE82); (0xE84, 0xE84);
   (0xE86, 0xE8A); (0xE8C, 0xEA3); (0xEA5, 0xEA5); (0xEA7, 0xEB0);
   (0xEB2, 0xEB3); (0xEBD, 0xEBD); (0xEC0, 0xEC4); (0xEC6, 0xEC6);
   (0xEDC, 0xEDF); (0xF00, 0xF00); (0xF40, 0xF47); (0xF49, 0xF6C);
   (0xF88, 0xF8C); (0x1000, 0x102A); (0x103F, 0x103F); (0x1050, 0x1055);
   (0x105A, 0x105D); (0x1061, 0x1061); (0x1065, 0x1066); (0x106E, 0x1070);
   (0x1075, 0x1081); (0x108E, 0x108E); (0x10A0, 0x10C5); (0x10C7, 0x10C7);
   (0x10CD, 0x10CD); (0x10D0, 0x10FA); (0x10FC, 0x1248); (0x124A, 0x124D);
   (0x1250, 0x1256); (0x1258, 0x1258); (0x125A, 0x125D); (0x1260, 0x1288);
   (0x128A, 0x128D); (0x1290, 0x12B0); (0x12B2, 0x12B5); (0x12B8, 0x12BE);
   (0x12C0, 0x12C0); (0x12C2, 0x12C5); (0x12C8, 0x12D6); (0x12D8, 0x1310);
   (0x1312, 0x1315); (0x1318, 0x135A); (0x1380, 0x138F); (0x13A0, 0x13F5);
   (0x13F8, 0x13FD); (0x1401, 0x166C); (0x166F, 0x167F); (0x1681, 0x169A);
   (0x16A0, 0x16EA); (0x16F1, 0x16F8); (0x1700, 0x1711); (0x171F, 0x1731);
   (0x1740, 0x1751); (0x1760, 0x176C); (0x176E, 0x1770); (0x1780, 0x17B3);
   (0x17D7, 0x17D7); (0x17DC, 0x17DC); (0x1820, 0x1878); (0x1880, 0x1884);
   (0x1887, 0x18A8); (0x18AA, 0x18AA); (0x18B0, 0x18F5); (0x1900, 0x191E);
   (0x1950, 0x196D); (0x1970, 0x1974); (0x1980, 0x19AB); (0x19B0, 0x19C9);
   (0x1A00, 0x1A16); (0x1A20, 0x1A54); (0x1AA7, 0x1AA7); (0x1B05, 0x1B33);
   (0x1B45, 0x1B4C); (0x1B83, 0x1BA0); (0x1BAE, 0x1BAF); (0x1BBA, 0x1BE5);
   (0x1C00, 0x1C23); (0x1C4D, 0x1C4F); (0x1C5A, 0x1C7D); (0x1C80, 0x1C88);
   (0x1C90, 0x1CBA); (0x1CBD, 0x1CBF); (0x1CE9, 0x1CEC); (0x1CEE, 0x1CF3);
   (0x1CF5, 0x1CF6); (0x1CFA, 0x1CFA); (0x1D00, 0x1DBF); (0x1E00, 0x1F15);
   (0x1F18, 0x1F1D); (0x1F20, 0x1F45); (0x1F48, 0x1F4D); (0x1F50, 0x1F57);
   (0x1F59, 0x1F59); (0x1F5B, 0x1F5B); (0x1F5D, 0x1F5D); (0x1F5F, 0x1F7D);
   (0x1F80, 0x1FB4); (0x1FB6, 0x1FBC); (0x1FBE, 0x1FBE); (0x1FC2, 0x1FC4);
   (0x1FC6, 0x1FCC); (0x1FD0, 0x1FD3); (0x1FD6, 0x1FDB); (0x1FE0, 0x1FEC);
   (0x1FF2, 0x1FF4); (0x1FF6, 0x1FFC); (0x2071, 0x2071); (0x207F, 0x207F);
   (0x2090, 0x209C); (0x2102, 0x2102); (0x2107, 0x2107); (0x210A, 0x2113);
   (0x2115, 0x2115); (0x2119, 0x211D); (0x2124, 0x2124); (0x2126, 0x2126);
   (0x2128, 0x2128); (0x212A, 0x212D); (0x212F, 0x2139); (0x213C, 0x213F);
   (0x2145, 0x2149); (0x214E, 0x214E); (0x2183, 0x2184); (0x2C00, 0x2CE4);
   (0x2CEB, 0x2CEE); (0x2CF2, 0x2CF3); (0x2D00, 0x2D25); (0x2D27, 0x2D27);
   (0x2D2D, 0x2D2D); (0x2D30, 0x2D67); (0x2D6F, 0x2D6F); (0x2D80, 0x2D96);
   (0x2DA0, 0x2DA6); (0x2DA8, 0x2DAE); (0x2DB0, 0x2DB6); (0x2DB8, 0x2DBE);
   (0x2DC0, 0x2DC6); (0x2DC8, 0x2DCE); (0x2DD0, 0x2DD6); (0x2DD8, 0x2DDE);
   (0x2E2F, 0x2E2F); (0x3005, 0x3006); (0x3031, 0x3035); (0x303B, 0x303C);
   (0x3041, 0x3096); (0x309D, 0x309F); (0x30A1, 0x30FA); (0x30FC, 0x30FF);
   (0x3105, 0x312F); (0x3131, 0x318E); (0x31A0, 0x31BF); (0x31F0, 0x31FF);
   (0x3400, 0x4DBF); (0x4E00, 0xA48C); (0xA4D0, 0xA4FD); (0xA500, 0xA60C);
   (0xA610, 0xA61F); (0xA62A, 0xA62B); (0xA640, 0xA66E); (0xA67F, 0xA69D);
   (0xA6A0, 0xA6E5); (0xA717, 0xA71F); (0xA722, 0xA788); (0xA78B, 0xA7CA);
   (0xA7D0, 0xA7D1); (0xA7D3, 0xA7D3); (0xA7D5, 0xA7D9); (0xA7F2, 0xA801);
   (0xA803, 0xA805); (0xA807, 0xA80A); (0xA80C, 0xA822); (0xA840, 0xA873);
   (0xA882, 0xA8B3); (0xA8F2, 0xA8F7); (0xA8FB, 0xA8FB); (0xA8FD, 0xA8FE);
   (0xA90A, 0xA925); (0xA930, 0xA946); (0xA960, 0xA97C); (0xA984, 0xA9B2);
   (0xA9CF, 0xA9CF); (0xA9E0, 0xA9E4); (0xA9E6, 0xA9EF); (0xA9FA, 0xA9FE);
   (0xAA00, 0xAA28); (0xAA40, 0xAA42); (0xAA44, 0xAA4B); (0xAA60, 0xAA76);
   (0xAA7A, 0xAA7A); (0xAA7E, 0xAAAF); (0xAAB1, 0xAAB1); (0xAAB5, 0xAAB6);
   (0xAAB9, 0xAABD); (0xAAC0, 0xAAC0); (0xAAC2, 0xAAC2); (0xAADB, 0xAADD);
   (0xAAE0, 0xAAEA); (0xAAF2, 0xAAF4); (0xAB01, 0xAB06); (0xAB09, 0xAB0E);
   (0xAB11, 0xAB16); (0xAB20, 0xAB26); (0xAB28, 0xAB2E); (0xAB30, 0xAB5A);
   (0xAB5C, 0xAB69); (0xAB70, 0xABE2); (0xAC00, 0xD7A3); (0xD7B0, 0xD7C6);
   (0xD7CB, 0xD7FB); (0xF900, 0xFA6D); (0xFA70, 0xFAD9); (0xFB00, 0xFB06);
   (0xFB13, 0xFB17); (0xFB1D, 0xFB1D); (0xFB1F, 0xFB28); (0xFB2A, 0xFB36);
   (0xFB38, 0xFB3C); (0xFB3E, 0xFB3E); (0xFB40, 0xFB41); (0xFB43, 0xFB44);
   (0xFB46, 0xFBB1); (0xFBD3, 0xFD3D); (0xFD50, 0xFD8F); (0xFD92, 0xFDC7);
   (0xFDF0, 0xFDFB); (0xFE70, 0xFE74); (0xFE76, 0xFEFC); (0xFF21, 0xFF3A);
   (0xFF41, 0xFF5A); (0xFF66, 0xFFBE); (0xFFC2, 0xFFC7); (0xFFCA, 0xFFCF);
   (0xFFD2, 0xFFD7); (0xFFDA, 0xFFDC); (0x10000, 0x1000B);
   (0x1000D, 0x10026); (0x10028, 0x1003A); (0x1003C, 0x1003D);
   (0x1003F, 0x1004D); (0x10050, 0x1005D); (0x10080, 0x100FA);
   (0x10280, 0x1029C); (0x102A0, 0x102D0); (0x10300, 0x1031F);
   (0x1032D, 0x10340); (0x10342, 0x10349); (0x10350, 0x10375);
   (0x10380, 0x1039D); (0x103A0, 0x103C3); (0x103C8, 0x103CF);
   (0x10400, 0x1049D); (0x104B0, 0x104D3); (0x104D8, 0x104FB);
   (0x10500, 0x10527); (0x10530, 0x10563); (0x10570, 0x1057A);
   (0x1057C, 0x1058A); (0x1058C, 0x10592); (0x10594, 0x10595);
   (0x10597, 0x105A1); (0x105A3, 0x105B1); (0x105B3, 0x105B9);
   (0x105BB, 0x105BC); (0x10600, 0x10736); (0x10740, 0x10755);
   (0x10760, 0x10767); (0x10780, 0x10785); (0x10787, 0x107B0);
   (0x107B2, 0x107BA); (0x10800, 0x10805); (0x10808, 0x10808);
   (0x1080A, 0x10835); (0x10837, 0x10838); (0x1083C, 0x1083C);
   (0x1083F, 0x10855); (0x10860, 0x10876); (0x10880, 0x1089E);
   (0x108E0, 0x108F2); (0x108F4, 0x108F5); (0x10900, 0x10915);
   (0x10920, 0x10939); (0x10980, 0x109B7); (0x109BE, 0x109BF);
   (0x10A00, 0x10A00); (0x10A10, 0x10A13); (0x10A15, 0x10A17);
   (0x10A19, 0x10A35); (0x10A60, 0x10A7C); (0x10A80, 0x10A9C);
   (0x10AC0, 0x10AC7); (0x10AC9, 0x10AE4); (0x10B00, 0x10B35);
   (0x10B40, 0x10B55); (0x10B60, 0x10B72); (0x10B80, 0x10B91);
   (0x10C00, 0x10C48); (0x10C80, 0x10CB2); (0x10CC0, 0x10CF2);
   (0x10D00, 0x10D23); (0x10E80, 0x10EA9); (0x10EB0, 0x10EB1);
   (0x10F00, 0x10F1C); (0x10F27, 0x10F27); (0x10F30, 0x10F45);
   (0x10F70, 0x10F81); (0x10FB0, 0x10FC4); (0x10FE0, 0x10FF6);
   (0x11003, 0x11037); (0x11071, 0x11072); (0x11075, 0x11075);
   (0x11083, 0x110AF); (0x110D0, 0x110E8); (0x11103, 0x11126);
   (0x11144, 0x11144); (0x11147, 0x11147); (0x11150, 0x11172);
   (0x11176, 0x11176); (0x11183, 0x111B2); (0x111C1, 0x111C4);
   (0x111DA, 0x111DA); (0x111DC, 0x111DC); (0x11200, 0x11211);
   (0x11213, 0x1122B); (0x11280, 0x11286); (0x11288, 0x11288);
   (0x1128A, 0x1128D); (0x1128F, 0x1129D); (0x1129F, 0x112A8);
   (0x112B0, 0x112DE); (0x11305, 0x1130C); (0x1130F, 0x11310);
   (0x11313, 0x11328); (0x1132A, 0x11330); (0x11332, 0x11333);
   (0x11335, 0x11339); (0x1133D, 0x1133D); (0x11350, 0x11350);
   (0x1135D, 0x11361); (0x11400, 0x11434); (0x11447, 0x1144A);
   (0x1145F, 0x11461); (0x11480, 0x114AF); (0x114C4, 0x114C5);
   (0x114C7, 0x114C7); (0x11580, 0x115AE); (0x115D8, 0x115DB);
   (0x11600, 0x1162F); (0x11644, 0x11644); (0x11680, 0x116AA);
   (0x116B8, 0x116B8); (0x11700, 0x1171A); (0x11740, 0x11746);
   (0x11800, 0x1182B); (0x118A0, 0x118DF); (0x118FF, 0x11906);
   (0x11909, 0x11909); (0x1190C, 0x11913); (0x11915, 0x11916);
   (0x11918, 0x1192F); (0x1193F, 0x1193F); (0x11941, 0x11941);
   (0x119A0, 0x119A7); (0x119AA, 0x119D0); (0x119E1, 0x119E1);
   (0x119E3, 0x119E3); (0x11A00, 0x11A00); (0x11A0B, 0x11A32);
   (0x11A3A, 0x11A3A); (0x11A50, 0x11A50); (0x11A5C, 0x11A89);
   (0x11A9D, 0x11A9D); (0x11AB0, 0x11AF8); (0x11C00, 0x11C08);
   (0x11C0A, 0x11C2E); (0x11C40, 0x11C40); (0x11C72, 0x11C8F);
   (0x11D00, 0x11D06); (0x11D08, 0x11D09); (0x11D0B, 0x11D30);
   (0x11D46, 0x11D46); (0x11D60, 0x11D65); (0x11D67, 0x11D68);
   (0x11D6A, 0x11D89); (0x11D98, 0x11D98); (0x11EE0, 0x11EF2);
   (0x11FB0, 0x11FB0); (0x12000, 0x12399); (0x12480, 0x12543);
   (0x12F90, 0x12FF0); (0x13000, 0x1342E); (0x14400, 0x14646);
   (0x16800, 0x16A38); (0x16A40, 0x16A5E); (0x16A70, 0x16ABE);
   (0x16AD0, 0x16AED); (0x16B00, 0x16B2F); (0x16B40, 0x16B43);
   (0x16B63, 0x16B77); (0x16B7D, 0x16B8F); (0x16E40, 0x16E7F);
   (0x16F00, 0x16F4A); (0x16F50, 0x16F50); (0x16F93, 0x16F9F);
   (0x16FE0, 0x16FE1); (0x16FE3, 0x16FE3); (0x17000, 0x187F7);
   (0x18800, 0x18CD5); (0x18D00, 0x18D08); (0x1AFF0, 0x1AFF3);
   (0x1AFF5, 0x1AFFB); (0x1AFFD, 0x1AFFE); (0x1B000, 0x1B122);
   (0x1B150, 0x1B152); (0x1B164, 0x1B167); (0x1B170, 0x1B2FB);
   (0x1BC00, 0x1BC6A); (0x1BC70, 0x1BC7C); (0x1BC80, 0x1BC88);
   (0x1BC90, 0x1BC99); (0x1D400, 0x1D454); (0x1D456, 0x1D49C);
   (0x1D49E, 0x1D49F); (0x1D4A2, 0x1D4A2); (0x1D4A5, 0x1D4A6);
   (0x1D4A9, 0x1D4AC); (0x1D4AE, 0x1D4B9); (0x1D4BB, 0x1D4BB);
   (0x1D4BD, 0x1D4C3); (0x1D4C5, 0x1D505); (0x1D507, 0x1D50A);
   (0x1D50D, 0x1D514); (0x1D516, 0x1D51C); (0x1D51E, 0x1D539);
   (0x1D53B, 0x1D53E); (0x1D540, 0x1D544); (0x1D546, 0x1D546);
   (0x1D54A, 0x1D550); (0x1D552, 0x1D6A5); (0x1D6A8, 0x1D6C0);
   (0x1D6C2, 0x1D6DA); (0x1D6DC, 0x1D6FA); (0x1D6FC, 0x1D714);
   (0x1D716, 0x1D734); (0x1D736, 0x1D74E); (0x1D750, 0x1D76E);
   (0x1D770, 0x1D788); (0x1D78A, 0x1D7A8); (0x1D7AA, 0x1D7C2);
   (0x1D7C4, 0x1D7CB); (0x1DF00, 0x1DF1E); (0x1E100, 0x1E12C);
   (0x1E137, 0x1E13D); (0x1E14E, 0x1E14E); (0x1E290, 0x1E2AD);
   (0x1E2C0, 0x1E2EB); (0x1E7E0, 0x1E7E6); (0x1E7E8, 0x1E7EB);
   (0x1E7ED, 0x1E7EE); (0x1E7F0, 0x1E7FE); (0x1E800, 0x1E8C4);
   (0x1E900, 0x1E943); (0x1E94B, 0x1E94B); (0x1EE00, 0x1EE03);
   (0x1EE05, 0x1EE1F); (0x1EE21, 0x1EE22); (0x1EE24, 0x1EE24);
   (0x1EE27, 0x1EE27); (0x1EE29, 0x1EE32); (0x1EE34, 0x1EE37);
   (0x1EE39, 0x1EE39); (0x1EE3B, 0x1EE3B); (0x1EE42, 0x1EE42);
   (0x1EE47, 0x1EE47); (0x1EE49, 0x1EE49); (0x1EE4B, 0x1EE4B);
   (0x1EE4D, 0x1EE4F); (0x1EE51, 0x1EE52); (0x1EE54, 0x1EE54);
   (0x1EE57, 0x1EE57); (0x1EE59, 0x1EE59); (0x1EE5B, 0x1EE5B);
   (0x1EE5D, 0x1EE5D); (0x1EE5F, 0x1EE5F); (0x1EE61, 0x1EE62);
   (0x1EE64, 0x1EE64); (0x1EE67, 0x1EE6A); (0x1EE6C, 0x1EE72);
   (0x1EE74, 0x1EE77); (0x1EE79, 0x1EE7C); (0x1EE7E, 0x1EE7E);
   (0x1EE80, 0x1EE89); (0x1EE8B, 0x1EE9B); (0x1EEA1, 0x1EEA3);
   (0x1EEA5, 0x1EEA9); (0x1EEAB, 0x1EEBB); (0x20000, 0x2A6DF);
   (0x2A700, 0x2B738); (0x2B740, 0x2B81D); (0x2B820, 0x2CEA1);
   (0x2CEB0, 0x2EBE0); (0x2F800, 0x2FA1D); (0x30000, 0x3134A)].

(** [unicode.Digit]: the category Nd. *)
Definition Digit : list (Z * Z) :=
  [(0x30, 0x39); (0x660, 0x669); (0x6F0, 0x6F9); (0x7C0, 0x7C9);
   (0x966, 0x96F); (0x9E6, 0x9EF); (0xA66, 0xA6F); (0xAE6, 0xAEF);
   (0xB66, 0xB6F); (0xBE6, 0xBEF); (0xC66, 0xC6F); (0xCE6, 0xCEF);
   (0xD66, 0xD6F); (0xDE6, 0xDEF); (0xE50, 0xE59); (0xED0, 0xED9);
   (0xF20, 0xF29); (0x1040, 0x1049); (0x1090, 0x1099); (0x17E0, 0x17E9);
   (0x1810, 0x1819); (0x1946, 0x194F); (0x19D0, 0x19D9); (0x1A80, 0x1A89);
   (0x1A90, 0x1A99); (0x1B50, 0x1B59); (0x1BB0, 0x1BB9); (0x1C40, 0x1C49);
   (0x1C50, 0x1C59); (0xA620, 0xA629); (0xA8D0, 0xA8D9); (0xA900, 0xA909);
   (0xA9D0, 0xA9D9); (0xA9F0, 0xA9F9); (0xAA50, 0xAA59); (0xABF0, 0xABF9);
   (0xFF10, 0xFF19); (0x104A0, 0x104A9); (0x10D30, 0x10D39);
   (0x11066, 0x1106F); (0x110F0, 0x110F9); (0x11136, 0x1113F);
   (0x111D0, 0x111D9); (0x112F0, 0x112F9); (0x11450, 0x11459);
   (0x114D0, 0x114D9); (0x11650, 0x11659); (0x116C0, 0x116C9);
   (0x11730, 0x11739); (0x118E0, 0x118E9); (0x11950, 0x11959);
   (0x11C50, 0x11C59); (0x11D50, 0x11D59); (0x11DA0, 0x11DA9);
   (0x16A60, 0x16A69); (0x16AC0, 0x16AC9); (0x16B50, 0x16B59);
   (0x1D7CE, 0x1D7FF); (0x1E140, 0x1E149); (0x1E2F0, 0x1E2F9);
   (0x1E950, 0x1E959); (0x1FBF0, 0x1FBF9)].

(** [unicode.CaseRanges], the distance to the lower case of the runes
    above ASCII that have one; the alternating ranges are written as runs
    of stride 2. *)
Definition lowerCase : list (Z * Z * Z * Z) :=
  [(0xC0, 0xD6, 1, 32); (0xD8, 0xDE, 1, 32); (0x100, 0x12E, 2, 1);
   (0x130, 0x130, 1, (-199)); (0x132, 0x136, 2, 1); (0x139, 0x147, 2, 1);
   (0x14A, 0x176, 2, 1); (0x178, 0x178, 1, (-121)); (0x179, 0x17D, 2, 1);
   (0x181, 0x181, 1, 210); (0x182, 0x184, 2, 1); (0x186, 0x186, 1, 206);
   (0x187, 0x187, 1, 1); (0x189, 0x18A, 1, 205); (0x18B, 0x18B, 1, 1);
   (0x18E, 0x18E, 1, 79); (0x18F, 0x18F, 1, 202); (0x190, 0x190, 1, 203);
   (0x191, 0x191, 1, 1); (0x193, 0x193, 1, 205); (0x194, 0x194, 1, 207);
   (0x196, 0x196, 1, 211); (0x197, 0x197, 1, 209); (0x198, 0x198, 1, 1);
   (0x19C, 0x19C, 1, 211); (0x19D, 0x19D, 1, 213); (0x19F, 0x19F, 1, 214);
   (0x1A0, 0x1A4, 2, 1); (0x1A6, 0x1A6, 1, 218); (0x1A7, 0x1A7, 1, 1);
   (0x1A9, 0x1A9, 1, 218); (0x1AC, 0x1AC, 1, 1); (0x1AE, 0x1AE, 1, 218);
   (0x1AF, 0x1AF, 1, 1); (0x1B1, 0x1B2, 1, 217); (0x1B3, 0x1B5, 2, 1);
   (0x1B7, 0x1B7, 1, 219); (0x1B8, 0x1B8, 1, 1); (0x1BC, 0x1BC, 1, 1);
   (0x1C4, 0x1C4, 1, 2); (0x1C5, 0x1C5, 1, 1); (0x1C7, 0x1C7, 1, 2);
   (0x1C8, 0x1C8, 1, 1); (0x1CA, 0x1CA, 1, 2); (0x1CB, 0x1DB, 2, 1);
   (0x1DE, 0x1EE, 2, 1); (0x1F1, 0x1F1, 1, 2); (0x1F2, 0x1F4, 2, 1);
   (0x1F6, 0x1F6, 1, (-97)); (0x1F7, 0x1F7, 1, (-56)); (0x1F8, 0x21E, 2, 1);
   (0x220, 0x220, 1, (-130)); (0x222, 0x232, 2, 1); (0x23A, 0x23A, 1, 10795);
   (0x23B, 0x23B, 1, 1); (0x23D, 0x23D, 1, (-163)); (0x23E, 0x23E, 1, 10792);
   (0x241, 0x241, 1, 1); (0x243, 0x243, 1, (-195)); (0x244, 0x244, 1, 69);
   (0x245, 0x245, 1, 71); (0x246, 0x24E, 2, 1); (0x370, 0x372, 2, 1);
   (0x376, 0x376, 1, 1); (0x37F, 0x37F, 1, 116); (0x386, 0x386, 1, 38);
   (0x388, 0x38A, 1, 37); (0x38C, 0x38C, 1, 64); (0x38E, 0x38F, 1, 63);
   (0x391, 0x3A1, 1, 32); (0x3A3, 0x3AB, 1, 32); (0x3CF, 0x3CF, 1, 8);
   (0x3D8, 0x3EE, 2, 1); (0x3F4, 0x3F4, 1, (-60)); (0x3F7, 0x3F7, 1, 1);
   (0x3F9, 0x3F9, 1, (-7)); (0x3FA, 0x3FA, 1, 1); (0x3FD, 0x3FF, 1, (-130));
   (0x400, 0x40F, 1, 80); (0x410, 0x42F, 1, 32); (0x460, 0x480, 2, 1);
   (0x48A, 0x4BE, 2, 1); (0x4C0, 0x4C0, 1, 15); (0x4C1, 0x4CD, 2, 1);
   (0x4D0, 0x52E, 2, 1); (0x531, 0x556, 1, 48); (0x10A0, 0x10C5, 1, 7264);
   (0x10C7, 0x10C7, 1, 7264); (0x10CD, 0x10CD, 1, 7264);
   (0x13A0, 0x13EF, 1, 38864); (0x13F0, 0x13F5, 1, 8);
   (0x1C90, 0x1CBA, 1, (-3008)); (0x1CBD, 0x1CBF, 1, (-3008));
   (0x1E00, 0x1E94, 2, 1); (0x1E9E, 0x1E9E, 1, (-7615));
   (0x1EA0, 0x1EFE, 2, 1); (0x1F08, 0x1F0F, 1, (-8));
   (0x1F18, 0x1F1D, 1, (-8)); (0x1F28, 0x1F2F, 1, (-8));
   (0x1F38, 0x1F3F, 1, (-8)); (0x1F48, 0x1F4D, 1, (-8));
   (0x1F59, 0x1F5F, 2, (-8)); (0x1F68, 0x1F6F, 1, (-8));
   (0x1F88, 0x1F8F, 1, (-8)); (0x1F98, 0x1F9F, 1, (-8));
   (0x1FA8, 0x1FAF, 1, (-8)); (0x1FB8, 0x1FB9, 1, (-8));
   (0x1FBA, 0x1FBB, 1, (-74)); (0x1FBC, 0x1FBC, 1, (-9));
   (0x1FC8, 0x1FCB, 1, (-86)); (0x1FCC, 0x1FCC, 1, (-9));
   (0x1FD8, 0x1FD9, 1, (-8)); (0x1FDA, 0x1FDB, 1, (-100));
   (0x1FE8, 0x1FE9, 1, (-8)); (0x1FEA, 0x1FEB, 1, (-112));
   (0x1FEC, 0x1FEC, 1, (-7)); (0x1FF8, 0x1FF9, 1, (-128));
   (0x1FFA, 0x1FFB, 1, (-126)); (0x1FFC, 0x1FFC, 1, (-9));
   (0x2126, 0x2126, 1, (-7517)); (0x212A, 0x212A, 1, (-8383));
   (0x212B, 0x212B, 1, (-8262)); (0x2132, 0x2132, 1, 28);
   (0x2160, 0x216F, 1, 16); (0x2183, 0x2183, 1, 1); (0x24B6, 0x24CF, 1, 26);
   (0x2C00, 0x2C2F, 1, 48); (0x2C60, 0x2C60, 1, 1);
   (0x2C62, 0x2C62, 1, (-10743)); (0x2C63, 0x2C63, 1, (-3814));
   (0x2C64, 0x2C64, 1, (-10727)); (0x2C67, 0x2C6B, 2, 1);
   (0x2C6D, 0x2C6D, 1, (-10780)); (0x2C6E, 0x2C6E, 1, (-10749));
   (0x2C6F, 0x2C6F, 1, (-10783)); (0x2C70, 0x2C70, 1, (-10782));
   (0x2C72, 0x2C72, 1, 1); (0x2C75, 0x2C75, 1, 1);
   (0x2C7E, 0x2C7F, 1, (-10815)); (0x2C80, 0x2CE2, 2, 1);
   (0x2CEB, 0x2CED, 2, 1); (0x2CF2, 0x2CF2, 1, 1); (0xA640, 0xA66C, 2, 1);
   (0xA680, 0xA69A, 2, 1); (0xA722, 0xA72E, 2, 1); (0xA732, 0xA76E, 2, 1);
   (0xA779, 0xA77B, 2, 1); (0xA77D, 0xA77D, 1, (-35332));
   (0xA77E, 0xA786, 2, 1); (0xA78B, 0xA78B, 1, 1);
   (0xA78D, 0xA78D, 1, (-42280)); (0xA790, 0xA792, 2, 1);
   (0xA796, 0xA7A8, 2, 1); (0xA7AA, 0xA7AA, 1, (-42308));
   (0xA7AB, 0xA7AB, 1, (-42319)); (0xA7AC, 0xA7AC, 1, (-42315));
   (0xA7AD, 0xA7AD, 1, (-42305)); (0xA7AE, 0xA7AE, 1, (-42308));
   (0xA7B0, 0xA7B0, 1, (-42258)); (0xA7B1, 0xA7B1, 1, (-42282));
   (0xA7B2, 0xA7B2, 1, (-42261)); (0xA7B3, 0xA7B3, 1, 928);
   (0xA7B4, 0xA7C2, 2, 1); (0xA7C4, 0xA7C4, 1, (-48));
   (0xA7C5, 0xA7C5, 1, (-42307)); (0xA7C6, 0xA7C6, 1, (-35384));
   (0xA7C7, 0xA7C9, 2, 1); (0xA7D0, 0xA7D0, 1, 1); (0xA7D6, 0xA7D8, 2, 1);
   (0xA7F5, 0xA7F5, 1, 1); (0xFF21, 0xFF3A, 1, 32);
   (0x10400, 0x10427, 1, 40); (0x104B0, 0x104D3, 1, 40);
   (0x10570, 0x1057A, 1, 39); (0x1057C, 0x1058A, 1, 39);
   (0x1058C, 0x10592, 1, 39); (0x10594, 0x10595, 1, 39);
   (0x10C80, 0x10CB2, 1, 64); (0x118A0, 0x118BF, 1, 32);
   (0x16E40, 0x16E5F, 1, 32); (0x1E900, 0x1E921, 1, 34)].

(** [unicode.CaseRanges], the distance to the title case. *)
Definition titleCase : list (Z * Z * Z * Z) :=
  [(0xB5, 0xB5, 1, 743); (0xE0, 0xF6, 1, (-32)); (0xF8, 0xFE, 1, (-32));
   (0xFF, 0xFF, 1, 121); (0x101, 0x12F, 2, (-1)); (0x131, 0x131, 1, (-232));
   (0x133, 0x137, 2, (-1)); (0x13A, 0x148, 2, (-1)); (0x14B, 0x177, 2, (-1));
   (0x17A, 0x17E, 2, (-1)); (0x17F, 0x17F, 1, (-300));
   (0x180, 0x180, 1, 195); (0x183, 0x185, 2, (-1)); (0x188, 0x188, 1, (-1));
   (0x18C, 0x18C, 1, (-1)); (0x192, 0x192, 1, (-1)); (0x195, 0x195, 1, 97);
   (0x199, 0x199, 1, (-1)); (0x19A, 0x19A, 1, 163); (0x19E, 0x19E, 1, 130);
   (0x1A1, 0x1A5, 2, (-1)); (0x1A8, 0x1A8, 1, (-1)); (0x1AD, 0x1AD, 1, (-1));
   (0x1B0, 0x1B0, 1, (-1)); (0x1B4, 0x1B6, 2, (-1)); (0x1B9, 0x1B9, 1, (-1));
   (0x1BD, 0x1BD, 1, (-1)); (0x1BF, 0x1BF, 1, 56); (0x1C4, 0x1C4, 1, 1);
   (0x1C6, 0x1C6, 1, (-1)); (0x1C7, 0x1C7, 1, 1); (0x1C9, 0x1C9, 1, (-1));
   (0x1CA, 0x1CA, 1, 1); (0x1CC, 0x1DC, 2, (-1)); (0x1DD, 0x1DD, 1, (-79));
   (0x1DF, 0x1EF, 2, (-1)); (0x1F1, 0x1F1, 1, 1); (0x1F3, 0x1F5, 2, (-1));
   (0x1F9, 0x21F, 2, (-1)); (0x223, 0x233, 2, (-1)); (0x23C, 0x23C, 1, (-1));
   (0x23F, 0x240, 1, 10815); (0x242, 0x242, 1, (-1));
   (0x247, 0x24F, 2, (-1)); (0x250, 0x250, 1, 10783);
   (0x251, 0x251, 1, 10780); (0x252, 0x252, 1, 10782);
   (0x253, 0x253, 1, (-210)); (0x254, 0x254, 1, (-206));
   (0x256, 0x257, 1, (-205)); (0x259, 0x259, 1, (-202));
   (0x25B, 0x25B, 1, (-203)); (0x25C, 0x25C, 1, 42319);
   (0x260, 0x260, 1, (-205)); (0x261, 0x261, 1, 42315);
   (0x263, 0x263, 1, (-207)); (0x265, 0x265, 1, 42280);
   (0x266, 0x266, 1, 42308); (0x268, 0x268, 1, (-209));
   (0x269, 0x269, 1, (-211)); (0x26A, 0x26A, 1, 42308);
   (0x26B, 0x26B, 1, 10743); (0x26C, 0x26C, 1, 42305);
   (0x26F, 0x26F, 1, (-211)); (0x271, 0x271, 1, 10749);
   (0x272, 0x272, 1, (-213)); (0x275, 0x275, 1, (-214));
   (0x27D, 0x27D, 1, 10727); (0x280, 0x280, 1, (-218));
   (0x282, 0x282, 1, 42307); (0x283, 0x283, 1, (-218));
   (0x287, 0x287, 1, 42282); (0x288, 0x288, 1, (-218));
   (0x289, 0x289, 1, (-69)); (0x28A, 0x28B, 1, (-217));
   (0x28C, 0x28C, 1, (-71)); (0x292, 0x292, 1, (-219));
   (0x29D, 0x29D, 1, 42261); (0x29E, 0x29E, 1, 42258); (0x345, 0x345, 1, 84);
   (0x371, 0x373, 2, (-1)); (0x377, 0x377, 1, (-1)); (0x37B, 0x37D, 1, 130);
   (0x3AC, 0x3AC, 1, (-38)); (0x3AD, 0x3AF, 1, (-37));
   (0x3B1, 0x3C1, 1, (-32)); (0x3C2, 0x3C2, 1, (-31));
   (0x3C3, 0x3CB, 1, (-32)); (0x3CC, 0x3CC, 1, (-64));
   (0x3CD, 0x3CE, 1, (-63)); (0x3D0, 0x3D0, 1, (-62));
   (0x3D1, 0x3D1, 1, (-57)); (0x3D5, 0x3D5, 1, (-47));
   (0x3D6, 0x3D6, 1, (-54)); (0x3D7, 0x3D7, 1, (-8));
   (0x3D9, 0x3EF, 2, (-1)); (0x3F0, 0x3F0, 1, (-86));
   (0x3F1, 0x3F1, 1, (-80)); (0x3F2, 0x3F2, 1, 7); (0x3F3, 0x3F3, 1, (-116));
   (0x3F5, 0x3F5, 1, (-96)); (0x3F8, 0x3F8, 1, (-1));
   (0x3FB, 0x3FB, 1, (-1)); (0x430, 0x44F, 1, (-32));
   (0x450, 0x45F, 1, (-80)); (0x461, 0x481, 2, (-1));
   (0x48B, 0x4BF, 2, (-1)); (0x4C2, 0x4CE, 2, (-1));
   (0x4CF, 0x4CF, 1, (-15)); (0x4D1, 0x52F, 2, (-1));
   (0x561, 0x586, 1, (-48)); (0x13F8, 0x13FD, 1, (-8));
   (0x1C80, 0x1C80, 1, (-6254)); (0x1C81, 0x1C81, 1, (-6253));
   (0x1C82, 0x1C82, 1, (-6244)); (0x1C83, 0x1C84, 1, (-6242));
   (0x1C85, 0x1C85, 1, (-6243)); (0x1C86, 0x1C86, 1, (-6236));
   (0x1C87, 0x1C87, 1, (-6181)); (0x1C88, 0x1C88, 1, 35266);
   (0x1D79, 0x1D79, 1, 35332); (0x1D7D, 0x1D7D, 1, 3814);
   (0x1D8E, 0x1D8E, 1, 35384); (0x1E01, 0x1E95, 2, (-1));
   (0x1E9B, 0x1E9B, 1, (-59)); (0x1EA1, 0x1EFF, 2, (-1));
   (0x1F00, 0x1F07, 1, 8); (0x1F10, 0x1F15, 1, 8); (0x1F20, 0x1F27, 1, 8);
   (0x1F30, 0x1F37, 1, 8); (0x1F40, 0x1F45, 1, 8); (0x1F51, 0x1F57, 2, 8);
   (0x1F60, 0x1F67, 1, 8); (0x1F70, 0x1F71, 1, 74); (0x1F72, 0x1F75, 1, 86);
   (0x1F76, 0x1F77, 1, 100); (0x1F78, 0x1F79, 1, 128);
   (0x1F7A, 0x1F7B, 1, 112); (0x1F7C, 0x1F7D, 1, 126);
   (0x1F80, 0x1F87, 1, 8); (0x1F90, 0x1F97, 1, 8); (0x1FA0, 0x1FA7, 1, 8);
   (0x1FB0, 0x1FB1, 1, 8); (0x1FB3, 0x1FB3, 1, 9);
   (0x1FBE, 0x1FBE, 1, (-7205)); (0x1FC3, 0x1FC3, 1, 9);
   (0x1FD0, 0x1FD1, 1, 8); (0x1FE0, 0x1FE1, 1, 8); (0x1FE5, 0x1FE5, 1, 7);
   (0x1FF3, 0x1FF3, 1, 9); (0x214E, 0x214E, 1, (-28));
   (0x2170, 0x217F, 1, (-16)); (0x2184, 0x2184, 1, (-1));
   (0x24D0, 0x24E9, 1, (-26)); (0x2C30, 0x2C5F, 1, (-48));
   (0x2C61, 0x2C61, 1, (-1)); (0x2C65, 0x2C65, 1, (-10795));
   (0x2C66, 0x2C66, 1, (-10792)); (0x2C68, 0x2C6C, 2, (-1));
   (0x2C73, 0x2C73, 1, (-1)); (0x2C76, 0x2C76, 1, (-1));
   (0x2C81, 0x2CE3, 2, (-1)); (0x2CEC, 0x2CEE, 2, (-1));
   (0x2CF3, 0x2CF3, 1, (-1)); (0x2D00, 0x2D25, 1, (-7264));
   (0x2D27, 0x2D27, 1, (-7264)); (0x2D2D, 0x2D2D, 1, (-7264));
   (0xA641, 0xA66D, 2, (-1)); (0xA681, 0xA69B, 2, (-1));
   (0xA723, 0xA72F, 2, (-1)); (0xA733, 0xA76F, 2, (-1));
   (0xA77A, 0xA77C, 2, (-1)); (0xA77F, 0xA787, 2, (-1));
   (0xA78C, 0xA78C, 1, (-1)); (0xA791, 0xA793, 2, (-1));
   (0xA794, 0xA794, 1, 48); (0xA797, 0xA7A9, 2, (-1));
   (0xA7B5, 0xA7C3, 2, (-1)); (0xA7C8, 0xA7CA, 2, (-1));
   (0xA7D1, 0xA7D1, 1, (-1)); (0xA7D7, 0xA7D9, 2, (-1));
   (0xA7F6, 0xA7F6, 1, (-1)); (0xAB53, 0xAB53, 1, (-928));
   (0xAB70, 0xABBF, 1, (-38864)); (0xFF41, 0xFF5A, 1, (-32));
   (0x10428, 0x1044F, 1, (-40)); (0x104D8, 0x104FB, 1, (-40));
   (0x10597, 0x105A1, 1, (-39)); (0x105A3, 0x105B1, 1, (-39));
   (0x105B3, 0x105B9, 1, (-39)); (0x105BB, 0x105BC, 1, (-39));
   (0x10CC0, 0x10CF2, 1, (-64)); (0x118C0, 0x118DF, 1, (-32));
   (0x16E60, 0x16E7F, 1, (-32)); (0x1E922, 0x1E943, 1, (-34))].

(** [unicode.IsSpace]: in Latin-1 the eight runes tab, line feed,
    vertical tab, form feed, carriage return, space, U+0085 and U+00A0;
    above, the table. *)
Definition IsSpace (r : Z) : bool :=
  if utf8.within 0 MaxLatin1 r then
    (r =? 9) || (r =? 10) || (r =? 11) || (r =? 12) || (r =? 13) || (r =? 32)
    || (r =? 0x85) || (r =? 0xA0)
  else Is White_Space r.

Definition IsLetter (r : Z) : bool := Is Letter r.

Definition IsDigit (r : Z) : bool := Is Digit r.

Definition ToLower (r : Z) : Z :=
  if r <=? MaxASCII then
    if utf8.within 65 90 r then r + 32 else r
  else r + delta lowerCase r.

Definition ToTitle (r : Z) : Z :=
  if r <=? MaxASCII then
    if utf8.within 97 122 r then r - 32 else r
  else r + delta titleCase r.

End unicode.

(* ------------------------------------------------------------------ *)
(** ** Package strings *)

Module strings.

(** [strings.TrimLeftFunc(s, unicode.IsSpace)]: the runes are decoded
    from the left; [skip] counts the bytes still to pass of a rune that
    has been seen. *)
Fixpoint trimLeft (skip : nat) (p : list Z) : list Z :=
  match p with
  | [] => []
  | _ :: p' =>
      match skip with
      | S skip' => trimLeft skip' p'
      | O =>
          let (r, width) := utf8.DecodeRune p in
          if unicode.IsSpace r then trimLeft (width - 1) p' else p
      end
  end.

(** [strings.TrimRightFunc(s, unicode.IsSpace)]: the runes are decoded
    from the right, at most one per byte of the input. *)
Fixpoint trimRight (rounds : nat) (p : list Z) : list Z :=
  match rounds with
  | O => p
  | S rounds' =>
      let (r, width) := utf8.DecodeLastRune p in
      if unicode.IsSpace r
      then trimRight rounds' (firstn (List.length p - width) p)
      else p
  end.

(** [strings.TrimSpace]: leading and trailing white space, as defined
    by Unicode, is removed.  The loops over ASCII bytes the function
    starts with give way to [TrimFunc] and [TrimRightFunc] at the first
    byte that is not ASCII, and agree with them before. *)
Definition TrimSpace (s : string) : string :=
  let p := trimLeft 0 (utf8.bytes s) in
  utf8.string_of (trimRight (List.length p) p).

(** [strings.Map] with a mapping that may look at the rune before:
    every rune is decoded, mapped and encoded again, a byte that is no
    valid encoding counting as [RuneError] (and so written as U+FFFD); a
    negative result drops the rune. *)
Fixpoint mapRunes (mapping : Z -> Z -> Z) (prev : Z) (skip : nat) (p : list Z)
  : list Z :=
  match p with
  | [] => []
  | _ :: p' =>
      match skip with
      | S skip' => mapRunes mapping prev skip' p'
      | O =>
          let (c, width) := utf8.DecodeRune p in
          let r := mapping prev c in
          ((if 0 <=? r then utf8.EncodeRune r else [])
           ++ mapRunes mapping c (width - 1) p')%list
      end
  end.

(** [strings.ToLower]: [Map(unicode.ToLower, s)]; on a string of ASCII
    bytes this is the byte loop the function starts with. *)
Definition ToLower (s : string) : string :=
  utf8.string_of (mapRunes (fun _ c => unicode.ToLower c) 32 0 (utf8.bytes s)).

(** Letters, digits and the underscore continue a word; of the other
    runes, every ASCII one and every white space separates words. *)
Definition isSeparator (r : Z) : bool :=
  if r <=? 0x7F then
    negb (utf8.within 48 57 r || utf8.within 97 122 r || utf8.within 65 90 r
          || (r =? 95))
  else if unicode.IsLetter r || unicode.IsDigit r then false
  else unicode.IsSpace r.

(** [strings.Title]: the rune after a separator is put in title case;
    [prev] starts as a space, so the first rune opens a word. *)
Definition Title (s : string) : string :=
  utf8.string_of
    (mapRunes (fun prev c => if isSeparator prev then unicode.ToTitle c else c)
       32 0 (utf8.bytes s)).

(** Case folding of the ASCII letters, for [ILIKE]. *)
Definition foldASCII (c : ascii) : ascii :=
  if is_upper c then ascii_of_N (byte_code c + 32) else c.

(** PostgreSQL [ILIKE] as used by the search queries: [%] matches any
    run of bytes, [_] any single byte, a backslash quotes the next
    pattern byte, everything else matches itself up to ASCII case. *)
Fixpoint like (p : list ascii) : list ascii -> bool :=
  match p with
  | [] => fun s => match s with [] => true | _ => false end
  | c :: p' =>
      if (byte_code c =? 37)%N then
        (fix star (s : list ascii) : bool :=
           like p' s || match s with [] => false | _ :: s' => star s' end)
      else if (byte_code c =? 95)%N then
        fun s => match s with [] => false | _ :: s' => like p' s' end
      else if (byte_code c =? 92)%N then
        match p' with
        | [] => fun _ => false
        | q :: p'' =>
            fun s => match s with
                     | [] => false
                     | d :: s' => Ascii.eqb q d && like p'' s'
                     end
        end
      else
        fun s => match s with
                 | [] => false
                 | d :: s' => Ascii.eqb c d && like p' s'
                 end
  end.

Definition ILike (s pattern : string) : bool :=
  like (map foldASCII (list_ascii_of_string pattern))
       (map foldASCII (list_ascii_of_string s)).

End strings.

(* ------------------------------------------------------------------ *)
(** ** Package strconv *)

Module strconv.

Definition digit (c : ascii) : option N :=
  if is_digit c then Some (byte_code c - 48)%N else None.

Fixpoint digits (acc : N) (l : list ascii) : option N :=
  match l with
  | [] => Some acc
  | c :: l' =>
      match digit c with
      | Some d => digits (acc * 10 + d)%N l'
      | None => None
      end
  end.

(** [strconv.ParseUint(s, 10, 64)]: a non-empty run of decimal digits
    whose value fits 64 bits; no sign, no underscore. *)
Definition ParseUint (s : string) : option N :=
  match list_ascii_of_string s with
  | [] => None
  | l =>
      match digits 0 l with
      | Some n => if (n <? 2 ^ 64)%N then Some n else None
      | None => None
      end
  end.

Definition magnitude (l : list ascii) : option N :=
  match l with
  | [] => None
  | _ => digits 0 l
  end.

(** [strconv.Atoi(s)] on a 64-bit platform: an optional sign, then
    decimal digits, the value within the range of [int]. *)
Definition Atoi (s : string) : option Z :=
  let signed (neg : bool) (l : list ascii) :=
    match magnitude l with
    | Some n =>
        let z := if neg then - Z.of_N n else Z.of_N n in
        if (- 2 ^ 63 <=? z) && (z <? 2 ^ 63) then Some z else None
    | None => None
    end in
  match list_ascii_of_string s with
  | [] => None
  | c :: l' =>
      if (byte_code c =? 43)%N then signed false l'
      else if (byte_code c =? 45)%N then signed true l'
      else signed false (c :: l')
  end.

End strconv.

(* ------------------------------------------------------------------ *)
(** ** Package time *)

Module time.

(** An instant, in nanoseconds since 0001-01-01T00:00:00Z. *)
Definition Time := Z.

Definition Duration := Z.
Definition Second : Duration := 1000000000.
Definition Minute : Duration := 60 * Second.
Definition Hour : Duration := 60 * Minute.

Definition zero : Time := 0.
Definition IsZero (t : Time) : bool := t =? 0.
Definition Add (t : Time) (d : Duration) : Time := t + d.

Definition isLeap (year : Z) : bool :=
  (year mod 4 =? 0) && (negb (year mod 100 =? 0) || (year mod 400 =? 0)).

Definition daysIn (month year : Z) : Z :=
  if month =? 2 then (if isLeap year then 29 else 28)
  else if (month =? 4) || (month =? 6) || (month =? 9) || (month =? 11) then 30
  else 31.

(** Days from 0001-01-01 to the given day of the proleptic Gregorian
    calendar. *)
Definition daysSinceYearOne (year month day : Z) : Z :=
  let y := if month <=? 2 then year - 1 else year in
  let era := y / 400 in
  let yoe := y - era * 400 in
  let mp := if month <=? 2 then month + 9 else month - 3 in
  let doy := (153 * mp + 2) / 5 + day - 1 in
  let doe := yoe * 365 + yoe / 4 - yoe / 100 + doy in
  era * 146097 + doe - 306.

(** [time.Date(year, month, day, hour, min, sec, nsec, zone)] for a zone
    at [offset] seconds east of UTC. *)
Definition Date (year month day hour min sec nsec offset : Z) : Time :=
  ((daysSinceYearOne year month day * 86400
    + hour * 3600 + min * 60 + sec - offset) * 1000000000) + nsec.

Definition num (l : list ascii) : option Z :=
  match l with
  | [] => None
  | _ => option_map Z.of_N (strconv.digits 0 l)
  end.

(** [getnum(s, fixed)]: two digits, or a single digit when the layout
    element is not of fixed width. *)
Definition getnum (fixed : bool) (l : list ascii) : option (Z * list ascii) :=
  match l with
  | a :: b :: l' =>
      if is_digit a then
        if is_digit b then option_map (fun n => (n, l')) (num [a; b])
        else if fixed then None
        else option_map (fun n => (n, b :: l')) (num [a])
      else None
  | [a] =>
      if is_digit a && negb fixed
      then option_map (fun n => (n, [])) (num [a]) else None
  | [] => None
  end.

Definition literal (c : ascii) (l : list ascii) : option (list ascii) :=
  match l with
  | d :: l' => if Ascii.eqb c d then Some l' else None
  | [] => None
  end.

(** The calendar part shared by both layouts: [2006-01-02]. *)
Definition parseDate (l : list ascii) : option (Z * Z * Z * list ascii) :=
  match l with
  | a :: b :: c :: d :: l1 =>
      if is_digit a then
        match num [a; b; c; d], literal "-" l1 with
        | Some year, Some l2 =>
            match getnum true l2 with
            | Some (month, l3) =>
                match literal "-" l3 with
                | Some l4 =>
                    match getnum true l4 with
                    | Some (day, l5) =>
                        if (1 <=? month) && (month <=? 12)
                           && (1 <=? day) && (day <=? 31)
                        then Some (year, month, day, l5) else None
                    | None => None
                    end
                | None => None
                end
            | None => None
            end
        | _, _ => None
        end
      else None
  | _ => None
  end.

Fixpoint span_digits (l : list ascii) : list ascii * list ascii :=
  match l with
  | c :: l' =>
      if is_digit c then let (ds, r) := span_digits l' in (c :: ds, r)
      else ([], l)
  | [] => ([], [])
  end.

Fixpoint pad9 (n : nat) (ds : list ascii) : list ascii :=
  match n with
  | O => []
  | S n' =>
      match ds with
      | d :: ds' => d :: pad9 n' ds'
      | [] => "0"%char :: pad9 n' []
      end
  end.

(** A fractional second after the seconds field: a period or a comma
    followed by at least one digit; digits beyond the ninth are dropped. *)
Definition fraction (l : list ascii) : Z * list ascii :=
  match l with
  | c :: d :: l' =>
      if ((byte_code c =? 46) || (byte_code c =? 44))%N && is_digit d then
        let (ds, r) := span_digits (d :: l') in
        match num (pad9 9 ds) with
        | Some n => (n, r)
        | None => (0, l)
        end
      else (0, l)
  | _ => (0, l)
  end.

(** The zone element [Z07:00]: [Z], or a sign, two digits of hours, a
    colon and two digits of minutes; the result is the offset in seconds
    and must end the input. *)
Definition zone (l : list ascii) : option Z :=
  match l with
  | [z] => if (byte_code z =? 90)%N then Some 0 else None
  | [sg; h1; h2; col; m1; m2] =>
      if (byte_code col =? 58)%N then
        match getnum true [h1; h2], getnum true [m1; m2] with
        | Some (hr, _), Some (mm, _) =>
            if (hr <=? 24) && (mm <=? 60) then
              if (byte_code sg =? 43)%N then Some ((hr * 60 + mm) * 60)
              else if (byte_code sg =? 45)%N then Some (- ((hr * 60 + mm) * 60))
              else None
            else None
        | _, _ => None
        end
      else None
  | _ => None
  end.

(** [time.Parse(time.RFC3339, s)], layout [2006-01-02T15:04:05Z07:00]. *)
Definition ParseRFC3339 (s : string) : option Time :=
  match parseDate (list_ascii_of_string s) with
  | Some (year, month, day, l1) =>
      match literal "T" l1 with
      | Some l2 =>
          match getnum false l2 with
          | Some (hour, l3) =>
              match literal ":" l3 with
              | Some l4 =>
                  match getnum true l4 with
                  | Some (min, l5) =>
                      match literal ":" l5 with
                      | Some l6 =>
                          match getnum true l6 with
                          | Some (sec, l7) =>
                              let (nsec, l8) := fraction l7 in
                              match zone l8 with
                              | Some offset =>
                                  if (hour <? 24) && (min <? 60) && (sec <? 60)
                                     && (day <=? daysIn month year)
                                  then Some (Date year month day hour min sec
                                                  nsec offset)
                                  else None
                              | None => None
                              end
                          | None => None
                          end
                      | None => None
                      end
                  | None => None
                  end
              | None => None
              end
          | None => None
          end
      | None => None
      end
  | None => None
  end.

(** [time.Parse("2006-01-02", s)]: midnight UTC of the given day. *)
Definition ParseDate (s : string) : option Time :=
  match parseDate (list_ascii_of_string s) with
  | Some (year, month, day, []) =>
      if day <=? daysIn month year
      then Some (Date year month day 0 0 0 0 0) else None
  | _ => None
  end.

End time.

(* ------------------------------------------------------------------ *)
(** ** Package net/http: the status codes the handlers answer with *)

Module http.

Definition StatusOK : Z := 200.
Definition StatusCreated : Z := 201.
Definition StatusBadRequest : Z := 400.
Definition StatusUnauthorized : Z := 401.
Definition StatusForbidden : Z := 403.
Definition StatusNotFound : Z := 404.
Definition StatusInternalServerError : Z := 500.

End http.

(* ------------------------------------------------------------------ *)
(** ** models.go

    The columns [CreatedAt] and [UpdatedAt] are filled from the clock by
    the store and read by no handler; they are left out, and so is the
    [Organizer] association of an event, which no handler loads. *)

Record User := {
  User_ID : N;
  User_Email : string;
  User_Password : string }.

Record Task := {
  Task_ID : N;
  Task_EventID : N;
  Task_Title : string;
  Task_Description : string }.

Record Event := {
  Event_ID : N;
  Event_Title : string;
  Event_Description : string;
  Event_Location : string;
  Event_Date : time.Time;
  Event_OrganizerID : N;
  Event_Tasks : list Task }.

Record EventAttendee := {
  EventAttendee_ID : N;
  EventAttendee_EventID : N;
  EventAttendee_UserID : N;
  EventAttendee_Role : string;
  EventAttendee_Status : string }.

(* ------------------------------------------------------------------ *)
(** ** The record store (database.go: the global [DB])

    One list of rows per table, in insertion order, and the next value of
    each table's identifier sequence. *)

Record Store := {
  users : list User;
  events : list Event;
  tasks : list Task;
  event_attendees : list EventAttendee;
  users_id_seq : N;
  events_id_seq : N;
  tasks_id_seq : N;
  event_attendees_id_seq : N }.

(** What GORM knows of a model: its table, its sequence, its primary key. *)
Record Table (A : Type) := {
  rows : Store -> list A;
  set_rows : list A -> Store -> Store;
  next_id : Store -> N;
  set_next_id : N -> Store -> Store;
  pk : A -> N;
  set_pk : N -> A -> A }.

Arguments rows {A} _ _.
Arguments set_rows {A} _ _ _.
Arguments next_id {A} _ _.
Arguments set_next_id {A} _ _ _.
Arguments pk {A} _ _.
Arguments set_pk {A} _ _ _.

Definition Users : Table User := {|
  rows := users;
  set_rows := fun l s =>
    {| users := l; events := events s; tasks := tasks s;
       event_attendees := event_attendees s;
       users_id_seq := users_id_seq s; events_id_seq := events_id_seq s;
       tasks_id_seq := tasks_id_seq s;
       event_attendees_id_seq := event_attendees_id_seq s |};
  next_id := users_id_seq;
  set_next_id := fun n s =>
    {| users := users s; events := events s; tasks := tasks s;
       event_attendees := event_attendees s;
       users_id_seq := n; events_id_seq := events_id_seq s;
       tasks_id_seq := tasks_id_seq s;
       event_attendees_id_seq := event_attendees_id_seq s |};
  pk := User_ID;
  set_pk := fun n u =>
    {| User_ID := n; User_Email := User_Email u;
       User_Password := User_Password u |} |}.

Definition Events : Table Event := {|
  rows := events;
  set_rows := fun l s =>
    {| users := users s; events := l; tasks := tasks s;
       event_attendees := event_attendees s;
       users_id_seq := users_id_seq s; events_id_seq := events_id_seq s;
       tasks_id_seq := tasks_id_seq s;
       event_attendees_id_seq := event_attendees_id_seq s |};
  next_id := events_id_seq;
  set_next_id := fun n s =>
    {| users := users s; events := events s; tasks := tasks s;
       event_attendees := event_attendees s;
       users_id_seq := users_id_seq s; events_id_seq := n;
       tasks_id_seq := tasks_id_seq s;
       event_attendees_id_seq := event_attendees_id_seq s |};
  pk := Event_ID;
  set_pk := fun n e =>
    {| Event_ID := n; Event_Title := Event_Title e;
       Event_Description := Event_Description e;
       Event_Location := Event_Location e; Event_Date := Event_Date e;
       Event_OrganizerID := Event_OrganizerID e;
       Event_Tasks := Event_Tasks e |} |}.

Definition Tasks : Table Task := {|
  rows := tasks;
  set_rows := fun l s =>
    {| users := users s; events := events s; tasks := l;
       event_attendees := event_attendees s;
       users_id_seq := users_id_seq s; events_id_seq := events_id_seq s;
       tasks_id_seq := tasks_id_seq s;
       event_attendees_id_seq := event_attendees_id_seq s |};
  next_id := tasks_id_seq;
  set_next_id := fun n s =>
    {| users := users s; events := events s; tasks := tasks s;
       event_attendees := event_attendees s;
       users_id_seq := users_id_seq s; events_id_seq := events_id_seq s;
       tasks_id_seq := n;
       event_attendees_id_seq := event_attendees_id_seq s |};
  pk := Task_ID;
  set_pk := fun n t =>
    {| Task_ID := n; Task_EventID := Task_EventID t;
       Task_Title := Task_Title t;
       Task_Description := Task_Description t |} |}.

Definition EventAttendees : Table EventAttendee := {|
  rows := event_attendees;
  set_rows := fun l s =>
    {| users := users s; events := events s; tasks := tasks s;
       event_attendees := l;
       users_id_seq := users_id_seq s; events_id_seq := events_id_seq s;
       tasks_id_seq := tasks_id_seq s;
       event_attendees_id_seq := event_attendees_id_seq s |};
  next_id := event_attendees_id_seq;
  set_next_id := fun n s =>
    {| users := users s; events := events s; tasks := tasks s;
       event_attendees := event_attendees s;
       users_id_seq := users_id_seq s; events_id_seq := events_id_seq s;
       tasks_id_seq := tasks_id_seq s;
       event_attendees_id_seq := n |};
  pk := EventAttendee_ID;
  set_pk := fun n a =>
    {| EventAttendee_ID := n;
       EventAttendee_EventID := EventAttendee_EventID a;
       EventAttendee_UserID := EventAttendee_UserID a;
       EventAttendee_Role := EventAttendee_Role a;
       EventAttendee_Status := EventAttendee_Status a |} |}.

(* ------------------------------------------------------------------ *)
(** ** Statements against the store

    A handler is a computation over the store and a schedule of faults.
    Each SQL statement consumes the head of the schedule: [Some msg] makes
    the statement fail with that message and leaves the store as it was,
    [None] (or an exhausted schedule) lets it run. *)

Module gorm.

Inductive error :=
| ErrRecordNotFound
| ErrDB (msg : string).

Definition Error (e : error) : string :=
  match e with
  | ErrRecordNotFound => "record not found"
  | ErrDB msg => msg
  end.

Definition Result (A : Type) : Type := (error + A)%type.

Definition Faults := list (option string).

Definition DB (A : Type) : Type := Store -> Faults -> A * Store * Faults.

Definition ret {A} (a : A) : DB A := fun s f => (a, s, f).

Definition bind {A B} (m : DB A) (k : A -> DB B) : DB B :=
  fun s f => let '(a, s', f') := m s f in k a s' f'.

(** The head of the schedule; an exhausted schedule holds no fault. *)
Definition next_fault (f : Faults) : option string * Faults :=
  match f with
  | [] => (None, [])
  | x :: f' => (x, f')
  end.

Definition exec {A} (q : Store -> Result A * Store) : DB (Result A) :=
  fun s f =>
    match next_fault f with
    | (Some msg, f') => (inl (ErrDB msg), s, f')
    | (None, f') => let (r, s') := q s in (r, s', f')
    end.

(** [ORDER BY id LIMIT 1]: the row with the least primary key, the
    earliest one among equals. *)
Fixpoint first_by_pk {A} (T : Table A) (l : list A) : option A :=
  match l with
  | [] => None
  | a :: l' =>
      match first_by_pk T l' with
      | Some b => if (pk T a <=? pk T b)%N then Some a else Some b
      | None => Some a
      end
  end.

(** [Where(cond).First(&dest)] and [First(&dest, id)]. *)
Definition First {A} (T : Table A) (cond : A -> bool) : DB (Result A) :=
  exec (fun s =>
          match first_by_pk T (filter cond (rows T s)) with
          | Some a => (inr a, s)
          | None => (inl ErrRecordNotFound, s)
          end).

(** The store after an insert that draws the primary key from the
    sequence. *)
Definition inserted {A} (T : Table A) (a : A) (s : Store) : Store :=
  set_next_id T (next_id T s + 1)%N
    (set_rows T (rows T s ++ [set_pk T (next_id T s) a]) s).

(** [Create(&value)]: a zero primary key is drawn from the sequence; a
    given one must not be taken. *)
Definition Create {A} (T : Table A) (a : A) : DB (Result A) :=
  exec (fun s =>
          if (pk T a =? 0)%N then
            (inr (set_pk T (next_id T s) a), inserted T a s)
          else if existsb (fun r => (pk T r =? pk T a)%N) (rows T s) then
            (inl (ErrDB "duplicate key value violates unique constraint"), s)
          else (inr a, set_rows T (rows T s ++ [a]) s)).

(** [Save(&value)]: with a zero primary key it creates; otherwise it
    updates every column of the row with that key, and inserts the row
    when there is none. *)
Definition Save {A} (T : Table A) (a : A) : DB (Result A) :=
  if (pk T a =? 0)%N then Create T a
  else
    exec (fun s =>
            if existsb (fun r => (pk T r =? pk T a)%N) (rows T s) then
              (inr a,
               set_rows T
                 (map (fun r => if (pk T r =? pk T a)%N then a else r)
                      (rows T s)) s)
            else (inr a, set_rows T (rows T s ++ [a]) s)).

(** [Where(cond).Delete(&Model{})]. *)
Definition Delete {A} (T : Table A) (cond : A -> bool) : DB (Result unit) :=
  exec (fun s =>
          (inr tt, set_rows T (filter (fun r => negb (cond r)) (rows T s)) s)).

(** [Where(cond).FirstOrCreate(&value)]: the lookup, then the insert when
    nothing was found. *)
Definition FirstOrCreate {A} (T : Table A) (cond : A -> bool) (a : A)
  : DB (Result A) :=
  bind (First T cond)
       (fun r =>
          match r with
          | inr found => ret (inr found)
          | inl ErrRecordNotFound => Create T a
          | inl e => ret (inl e)
          end).

(** [DB.Transaction(fc)]: begin, run [fc], commit; an error of [fc] or
    of the commit rolls the store back to where it was at the start. *)
Definition Transaction (fc : DB (Result unit)) : DB (Result unit) :=
  fun s f =>
    match exec (fun s0 => (inr tt, s0)) s f with
    | (inl e, _, f1) => (inl e, s, f1)
    | (inr _, _, f1) =>
        match fc s f1 with
        | (inl e, _, f2) => (inl e, s, f2)
        | (inr _, s2, f2) =>
            match exec (fun s0 => (inr tt, s0)) s2 f2 with
            | (inl e, _, f3) => (inl e, s, f3)
            | (inr _, _, f3) => (inr tt, s2, f3)
            end
        end
    end.

(** Queries are built step by step and run by [Find]. *)
Definition Query (A : Type) : Type := Store -> list A.

Definition Model {A} (T : Table A) : Query A := rows T.

Definition Where {A} (cond : A -> bool) (q : Query A) : Query A :=
  fun s => filter cond (q s).

(** [Joins("JOIN t ON on")]: one row per matching pair. *)
Definition Joins {A B} (T : Table B) (on : A -> B -> bool) (q : Query A)
  : Query (A * B) :=
  fun s => flat_map (fun a => map (pair a) (filter (on a) (rows T s))) (q s).

Definition Select {A B} (cols : A -> B) (q : Query A) : Query B :=
  fun s => map cols (q s).

Fixpoint insert_on {A} (key : A -> Z) (a : A) (l : list A) : list A :=
  match l with
  | [] => [a]
  | b :: l' => if key a <=? key b then a :: l else b :: insert_on key a l'
  end.

(** [Order("key asc")]; rows with equal keys keep the order of the
    table. *)
Definition Order {A} (key : A -> Z) (q : Query A) : Query A :=
  fun s => fold_right (insert_on key) [] (q s).

Definition Find {A} (q : Query A) : DB (Result (list A)) :=
  exec (fun s => (inr (q s), s)).

End gorm.

Import gorm.

Notation "x <- m ;; k" := (bind m (fun x => k))
  (at level 61, m at next level, right associativity).

(* ------------------------------------------------------------------ *)
(** ** The request context (gin) and the answers of the handlers *)

(** A value stored in the context under a key, as the type switch of
    [getUserIDFromContext] sees it.  [AuthMiddleware] stores a [uint]; a
    [float64] is given by the value of its conversion [uint(v)], which is
    all the handlers use of it. *)
Inductive any :=
| Uint (v : N)
| Int (v : Z)
| Float64 (converted : N)
| Other.

(** The conversion [uint(v)] of an [int] on a 64-bit platform. *)
Definition uint (v : Z) : N := Z.to_N (v mod 2 ^ 64).

(** What a handler reads from [*gin.Context]: the value under the key
    [user_id], the path parameter [id], and the outcome of decoding the
    body into the request struct (the decoder's error text, or the
    struct). *)
Record Context (B : Type) := {
  Get_user_id : option any;
  Param_id : string;
  Body : string + B }.

Arguments Get_user_id {B} _.
Arguments Param_id {B} _.
Arguments Body {B} _.

Inductive SearchResult :=
| EventResult (event : Event)
| TaskResult (task : Task) (event : Event).

(** The value under the key [type] of a search result. *)
Definition result_type (r : SearchResult) : string :=
  match r with
  | EventResult _ => "event"
  | TaskResult _ _ => "task"
  end.

Inductive JSON :=
| JError (error : string)
| JMessage (message : string)
| JEvent (e : Event)
| JEvents (es : list Event)
| JAttendee (a : EventAttendee)
| JAttendees (l : list EventAttendee)
| JTask (t : Task)
| JTasks (ts : list Task)
| JResults (results : list SearchResult).

Record Response := {
  Code : Z;
  Payload : JSON }.

Definition jsonError (code : Z) (msg : string) : Response :=
  {| Code := code; Payload := JError msg |}.

Definition getUserIDFromContext {B} (c : Context B) : option N :=
  match Get_user_id c with
  | None => None
  | Some (Uint v) => Some v
  | Some (Int v) => Some (uint v)
  | Some (Float64 converted) => Some converted
  | Some Other => None
  end.

(** The [binding:"required"] tags: a field fails when it holds the zero
    value of its type; the messages of the failing fields are joined by
    line feeds. *)
Definition fieldError (strct field : string) : string :=
  "Key: '" ++ strct ++ "." ++ field ++ "' Error:Field validation for '"
  ++ field ++ "' failed on the 'required' tag".

Fixpoint joinErrors (l : list string) : string :=
  match l with
  | [] => ""
  | [e] => e
  | e :: l' => e ++ String (ascii_of_N 10) (joinErrors l')
  end.

Definition required (strct : string) (fields : list (string * bool))
  : option string :=
  match filter snd fields with
  | [] => None
  | failing => Some (joinErrors (map (fun p => fieldError strct (fst p)) failing))
  end.

Definition ShouldBindJSON {B} (c : Context B) (validate : B -> option string)
  : string + B :=
  match Body c with
  | inl err => inl err
  | inr b =>
      match validate b with
      | Some err => inl err
      | None => inr b
      end
  end.

Definition isEmpty (s : string) : bool := String.eqb s "".

(* ------------------------------------------------------------------ *)
(** ** controllers.go: events *)

Record CreateEventRequest := {
  CreateEventRequest_Title : string;
  CreateEventRequest_Description : string;
  CreateEventRequest_Location : string;
  CreateEventRequest_Date : string }.

Definition validateCreateEventRequest (b : CreateEventRequest) : option string :=
  required "CreateEventRequest"
    [("Title", isEmpty (CreateEventRequest_Title b));
     ("Date", isEmpty (CreateEventRequest_Date b))].

(** The two accepted forms of a date: RFC3339, else [YYYY-MM-DD]. *)
Definition parseEitherDate (s : string) : option time.Time :=
  match time.ParseRFC3339 s with
  | Some t => Some t
  | None => time.ParseDate s
  end.

Definition CreateEvent (c : Context CreateEventRequest) : DB Response :=
  match getUserIDFromContext c with
  | None => ret (jsonError http.StatusUnauthorized "unauthorized")
  | Some userID =>
  match ShouldBindJSON c validateCreateEventRequest with
  | inl err => ret (jsonError http.StatusBadRequest ("invalid request: " ++ err))
  | inr body =>
  match parseEitherDate (CreateEventRequest_Date body) with
  | None =>
      ret (jsonError http.StatusBadRequest
             "invalid date format (use RFC3339 or YYYY-MM-DD)")
  | Some eventDate =>
      let ev := {| Event_ID := 0;
                   Event_Title := strings.TrimSpace (CreateEventRequest_Title body);
                   Event_Description := CreateEventRequest_Description body;
                   Event_Location := CreateEventRequest_Location body;
                   Event_Date := eventDate;
                   Event_OrganizerID := userID;
                   Event_Tasks := [] |} in
      created <- Create Events ev ;;
      match created with
      | inl err =>
          ret (jsonError http.StatusInternalServerError
                 ("could not create event: " ++ Error err))
      | inr ev =>
          let org := {| EventAttendee_ID := 0;
                        EventAttendee_EventID := Event_ID ev;
                        EventAttendee_UserID := userID;
                        EventAttendee_Role := "organizer";
                        EventAttendee_Status := "" |} in
          _ <- FirstOrCreate EventAttendees
                 (fun a => (EventAttendee_EventID a =? Event_ID ev)%N
                           && (EventAttendee_UserID a =? userID)%N) org ;;
          ret {| Code := http.StatusCreated; Payload := JEvent ev |}
      end
  end end end.

Definition DeleteEvent (c : Context unit) : DB Response :=
  match getUserIDFromContext c with
  | None => ret (jsonError http.StatusUnauthorized "unauthorized")
  | Some userID =>
  let idParam := Param_id c in
  if isEmpty idParam then
    ret (jsonError http.StatusBadRequest "missing event id")
  else
  match strconv.Atoi idParam with
  | None => ret (jsonError http.StatusBadRequest "invalid event id")
  | Some id =>
      found <- First Events (fun e => Z.of_N (Event_ID e) =? id) ;;
      match found with
      | inl ErrRecordNotFound =>
          ret (jsonError http.StatusNotFound "event not found")
      | inl err =>
          ret (jsonError http.StatusInternalServerError
                 ("db error: " ++ Error err))
      | inr ev =>
          if negb (Event_OrganizerID ev =? userID)%N then
            ret (jsonError http.StatusForbidden
                   "only organizer can delete the event")
          else
            done <- Transaction
              (r1 <- Delete EventAttendees
                       (fun a => (EventAttendee_EventID a =? Event_ID ev)%N) ;;
               match r1 with
               | inl err => ret (inl err)
               | inr _ =>
                   r2 <- Delete Tasks
                           (fun t => (Task_EventID t =? Event_ID ev)%N) ;;
                   match r2 with
                   | inl err => ret (inl err)
                   | inr _ =>
                       r3 <- Delete Events
                               (fun e => (Event_ID e =? Event_ID ev)%N) ;;
                       match r3 with
                       | inl err => ret (inl err)
                       | inr _ => ret (inr tt)
                       end
                   end
               end) ;;
            match done with
            | inl err =>
                ret (jsonError http.StatusInternalServerError
                       ("delete failed: " ++ Error err))
            | inr _ =>
                ret {| Code := http.StatusOK;
                       Payload := JMessage "event deleted" |}
            end
      end
  end end.

(* ------------------------------------------------------------------ *)
(** ** controllers.go: invitations *)

Record InviteRequest := {
  InviteRequest_UserID : N }.

Definition validateInviteRequest (b : InviteRequest) : option string :=
  required "InviteRequest" [("UserID", (InviteRequest_UserID b =? 0)%N)].

Definition InviteUser (c : Context InviteRequest) : DB Response :=
  match getUserIDFromContext c with
  | None => ret (jsonError http.StatusUnauthorized "unauthorized")
  | Some userID =>
  match strconv.ParseUint (Param_id c) with
  | None => ret (jsonError http.StatusBadRequest "invalid event id")
  | Some eventID =>
  match ShouldBindJSON c validateInviteRequest with
  | inl err => ret (jsonError http.StatusBadRequest ("invalid body: " ++ err))
  | inr body =>
      found <- First Events (fun e => (Event_ID e =? eventID)%N) ;;
      match found with
      | inl ErrRecordNotFound =>
          ret (jsonError http.StatusNotFound "event not found")
      | inl err =>
          ret (jsonError http.StatusInternalServerError
                 ("db error: " ++ Error err))
      | inr ev =>
      if negb (Event_OrganizerID ev =? userID)%N then
        ret (jsonError http.StatusForbidden "only organizer can invite others")
      else
      user <- First Users (fun u => (User_ID u =? InviteRequest_UserID body)%N) ;;
      match user with
      | inl ErrRecordNotFound =>
          ret (jsonError http.StatusNotFound "invited user not found")
      | inl err =>
          ret (jsonError http.StatusInternalServerError
                 ("db error: " ++ Error err))
      | inr invitee =>
      if (User_ID invitee =? Event_OrganizerID ev)%N then
        ret (jsonError http.StatusBadRequest "user is already organizer")
      else
      existing <- First EventAttendees
                    (fun a => (EventAttendee_EventID a =? eventID)%N
                              && (EventAttendee_UserID a =? User_ID invitee)%N) ;;
      match existing with
      | inr _ =>
          ret {| Code := http.StatusOK;
                 Payload := JMessage "user already invited or participant" |}
      | inl (ErrDB msg) =>
          ret (jsonError http.StatusInternalServerError
                 ("db error: " ++ Error (ErrDB msg)))
      | inl ErrRecordNotFound =>
          let att := {| EventAttendee_ID := 0;
                        EventAttendee_EventID := eventID;
                        EventAttendee_UserID := User_ID invitee;
                        EventAttendee_Role := "attendee";
                        EventAttendee_Status := "" |} in
          created <- Create EventAttendees att ;;
          match created with
          | inl err =>
              ret (jsonError http.StatusInternalServerError
                     ("could not create invitation: " ++ Error err))
          | inr _ =>
              ret {| Code := http.StatusOK; Payload := JMessage "user invited" |}
          end
      end
      end
      end
  end end end.

(* ------------------------------------------------------------------ *)
(** ** controllers.go: attendance *)

Record AttendanceRequest := {
  AttendanceRequest_Status : string }.

Definition validateAttendanceRequest (b : AttendanceRequest) : option string :=
  required "AttendanceRequest" [("Status", isEmpty (AttendanceRequest_Status b))].

(** [strings.Title(strings.ToLower(strings.TrimSpace(body.Status)))]. *)
Definition normalize (status : string) : string :=
  strings.Title (strings.ToLower (strings.TrimSpace status)).

(** The negation of the guard
    [normalized != "Going" && normalized != "Maybe" && normalized != "Not Going"]. *)
Definition acceptedStatus (normalized : string) : bool :=
  negb (negb (String.eqb normalized "Going")
        && negb (String.eqb normalized "Maybe")
        && negb (String.eqb normalized "Not Going")).

Definition withStatus (a : EventAttendee) (status : string) : EventAttendee :=
  {| EventAttendee_ID := EventAttendee_ID a;
     EventAttendee_EventID := EventAttendee_EventID a;
     EventAttendee_UserID := EventAttendee_UserID a;
     EventAttendee_Role := EventAttendee_Role a;
     EventAttendee_Status := status |}.

Definition SetAttendance (c : Context AttendanceRequest) : DB Response :=
  match getUserIDFromContext c with
  | None => ret (jsonError http.StatusUnauthorized "unauthorized")
  | Some userID =>
  match strconv.ParseUint (Param_id c) with
  | None => ret (jsonError http.StatusBadRequest "invalid event id")
  | Some eventID =>
  match ShouldBindJSON c validateAttendanceRequest with
  | inl err => ret (jsonError http.StatusBadRequest ("invalid body: " ++ err))
  | inr body =>
  let normalized := normalize (AttendanceRequest_Status body) in
  if negb (acceptedStatus normalized) then
    ret (jsonError http.StatusBadRequest
           "status must be one of: Going, Maybe, Not Going")
  else
    found <- First Events (fun e => (Event_ID e =? eventID)%N) ;;
    match found with
    | inl ErrRecordNotFound =>
        ret (jsonError http.StatusNotFound "event not found")
    | inl err =>
        ret (jsonError http.StatusInternalServerError
               ("db error: " ++ Error err))
    | inr ev =>
        existing <- First EventAttendees
                      (fun a => (EventAttendee_EventID a =? eventID)%N
                                && (EventAttendee_UserID a =? userID)%N) ;;
        match existing with
        | inl ErrRecordNotFound =>
            let att := {| EventAttendee_ID := 0;
                          EventAttendee_EventID := eventID;
                          EventAttendee_UserID := userID;
                          EventAttendee_Role := "attendee";
                          EventAttendee_Status := normalized |} in
            created <- Create EventAttendees att ;;
            match created with
            | inl err =>
                ret (jsonError http.StatusInternalServerError
                       ("could not set attendance: " ++ Error err))
            | inr att => ret {| Code := http.StatusOK; Payload := JAttendee att |}
            end
        | inl err =>
            ret (jsonError http.StatusInternalServerError
                   ("db error: " ++ Error err))
        | inr att =>
            let att := withStatus att normalized in
            saved <- Save EventAttendees att ;;
            match saved with
            | inl err =>
                ret (jsonError http.StatusInternalServerError
                       ("could not update status: " ++ Error err))
            | inr att => ret {| Code := http.StatusOK; Payload := JAttendee att |}
            end
        end
    end
  end end end.

(* ------------------------------------------------------------------ *)
(** ** controllers.go: tasks *)

Record CreateTaskRequest := {
  CreateTaskRequest_Title : string;
  CreateTaskRequest_Description : string }.

Definition validateCreateTaskRequest (b : CreateTaskRequest) : option string :=
  required "CreateTaskRequest" [("Title", isEmpty (CreateTaskRequest_Title b))].

Definition CreateTask (c : Context CreateTaskRequest) : DB Response :=
  match getUserIDFromContext c with
  | None => ret (jsonError http.StatusUnauthorized "unauthorized")
  | Some userID =>
  match strconv.ParseUint (Param_id c) with
  | None => ret (jsonError http.StatusBadRequest "invalid event id")
  | Some eventID =>
      found <- First Events (fun e => (Event_ID e =? eventID)%N) ;;
      match found with
      | inl ErrRecordNotFound =>
          ret (jsonError http.StatusNotFound "event not found")
      | inl err =>
          ret (jsonError http.StatusInternalServerError
                 ("db error: " ++ Error err))
      | inr ev =>
      if negb (Event_OrganizerID ev =? userID)%N then
        ret (jsonError http.StatusForbidden "only organizer can create tasks")
      else
      match ShouldBindJSON c validateCreateTaskRequest with
      | inl err => ret (jsonError http.StatusBadRequest ("invalid body: " ++ err))
      | inr body =>
          let task := {| Task_ID := 0;
                         Task_EventID := eventID;
                         Task_Title := strings.TrimSpace (CreateTaskRequest_Title body);
                         Task_Description := CreateTaskRequest_Description body |} in
          created <- Create Tasks task ;;
          match created with
          | inl err =>
              ret (jsonError http.StatusInternalServerError
                     ("could not create task: " ++ Error err))
          | inr task => ret {| Code := http.StatusCreated; Payload := JTask task |}
          end
      end
      end
  end end.

(** The handler does not read the caller's identity: the route is behind
    [AuthMiddleware], nothing more. *)
Definition GetTasksByEvent (c : Context unit) : DB Response :=
  match strconv.ParseUint (Param_id c) with
  | None => ret (jsonError http.StatusBadRequest "invalid event id")
  | Some eventID =>
      found <- Find (Where (fun t => (Task_EventID t =? eventID)%N) (Model Tasks)) ;;
      match found with
      | inl err =>
          ret (jsonError http.StatusInternalServerError
                 ("db error: " ++ Error err))
      | inr tasks => ret {| Code := http.StatusOK; Payload := JTasks tasks |}
      end
  end.

(* ------------------------------------------------------------------ *)
(** ** controllers.go: search *)

Record SearchRequest := {
  SearchRequest_Keyword : string;
  SearchRequest_StartDate : string;
  SearchRequest_EndDate : string;
  SearchRequest_Role : string;
  SearchRequest_Type : string }.

(** The request of a search: the context (its body is the outcome of
    decoding a JSON body), the method, and the request struct as bound
    from the query string. *)
Record SearchContext := {
  Search_Context : Context SearchRequest;
  Search_Method : string;
  Search_Query : SearchRequest }.

(** Binding errors are ignored: a GET reads the query string, any other
    method the JSON body and, when that fails, the query string. *)
Definition bindSearchRequest (c : SearchContext) : SearchRequest :=
  if String.eqb (Search_Method c) "GET" then Search_Query c
  else match Body (Search_Context c) with
       | inr req => req
       | inl _ => Search_Query c
       end.

Definition withTasks (e : Event) (ts : list Task) : Event :=
  {| Event_ID := Event_ID e; Event_Title := Event_Title e;
     Event_Description := Event_Description e;
     Event_Location := Event_Location e; Event_Date := Event_Date e;
     Event_OrganizerID := Event_OrganizerID e; Event_Tasks := ts |}.

(** [Preload("Tasks")]: after the events are found, one more statement
    loads the tasks of each of them. *)
Definition PreloadTasks (found : Result (list Event)) : DB (Result (list Event)) :=
  match found with
  | inl err => ret (inl err)
  | inr [] => ret (inr [])
  | inr es =>
      exec (fun s =>
              (inr (map (fun e =>
                           withTasks e
                             (filter (fun t => (Task_EventID t =? Event_ID e)%N)
                                     (tasks s))) es), s))
  end.

(** The role restriction, which both halves of the search put on the
    columns of [events]: [None] is the branch that answers
    "role must be 'organizer' or 'attendee'". *)
Definition roleClause {A} (role : string) (userID : N) (event : A -> Event)
  : option (Query A -> Query A) :=
  if isEmpty role then Some (fun q => q)
  else if String.eqb role "organizer" then
    Some (Where (fun a => (Event_OrganizerID (event a) =? userID)%N))
  else if String.eqb role "attendee" then
    Some (fun q =>
            Select fst
              (Where (fun p => (EventAttendee_UserID (snd p) =? userID)%N
                               && String.eqb (EventAttendee_Role (snd p)) "attendee")
                 (Joins EventAttendees
                    (fun a ea => (EventAttendee_EventID ea =? Event_ID (event a))%N)
                    q)))
  else None.

Definition whereIf {A} (b : bool) (cond : A -> bool) (q : Query A) : Query A :=
  if b then Where cond q else q.

(** The loop that attaches its event to every task found; a task whose
    event cannot be read is skipped. *)
Fixpoint attachEvents (ts : list Task) : DB (list SearchResult) :=
  match ts with
  | [] => ret []
  | t :: ts' =>
      found <- First Events (fun e => (Event_ID e =? Task_EventID t)%N) ;;
      rest <- attachEvents ts' ;;
      match found with
      | inl _ => ret rest
      | inr ev => ret (TaskResult t ev :: rest)
      end
  end.

Definition searchEvents (type keyword kw role : string) (start end_ : time.Time)
  (userID : N) : DB (Response + list SearchResult) :=
  if String.eqb type "both" || String.eqb type "event" then
    let query := Model Events in
    let query := whereIf (negb (isEmpty keyword))
                   (fun e => strings.ILike (Event_Title e) kw
                             || strings.ILike (Event_Description e) kw) query in
    let query := whereIf (negb (time.IsZero start))
                   (fun e => start <=? Event_Date e) query in
    let query := whereIf (negb (time.IsZero end_))
                   (fun e => Event_Date e <=? end_) query in
    match roleClause role userID (fun e => e) with
    | None =>
        ret (inl (jsonError http.StatusBadRequest
                    "role must be 'organizer' or 'attendee'"))
    | Some restrict =>
        found <- Find (Order Event_Date (restrict query)) ;;
        loaded <- PreloadTasks found ;;
        match loaded with
        | inl err =>
            ret (inl (jsonError http.StatusInternalServerError
                        ("db error: " ++ Error err)))
        | inr events => ret (inr (map EventResult events))
        end
    end
  else ret (inr []).

Definition searchTasks (type keyword kw role : string) (start end_ : time.Time)
  (userID : N) : DB (Response + list SearchResult) :=
  if String.eqb type "both" || String.eqb type "task" then
    let taskQuery :=
      Joins Events (fun t e => (Event_ID e =? Task_EventID t)%N) (Model Tasks) in
    let taskQuery :=
      whereIf (negb (isEmpty keyword))
        (fun p => strings.ILike (Task_Title (fst p)) kw
                  || strings.ILike (Task_Description (fst p)) kw
                  || strings.ILike (Event_Title (snd p)) kw
                  || strings.ILike (Event_Description (snd p)) kw) taskQuery in
    let taskQuery := whereIf (negb (time.IsZero start))
                       (fun p => start <=? Event_Date (snd p)) taskQuery in
    let taskQuery := whereIf (negb (time.IsZero end_))
                       (fun p => Event_Date (snd p) <=? end_) taskQuery in
    match roleClause role userID snd with
    | None =>
        ret (inl (jsonError http.StatusBadRequest
                    "role must be 'organizer' or 'attendee'"))
    | Some restrict =>
        found <- Find (Select fst
                         (Order (fun p => Event_Date (snd p)) (restrict taskQuery))) ;;
        match found with
        | inl err =>
            ret (inl (jsonError http.StatusInternalServerError
                        ("db error: " ++ Error err)))
        | inr tasks =>
            results <- attachEvents tasks ;;
            ret (inr results)
        end
    end
  else ret (inr []).

(** The end of the range: the parsed value of either form, moved forward
    by 23h59m59s. *)
Definition parseEndDate (s : string) : option time.Time :=
  match parseEitherDate s with
  | Some t =>
      Some (time.Add t (23 * time.Hour + 59 * time.Minute + 59 * time.Second))
  | None => None
  end.

Definition SearchHandler (c : SearchContext) : DB Response :=
  match getUserIDFromContext (Search_Context c) with
  | None => ret (jsonError http.StatusUnauthorized "unauthorized")
  | Some userID =>
  let req := bindSearchRequest c in
  let type := if isEmpty (SearchRequest_Type req) then "both"
              else SearchRequest_Type req in
  match (if isEmpty (SearchRequest_StartDate req) then Some time.zero
         else parseEitherDate (SearchRequest_StartDate req)) with
  | None => ret (jsonError http.StatusBadRequest "invalid start_date format")
  | Some start =>
  match (if isEmpty (SearchRequest_EndDate req) then Some time.zero
         else parseEndDate (SearchRequest_EndDate req)) with
  | None => ret (jsonError http.StatusBadRequest "invalid end_date format")
  | Some end_ =>
      let keyword := strings.TrimSpace (SearchRequest_Keyword req) in
      let kw := "%" ++ keyword ++ "%" in
      evs <- searchEvents type keyword kw (SearchRequest_Role req) start end_ userID ;;
      match evs with
      | inl response => ret response
      | inr eventResults =>
          tks <- searchTasks type keyword kw (SearchRequest_Role req) start end_ userID ;;
          match tks with
          | inl response => ret response
          | inr taskResults =>
              ret {| Code := http.StatusOK;
                     Payload := JResults (eventResults ++ taskResults) |}
          end
      end
  end end end.

(* ------------------------------------------------------------------ *)
(** ** controllers.go: the listings *)

Definition GetOrganizedEvents (c : Context unit) : DB Response :=
  match getUserIDFromContext c with
  | None => ret (jsonError http.StatusUnauthorized "unauthorized")
  | Some userID =>
      found <- Find (Order Event_Date
                       (Where (fun e => (Event_OrganizerID e =? userID)%N)
                              (Model Events))) ;;
      loaded <- PreloadTasks found ;;
      match loaded with
      | inl err =>
          ret (jsonError http.StatusInternalServerError
                 ("db error: " ++ Error err))
      | inr events => ret {| Code := http.StatusOK; Payload := JEvents events |}
      end
  end.

Definition GetInvitedEvents (c : Context unit) : DB Response :=
  match getUserIDFromContext c with
  | None => ret (jsonError http.StatusUnauthorized "unauthorized")
  | Some userID =>
      attendances <-
        Find (Where (fun a => (EventAttendee_UserID a =? userID)%N
                              && String.eqb (EventAttendee_Role a) "attendee")
                    (Model EventAttendees)) ;;
      match attendances with
      | inl err =>
          ret (jsonError http.StatusInternalServerError
                 ("db error: " ++ Error err))
      | inr [] => ret {| Code := http.StatusOK; Payload := JEvents [] |}
      | inr attendances =>
          let ids := map EventAttendee_EventID attendances in
          found <- Find (Order Event_Date
                           (Where (fun e => existsb (N.eqb (Event_ID e)) ids)
                                  (Model Events))) ;;
          loaded <- PreloadTasks found ;;
          match loaded with
          | inl err =>
              ret (jsonError http.StatusInternalServerError
                     ("db error: " ++ Error err))
          | inr events => ret {| Code := http.StatusOK; Payload := JEvents events |}
          end
      end
  end.

Definition GetEventAttendees (c : Context unit) : DB Response :=
  match getUserIDFromContext c with
  | None => ret (jsonError http.StatusUnauthorized "unauthorized")
  | Some userID =>
  match strconv.ParseUint (Param_id c) with
  | None => ret (jsonError http.StatusBadRequest "invalid event id")
  | Some eventID =>
      found <- First Events (fun e => (Event_ID e =? eventID)%N) ;;
      match found with
      | inl ErrRecordNotFound =>
          ret (jsonError http.StatusNotFound "event not found")
      | inl err =>
          ret (jsonError http.StatusInternalServerError
                 ("db error: " ++ Error err))
      | inr ev =>
          if negb (Event_OrganizerID ev =? userID)%N then
            ret (jsonError http.StatusForbidden "only organizer can view attendees")
          else
            attendees <-
              Find (Where (fun a => (EventAttendee_EventID a =? eventID)%N)
                          (Model EventAttendees)) ;;
            match attendees with
            | inl err =>
                ret (jsonError http.StatusInternalServerError
                       ("db error: " ++ Error err))
            | inr attendees =>
                ret {| Code := http.StatusOK; Payload := JAttendees attendees |}
            end
      end
  end end.

(* ------------------------------------------------------------------ *)
(** ** routes.go: the requests that write to the store *)

Inductive Request :=
| PostEvents (c : Context CreateEventRequest)
| DeleteEventsId (c : Context unit)
| PostEventsIdInvite (c : Context InviteRequest)
| PostEventsIdRespond (c : Context AttendanceRequest)
| PostEventsIdTasks (c : Context CreateTaskRequest).

Definition handle (r : Request) : DB Response :=
  match r with
  | PostEvents c => CreateEvent c
  | DeleteEventsId c => DeleteEvent c
  | PostEventsIdInvite c => InviteUser c
  | PostEventsIdRespond c => SetAttendance c
  | PostEventsIdTasks c => CreateTask c
  end.

Definition response {A} (out : A * Store * Faults) : A := fst (fst out).
Definition store {A} (out : A * Store * Faults) : Store := snd (fst out).

(** A store right after migration: users only, every sequence at its
    start or later. *)
Definition initial (s : Store) : Prop :=
  events s = [] /\ tasks s = [] /\ event_attendees s = []
  /\ (1 <= events_id_seq s)%N /\ (1 <= tasks_id_seq s)%N
  /\ (1 <= event_attendees_id_seq s)%N.

(** What Signup, which is outside the handlers above, can do to the
    store: it writes the table of users and nothing else. *)
Definition withUsers (us : list User) (seq : N) (s : Store) : Store :=
  set_next_id Users seq (set_rows Users us s).

(** The stores the requests lead to when they are served one after
    another, each to its end before the next begins, whatever statements
    fail on the way and whatever happens to the table of users in between.
    Requests that overlap are not described by this relation. *)
Inductive reachable : Store -> Prop :=
| reachable_initial s : initial s -> reachable s
| reachable_handle s r f :
    reachable s -> reachable (store (handle r s f))
| reachable_users s us seq :
    reachable s -> reachable (withUsers us seq s).

(** A schedule without faults. *)
Definition fault_free (f : Faults) : Prop := forall x, In x f -> x = None.

(** The same when no statement ever fails. *)
Inductive reachable_without_fault : Store -> Prop :=
| reachable_without_fault_initial s : initial s -> reachable_without_fault s
| reachable_without_fault_handle s r f :
    reachable_without_fault s -> fault_free f ->
    reachable_without_fault (store (handle r s f))
| reachable_without_fault_users s us seq :
    reachable_without_fault s -> reachable_without_fault (withUsers us seq s).

(* ------------------------------------------------------------------ *)
(** ** Scenarios

    Two users and the event of the running example: "Offsite" on
    2024-06-01, organized by user 1, with the task "Book venue". *)

Definition authenticated {B} (userID : N) (id : string) (body : B) : Context B :=
  {| Get_user_id := Some (Uint userID); Param_id := id; Body := inr body |}.

Definition freshStore : Store :=
  {| users := [ {| User_ID := 1; User_Email := "u1@example.org";
                   User_Password := "secret1" |};
                {| User_ID := 2; User_Email := "u2@example.org";
                   User_Password := "secret2" |} ];
     events := []; tasks := []; event_attendees := [];
     users_id_seq := 3; events_id_seq := 1; tasks_id_seq := 1;
     event_attendees_id_seq := 1 |}.

Definition offsiteRequest (date : string) : CreateEventRequest :=
  {| CreateEventRequest_Title := "Offsite";
     CreateEventRequest_Description := "";
     CreateEventRequest_Location := "";
     CreateEventRequest_Date := date |}.

Definition offsiteStore : Store :=
  store (CreateEvent (authenticated 1 "" (offsiteRequest "2024-06-01")) freshStore []).

Definition venueStore : Store :=
  store (CreateTask
           (authenticated 1 "1"
              {| CreateTaskRequest_Title := "Book venue";
                 CreateTaskRequest_Description := "" |}) offsiteStore []).

Definition rsvp (status : string) : AttendanceRequest :=
  {| AttendanceRequest_Status := status |}.

Definition searchFor (keyword startDate endDate role type : string) : SearchRequest :=
  {| SearchRequest_Keyword := keyword; SearchRequest_StartDate := startDate;
     SearchRequest_EndDate := endDate; SearchRequest_Role := role;
     SearchRequest_Type := type |}.

Definition getSearch (userID : N) (req : SearchRequest) : SearchContext :=
  {| Search_Context := authenticated userID "" req;
     Search_Method := "GET"; Search_Query := req |}.

Definition offsiteEvent : Event :=
  {| Event_ID := 1; Event_Title := "Offsite"; Event_Description := "";
     Event_Location := ""; Event_Date := 63852796800000000000;
     Event_OrganizerID := 1; Event_Tasks := [] |}.

(** The same event at six in the evening, a second before midnight, and a
    second after the next midnight. *)
Definition eveningStore : Store :=
  store (CreateEvent (authenticated 1 "" (offsiteRequest "2024-06-01T18:00:00Z"))
           freshStore []).

Definition lastSecondStore : Store :=
  store (CreateEvent (authenticated 1 "" (offsiteRequest "2024-06-01T23:59:59Z"))
           freshStore []).

Definition nextDayStore : Store :=
  store (CreateEvent (authenticated 1 "" (offsiteRequest "2024-06-02T00:00:01Z"))
           freshStore []).

(** The insert of the organizer's row fails after the event was written
    and the lookup of [FirstOrCreate] went through. *)
Definition organizerInsertFails : Faults := [None; None; Some "connection reset"].

(* ------------------------------------------------------------------ *)
(** ** Vocabulary of the properties *)

Definition unrecognizedType (type : string) : Prop :=
  type <> "" /\ type <> "event" /\ type <> "task" /\ type <> "both".

(** The rows the two lookups of the handler find. *)
Definition eventByID (s : Store) (id : N) : option Event :=
  first_by_pk Events (filter (fun e => (Event_ID e =? id)%N) (events s)).

(** The row the lookup of DeleteEvent finds, its id being an [int]. *)
Definition eventByInt (s : Store) (id : Z) : option Event :=
  first_by_pk Events (filter (fun e => Z.of_N (Event_ID e) =? id) (events s)).

Definition userByID (s : Store) (id : N) : option User :=
  first_by_pk Users (filter (fun u => (User_ID u =? id)%N) (users s)).

Definition attendanceOf (s : Store) (eventID userID : N) : list EventAttendee :=
  filter (fun a => (EventAttendee_EventID a =? eventID)%N
                   && (EventAttendee_UserID a =? userID)%N)
         (event_attendees s).

(** The date a result is ordered by: the date of the event, for a task
    that of its parent event. *)
Definition resultDate (r : SearchResult) : time.Time :=
  match r with
  | EventResult e => Event_Date e
  | TaskResult _ e => Event_Date e
  end.

Definition ascending (rs : list SearchResult) : Prop :=
  StronglySorted (fun a b => resultDate a <= resultDate b) rs.

Definition effectiveType (req : SearchRequest) : string :=
  if isEmpty (SearchRequest_Type req) then "both" else SearchRequest_Type req.

(** A search that passes every check of the handler: the caller is
    known, each date is absent or in one of the two accepted forms, the
    role is absent, organizer or attendee. *)
Definition wellFormedSearch (c : SearchContext) : Prop :=
  let req := bindSearchRequest c in
  getUserIDFromContext (Search_Context c) <> None
  /\ (SearchRequest_StartDate req = ""
      \/ parseEitherDate (SearchRequest_StartDate req) <> None)
  /\ (SearchRequest_EndDate req = ""
      \/ parseEitherDate (SearchRequest_EndDate req) <> None)
  /\ (SearchRequest_Role req = "" \/ SearchRequest_Role req = "organizer"
      \/ SearchRequest_Role req = "attendee").

(** The rows of the task query pair a task with a stored event it
    refers to. *)
Definition joined (s : Store) (p : Task * Event) : Prop :=
  In (snd p) (events s) /\ Event_ID (snd p) = Task_EventID (fst p).

Definition attendancePair (a : EventAttendee) : N * N :=
  (EventAttendee_EventID a, EventAttendee_UserID a).

Definition validStatus (status : string) : Prop :=
  status = "" \/ status = "Going" \/ status = "Maybe" \/ status = "Not Going".

Definition eventStored (s : Store) (id : N) : Prop :=
  exists e, In e (events s) /\ Event_ID e = id.

Record consistent (s : Store) : Prop := {
  events_pk : NoDup (map Event_ID (events s));
  events_below_seq :
    forall e, In e (events s) -> (Event_ID e < events_id_seq s)%N;
  attendees_pk : NoDup (map EventAttendee_ID (event_attendees s));
  attendees_below_seq :
    forall a, In a (event_attendees s) ->
              (0 < EventAttendee_ID a < event_attendees_id_seq s)%N;
  attendees_seq_positive : (0 < event_attendees_id_seq s)%N;
  attendees_event :
    forall a, In a (event_attendees s) -> eventStored s (EventAttendee_EventID a);
  attendees_pair : NoDup (map attendancePair (event_attendees s));
  attendees_status :
    forall a, In a (event_attendees s) -> validStatus (EventAttendee_Status a);
  tasks_event : forall t, In t (tasks s) -> eventStored s (Task_EventID t) }.

(** Every stored event has the attendance row of its organizer. *)
Definition organizers_recorded (s : Store) : Prop :=
  forall e, In e (events s) ->
            exists a, In a (event_attendees s)
                      /\ EventAttendee_EventID a = Event_ID e
                      /\ EventAttendee_UserID a = Event_OrganizerID e
                      /\ EventAttendee_Role a = "organizer".

(** What a request does to the store.  The flag marks the one effect
    that needs a failing statement: an event written without the row of
    its organizer. *)
Inductive effect (s : Store) : bool -> Store -> Prop :=
| effect_none : effect s false s
| effect_event_only ev :
    Event_ID ev = 0%N -> effect s true (inserted Events ev s)
| effect_event ev att :
    Event_ID ev = 0%N ->
    att = {| EventAttendee_ID := 0;
             EventAttendee_EventID := events_id_seq s;
             EventAttendee_UserID := Event_OrganizerID ev;
             EventAttendee_Role := "organizer";
             EventAttendee_Status := "" |} ->
    effect s false (inserted EventAttendees att (inserted Events ev s))
| effect_attendee att :
    EventAttendee_ID att = 0%N ->
    eventStored s (EventAttendee_EventID att) ->
    (forall a, In a (event_attendees s) -> attendancePair a <> attendancePair att) ->
    validStatus (EventAttendee_Status att) ->
    effect s false (inserted EventAttendees att s)
| effect_status att status :
    In att (event_attendees s) ->
    validStatus status ->
    effect s false
      (set_rows EventAttendees
         (map (fun r => if (EventAttendee_ID r =? EventAttendee_ID att)%N
                        then withStatus att status else r)
              (event_attendees s)) s)
| effect_cascade id :
    effect s false
      (set_rows Events
         (filter (fun e => negb (Event_ID e =? id)%N) (events s))
         (set_rows Tasks
            (filter (fun t => negb (Task_EventID t =? id)%N) (tasks s))
            (set_rows EventAttendees
               (filter (fun a => negb (EventAttendee_EventID a =? id)%N)
                       (event_attendees s)) s)))
| effect_task t :
    Task_ID t = 0%N ->
    eventStored s (Task_EventID t) ->
    effect s false (inserted Tasks t s).

Definition invitedStore : Store :=
  store (InviteUser (authenticated 1 "1" {| InviteRequest_UserID := 2 |})
           offsiteStore []).

Definition organizerGoingStore : Store :=
  store (SetAttendance (authenticated 1 "1" (rsvp "going")) offsiteStore []).

Definition organizerGoingRow : EventAttendee :=
  {| EventAttendee_ID := 1; EventAttendee_EventID := 1;
     EventAttendee_UserID := 1; EventAttendee_Role := "organizer";
     EventAttendee_Status := "Going" |}.

Definition venueTask : Task :=
  {| Task_ID := 1; Task_EventID := 1; Task_Title := "Book venue";
     Task_Description := "" |}.

(** The tasks [Preload("Tasks")] attaches to an event, and the event
    with them. *)
Definition tasksOf (s : Store) (e : Event) : list Task :=
  filter (fun t => (Task_EventID t =? Event_ID e)%N) (tasks s).

Definition preloaded (s : Store) (e : Event) : Event := withTasks e (tasksOf s e).

Definition byDate (l : list Event) : Prop :=
  StronglySorted (fun a b => Event_Date a <= Event_Date b) l.

(** The caller holds an attendance row with role attendee for the
    event. *)
Definition invitedTo (s : Store) (userID : N) (e : Event) : bool :=
  existsb (fun a => (EventAttendee_EventID a =? Event_ID e)%N
                    && (EventAttendee_UserID a =? userID)%N
                    && String.eqb (EventAttendee_Role a) "attendee")
          (event_attendees s).

(** The event a search result shows. *)
Definition resultEvent (r : SearchResult) : Event :=
  match r with
  | EventResult e => e
  | TaskResult _ e => e
  end.

(** The bounds of the date range as the search handler computes them:
    the zero time stands for an absent bound. *)
Definition searchStart (req : SearchRequest) : option time.Time :=
  if isEmpty (SearchRequest_StartDate req) then Some time.zero
  else parseEitherDate (SearchRequest_StartDate req).

Definition searchEnd (req : SearchRequest) : option time.Time :=
  if isEmpty (SearchRequest_EndDate req) then Some time.zero
  else parseEndDate (SearchRequest_EndDate req).

Definition matchesKeyword (pattern : string) (r : SearchResult) : bool :=
  match r with
  | EventResult e =>
      strings.ILike (Event_Title e) pattern
      || strings.ILike (Event_Description e) pattern
  | TaskResult t e =>
      strings.ILike (Task_Title t) pattern
      || strings.ILike (Task_Description t) pattern
      || strings.ILike (Event_Title e) pattern
      || strings.ILike (Event_Description e) pattern
  end.

(** A result is drawn from the store: an event result is a stored event
    with its tasks attached, a task result a stored task with the stored
    event it refers to. *)
Definition drawnFrom (s : Store) (r : SearchResult) : Prop :=
  match r with
  | EventResult e => exists e0, In e0 (events s) /\ e = preloaded s e0
  | TaskResult t e =>
      In t (tasks s) /\ In e (events s) /\ Event_ID e = Task_EventID t
  end.

(** What the filters of a search ask of a result: the trimmed keyword,
    when there is one, occurs in a title or description; the date of the
    event is within the bounds that are not the zero time; the caller is
    the organizer, or holds an attendee row, when the role says so. *)
Definition withinFilters (s : Store) (keyword role : string)
  (start end_ : time.Time) (userID : N) (r : SearchResult) : Prop :=
  (keyword <> "" -> matchesKeyword ("%" ++ keyword ++ "%") r = true)
  /\ (start <> time.zero -> start <= Event_Date (resultEvent r))
  /\ (end_ <> time.zero -> Event_Date (resultEvent r) <= end_)
  /\ (role = "organizer" -> Event_OrganizerID (resultEvent r) = userID)
  /\ (role = "attendee" -> invitedTo s userID (resultEvent r) = true).

(** The kinds of result a type asks for. *)
Definition typeAdmits (type : string) (r : SearchResult) : Prop :=
  type = "both" \/ type = result_type r.

(** The stores that come after a store: any number of requests, with
    any failing statements, and of changes to the table of users. *)
Inductive evolves (s : Store) : Store -> Prop :=
| evolves_here : evolves s s
| evolves_handle s' r f : evolves s s' -> evolves s (store (handle r s' f))
| evolves_users s' us seq : evolves s s' -> evolves s (withUsers us seq s').

(* ------------------------------------------------------------------ *)
(** ** Proof steps *)

Ltac next_statement :=
  match goal with
  | |- context [next_fault ?f] =>
      let msg := fresh "msg" in
      let f' := fresh "f" in
      destruct (next_fault f) as [[msg|] f']; simpl
  end.

Ltac concrete_NoDup :=
  simpl; repeat (constructor; [simpl; intuition discriminate|]); constructor.

Ltac unchanged :=
  first [ apply effect_none
        | exists false; split; [apply effect_none | reflexivity] ].

(** A path of a handler that returns with the store it was given. *)
Ltac kept := do 3 eexists; split; [reflexivity | now left].

(* ------------------------------------------------------------------ *)
(** ** Statements: basic facts *)

Lemma fault_free_nil : fault_free [].
Proof. intros x []. Qed.

Lemma next_fault_free f :
  fault_free f -> exists f', next_fault f = (None, f') /\ fault_free f'.
Proof.
  destruct f as [|x f]; intros H.
  - exists []. split; [reflexivity | exact H].
  - exists f. split.
    + simpl. now rewrite (H x (or_introl eq_refl)).
    + intros y Hy. apply H. now right.
Qed.

Lemma exec_fault_free {A} (q : Store -> Result A * Store) s f :
  fault_free f ->
  exists f', exec q s f = (fst (q s), snd (q s), f') /\ fault_free f'.
Proof.
  intros H. destruct (next_fault_free f H) as (f' & E & H').
  exists f'. split; [|exact H'].
  unfold exec. rewrite E. now destruct (q s).
Qed.

Lemma first_by_pk_In {A} (T : Table A) l a :
  first_by_pk T l = Some a -> In a l.
Proof.
  revert a. induction l as [|b l IH]; simpl; intros a H; [discriminate|].
  destruct (first_by_pk T l) as [c|].
  - destruct (pk T b <=? pk T c)%N; inversion H; subst; auto.
  - inversion H; auto.
Qed.

Lemma first_by_pk_None {A} (T : Table A) l :
  first_by_pk T l = None -> l = [].
Proof.
  destruct l as [|b l]; simpl; [reflexivity|].
  destruct (first_by_pk T l) as [c|]; [|discriminate].
  destruct (pk T b <=? pk T c)%N; discriminate.
Qed.

Lemma first_by_pk_matches {A} (T : Table A) cond l a :
  first_by_pk T (filter cond l) = Some a -> In a l /\ cond a = true.
Proof.
  intros H. apply first_by_pk_In in H. now apply filter_In in H.
Qed.

Lemma first_by_pk_none_matches {A} (T : Table A) cond l :
  first_by_pk T (filter cond l) = None ->
  forall a, In a l -> cond a = false.
Proof.
  intros H a Ha. apply first_by_pk_None in H.
  destruct (cond a) eqn:E; [|reflexivity].
  assert (In a (filter cond l)) as Hin by (apply filter_In; auto).
  rewrite H in Hin. destruct Hin.
Qed.

(* ------------------------------------------------------------------ *)
(** ** Status normalization (SetAttendance) *)

Lemma acceptedStatus_iff n :
  acceptedStatus n = true <-> n = "Going" \/ n = "Maybe" \/ n = "Not Going".
Proof.
  unfold acceptedStatus.
  destruct (String.eqb_spec n "Going"), (String.eqb_spec n "Maybe"),
    (String.eqb_spec n "Not Going"); simpl; split; intros H; auto;
    try discriminate; destruct H as [H|[H|H]]; congruence.
Qed.

Lemma bindAttendance (c : Context AttendanceRequest) body :
  Body c = inr body ->
  (isEmpty (AttendanceRequest_Status body) = true ->
   exists err, ShouldBindJSON c validateAttendanceRequest = inl err)
  /\ (isEmpty (AttendanceRequest_Status body) = false ->
      ShouldBindJSON c validateAttendanceRequest = inr body).
Proof.
  intros Hb. unfold ShouldBindJSON. rewrite Hb.
  unfold validateAttendanceRequest, required. simpl.
  split; intros ->; [eexists|]; reflexivity.
Qed.

Lemma SetAttendance_rejects (c : Context AttendanceRequest) s f
      userID eventID body :
  getUserIDFromContext c = Some userID ->
  strconv.ParseUint (Param_id c) = Some eventID ->
  Body c = inr body ->
  acceptedStatus (normalize (AttendanceRequest_Status body)) = false ->
  exists msg,
    SetAttendance c s f = (jsonError http.StatusBadRequest msg, s, f)
    /\ (AttendanceRequest_Status body <> "" ->
        msg = "status must be one of: Going, Maybe, Not Going").
Proof.
  intros Hu Hp Hb Hacc. unfold SetAttendance. rewrite Hu, Hp.
  destruct (bindAttendance c body Hb) as [Hempty Hgiven].
  destruct (isEmpty (AttendanceRequest_Status body)) eqn:He.
  - destruct (Hempty eq_refl) as [err E]. rewrite E.
    eexists. split; [reflexivity|].
    intros Hne. apply String.eqb_eq in He. contradiction.
  - rewrite (Hgiven eq_refl). cbv zeta. rewrite Hacc. cbn [negb].
    eexists. split; reflexivity.
Qed.

Lemma First_fault_free {A} (T : Table A) cond s f :
  fault_free f ->
  exists f',
    First T cond s f
    = (match first_by_pk T (filter cond (rows T s)) with
       | Some a => inr a
       | None => inl ErrRecordNotFound
       end, s, f')
    /\ fault_free f'.
Proof.
  intros H. unfold First.
  destruct (exec_fault_free
              (fun s0 => match first_by_pk T (filter cond (rows T s0)) with
                         | Some a => (inr a, s0)
                         | None => (inl ErrRecordNotFound, s0)
                         end) s f H) as (f' & E & H').
  exists f'. split; [|exact H']. rewrite E.
  now destruct (first_by_pk T (filter cond (rows T s))).
Qed.

Lemma Create_fault_free {A} (T : Table A) (a : A) s f :
  fault_free f -> pk T a = 0%N ->
  exists f',
    Create T a s f = (inr (set_pk T (next_id T s) a), inserted T a s, f')
    /\ fault_free f'.
Proof.
  intros H Hpk. unfold Create.
  match goal with |- context [exec ?q s f] =>
    destruct (exec_fault_free q s f H) as (f' & E & H') end.
  exists f'. split; [|exact H']. rewrite E, Hpk. reflexivity.
Qed.

Lemma In_updated {A} (T : Table A) (a : A) l :
  existsb (fun r => (pk T r =? pk T a)%N) l = true ->
  In a (map (fun r => if (pk T r =? pk T a)%N then a else r) l).
Proof.
  intros H. apply existsb_exists in H. destruct H as (r & Hr & E).
  apply in_map_iff. exists r. now rewrite E.
Qed.

Lemma normalize_empty_rejected : acceptedStatus (normalize "") = false.
Proof. reflexivity. Qed.

Lemma SetAttendance_accepts (c : Context AttendanceRequest) s f
      userID eventID body ev :
  getUserIDFromContext c = Some userID ->
  strconv.ParseUint (Param_id c) = Some eventID ->
  Body c = inr body ->
  acceptedStatus (normalize (AttendanceRequest_Status body)) = true ->
  In ev (events s) -> Event_ID ev = eventID ->
  fault_free f ->
  exists att,
    response (SetAttendance c s f)
    = {| Code := http.StatusOK; Payload := JAttendee att |}
    /\ EventAttendee_Status att = normalize (AttendanceRequest_Status body)
    /\ EventAttendee_EventID att = eventID
    /\ EventAttendee_UserID att = userID
    /\ In att (event_attendees (store (SetAttendance c s f))).
Proof.
  intros Hu Hp Hb Hacc Hev Hid Hf. unfold SetAttendance.
  rewrite Hu, Hp.
  destruct (bindAttendance c body Hb) as [_ Hgiven].
  destruct (isEmpty (AttendanceRequest_Status body)) eqn:He.
  { apply String.eqb_eq in He. rewrite He in Hacc.
    rewrite normalize_empty_rejected in Hacc. discriminate. }
  rewrite (Hgiven eq_refl). cbv zeta. rewrite Hacc. cbn [negb]. unfold bind.
  destruct (First_fault_free Events (fun e => (Event_ID e =? eventID)%N) s f Hf)
    as (f1 & E1 & Hf1).
  rewrite E1. clear E1.
  destruct (first_by_pk Events _) as [ev'|] eqn:Efound.
  2:{ apply first_by_pk_none_matches with (a := ev) in Efound; [|exact Hev].
      apply N.eqb_neq in Efound. contradiction. }
  destruct (First_fault_free EventAttendees
              (fun a => (EventAttendee_EventID a =? eventID)%N
                        && (EventAttendee_UserID a =? userID)%N) s f1 Hf1)
    as (f2 & E2 & Hf2).
  rewrite E2. clear E2.
  destruct (first_by_pk EventAttendees _) as [att|] eqn:Eatt.
  - apply first_by_pk_matches in Eatt. destruct Eatt as [Hin Hc].
    apply andb_true_iff in Hc. destruct Hc as [Hc1 Hc2].
    apply N.eqb_eq in Hc1, Hc2.
    unfold Save.
    destruct (pk EventAttendees (withStatus att _) =? 0)%N eqn:Ez.
    + apply N.eqb_eq in Ez.
      destruct (Create_fault_free EventAttendees
                  (withStatus att (normalize (AttendanceRequest_Status body)))
                  s f2 Hf2 Ez) as (f3 & E3 & _).
      rewrite E3. eexists. split; [reflexivity|].
      simpl. repeat split; auto. apply in_or_app. right. now left.
    + match goal with |- context [exec ?q s f2] =>
        destruct (exec_fault_free q s f2 Hf2) as (f3 & E3 & _) end.
      rewrite E3. clear E3.
      destruct (existsb _ (rows EventAttendees s)) eqn:Eex.
      * eexists. split; [reflexivity|]. simpl. repeat split; auto.
        unfold store. simpl. now apply (In_updated EventAttendees).
      * eexists. split; [reflexivity|]. simpl. repeat split; auto.
        unfold store. simpl. apply in_or_app. right. now left.
  - destruct (Create_fault_free EventAttendees
                {| EventAttendee_ID := 0; EventAttendee_EventID := eventID;
                   EventAttendee_UserID := userID;
                   EventAttendee_Role := "attendee";
                   EventAttendee_Status :=
                     normalize (AttendanceRequest_Status body) |}
                s f2 Hf2 eq_refl) as (f3 & E3 & _).
    rewrite E3. eexists. split; [reflexivity|].
    simpl. repeat split; auto. apply in_or_app. right. now left.
Qed.

(** C7. SetAttendance normalizes the status it is given by trimming white
    space, lower-casing, then title-casing each word
    ([strings.Title (strings.ToLower (strings.TrimSpace s))], on the runes
    of the UTF-8 input with the white space and the case of Unicode) and
    accepts the result exactly when it is Going, Maybe or Not Going:
    "going", " GOING " and "Going" yield Going, "not going" yields Not Going,
    and so do "going" after a no-break space (U+00A0) and "GO", U+0130, "NG";
    an accepted status is stored on the caller's attendance row and
    returned; any other input, such as "whatever", is answered with 400
    (invalid status) and leaves the store as it was. *)
Theorem SetAttendance_status_normalization :
  (forall status,
      normalize status
      = strings.Title (strings.ToLower (strings.TrimSpace status)))
  /\ normalize "going" = "Going"
  /\ normalize " GOING " = "Going"
  /\ normalize "Going" = "Going"
  /\ normalize "not going" = "Not Going"
  /\ acceptedStatus (normalize "whatever") = false
  /\ (forall n, acceptedStatus n = true
                <-> n = "Going" \/ n = "Maybe" \/ n = "Not Going")
  /\ (forall (c : Context AttendanceRequest) s f userID eventID body ev,
         getUserIDFromContext c = Some userID ->
         strconv.ParseUint (Param_id c) = Some eventID ->
         Body c = inr body ->
         acceptedStatus (normalize (AttendanceRequest_Status body)) = true ->
         In ev (events s) -> Event_ID ev = eventID ->
         fault_free f ->
         exists att,
           response (SetAttendance c s f)
           = {| Code := http.StatusOK; Payload := JAttendee att |}
           /\ EventAttendee_Status att = normalize (AttendanceRequest_Status body)
           /\ EventAttendee_EventID att = eventID
           /\ EventAttendee_UserID att = userID
           /\ In att (event_attendees (store (SetAttendance c s f))))
  /\ (forall (c : Context AttendanceRequest) s f userID eventID body,
         getUserIDFromContext c = Some userID ->
         strconv.ParseUint (Param_id c) = Some eventID ->
         Body c = inr body ->
         acceptedStatus (normalize (AttendanceRequest_Status body)) = false ->
         exists msg,
           SetAttendance c s f = (jsonError http.StatusBadRequest msg, s, f)
           /\ (AttendanceRequest_Status body <> "" ->
               msg = "status must be one of: Going, Maybe, Not Going"))
  /\ normalize (utf8.string_of [0xC2; 0xA0; 0x67; 0x6F; 0x69; 0x6E; 0x67])
     = "Going"
  /\ normalize (utf8.string_of [0x47; 0x4F; 0xC4; 0xB0; 0x4E; 0x47]) = "Going".
Proof.
  split; [reflexivity|].
  repeat (split; [reflexivity|]).
  split; [exact acceptedStatus_iff|].
  split; [exact SetAttendance_accepts|].
  split; [exact SetAttendance_rejects|].
  split; vm_compute; reflexivity.
Qed.

(* ------------------------------------------------------------------ *)
(** ** Primary keys *)

Lemma filter_none {A} (cond : A -> bool) l :
  (forall a, In a l -> cond a = false) -> filter cond l = [].
Proof.
  induction l as [|b l IH]; simpl; intros H; [reflexivity|].
  rewrite (H b (or_introl eq_refl)). apply IH. intros a Ha. apply H. now right.
Qed.

Lemma filter_key_unique {A} (k : A -> N) l a :
  NoDup (map k l) -> In a l -> filter (fun x => (k x =? k a)%N) l = [a].
Proof.
  induction l as [|b l IH]; simpl; intros Hnd Hin; [destruct Hin|].
  inversion Hnd as [|? ? Hnotin Hnd']; subst.
  destruct Hin as [->|Hin].
  - rewrite N.eqb_refl. f_equal. apply filter_none.
    intros x Hx. apply N.eqb_neq. intros E. apply Hnotin.
    rewrite <- E. now apply in_map.
  - destruct (N.eqb_spec (k b) (k a)) as [E|_].
    + exfalso. apply Hnotin. rewrite E. now apply in_map.
    + now apply IH.
Qed.

Lemma first_by_pk_unique {A} (T : Table A) l a :
  NoDup (map (pk T) l) -> In a l ->
  first_by_pk T (filter (fun x => (pk T x =? pk T a)%N) l) = Some a.
Proof.
  intros Hnd Hin. now rewrite (filter_key_unique (pk T) l a Hnd Hin).
Qed.

Lemma event_lookup_unique s ev :
  NoDup (map Event_ID (events s)) -> In ev (events s) ->
  first_by_pk Events (filter (fun e => (Event_ID e =? Event_ID ev)%N) (events s))
  = Some ev.
Proof. exact (first_by_pk_unique Events (events s) ev). Qed.

(* ------------------------------------------------------------------ *)
(** ** DeleteEvent: the cascade is one transaction *)

Lemma Atoi_nonempty s id : strconv.Atoi s = Some id -> isEmpty s = false.
Proof. destruct s; [discriminate | reflexivity]. Qed.

(** C3. For every stored event E, when E's organizer requests its
    deletion the handler either answers "event deleted", and then E, every
    task of E and every attendance row of E are gone while every other row
    is kept, or it answers 500 and the store is exactly what it was before;
    without faults it succeeds, and a failure of any of the three deletes
    leaves the whole store unchanged. *)
Theorem DeleteEvent_cascade_atomic (c : Context unit) s f ev :
  NoDup (map Event_ID (events s)) ->
  In ev (events s) ->
  getUserIDFromContext c = Some (Event_OrganizerID ev) ->
  strconv.Atoi (Param_id c) = Some (Z.of_N (Event_ID ev)) ->
  let out := DeleteEvent c s f in
  let deleted :=
    response out = {| Code := http.StatusOK; Payload := JMessage "event deleted" |}
    /\ events (store out)
       = filter (fun e => negb (Event_ID e =? Event_ID ev)%N) (events s)
    /\ tasks (store out)
       = filter (fun t => negb (Task_EventID t =? Event_ID ev)%N) (tasks s)
    /\ event_attendees (store out)
       = filter (fun a => negb (EventAttendee_EventID a =? Event_ID ev)%N)
                (event_attendees s)
    /\ users (store out) = users s
    /\ ~ In ev (events (store out))
    /\ (forall t, In t (tasks (store out)) -> Task_EventID t <> Event_ID ev)
    /\ (forall a, In a (event_attendees (store out)) ->
                  EventAttendee_EventID a <> Event_ID ev) in
  let failed :=
    Code (response out) = http.StatusInternalServerError /\ store out = s in
  (deleted \/ failed)
  /\ (fault_free f -> deleted)
  /\ (forall d1 d2 d3 rest,
         f = None :: None :: d1 :: d2 :: d3 :: rest ->
         d1 <> None \/ d2 <> None \/ d3 <> None -> failed).
Proof.
  intros Hnd Hin Hu Hp out deleted failed.
  assert (Hfound :
            first_by_pk Events
              (filter (fun e => Z.of_N (Event_ID e) =? Z.of_N (Event_ID ev))
                      (events s)) = Some ev).
  { rewrite (filter_ext _ (fun e => (Event_ID e =? Event_ID ev)%N)).
    - exact (first_by_pk_unique Events (events s) ev Hnd Hin).
    - intros e. destruct (N.eqb_spec (Event_ID e) (Event_ID ev)) as [->|Hne].
      + apply Z.eqb_refl.
      + apply Z.eqb_neq. intros E. apply Hne. now apply N2Z.inj. }
  assert (Hdel :
            ~ In ev (filter (fun e => negb (Event_ID e =? Event_ID ev)%N) (events s))
            /\ (forall t,
                  In t (filter (fun t => negb (Task_EventID t =? Event_ID ev)%N)
                               (tasks s)) ->
                  Task_EventID t <> Event_ID ev)
            /\ (forall a,
                  In a (filter (fun a => negb (EventAttendee_EventID a =? Event_ID ev)%N)
                               (event_attendees s)) ->
                  EventAttendee_EventID a <> Event_ID ev)).
  { repeat split.
    - intros H. apply filter_In in H. destruct H as [_ H].
      now rewrite N.eqb_refl in H.
    - intros t H. apply filter_In in H. destruct H as [_ H].
      apply negb_true_iff in H. now apply N.eqb_neq.
    - intros a H. apply filter_In in H. destruct H as [_ H].
      apply negb_true_iff in H. now apply N.eqb_neq. }
  subst out deleted failed. unfold DeleteEvent.
  rewrite Hu, (Atoi_nonempty _ _ Hp), Hp.
  unfold bind, Transaction, Delete, First, exec, ret, response, store.
  change (rows Events s) with (events s).
  rewrite Hfound.
  split; [|split].
  - next_statement; [right; split; reflexivity|].
    rewrite N.eqb_refl. simpl.
    repeat next_statement;
      try (right; split; reflexivity);
      left; repeat (split; [reflexivity|]); exact Hdel.
  - intros Hf.
    destruct (next_fault_free f Hf) as (f1 & -> & Hf1). simpl.
    rewrite N.eqb_refl. simpl.
    destruct (next_fault_free f1 Hf1) as (f2 & -> & Hf2).
    destruct (next_fault_free f2 Hf2) as (f3 & -> & Hf3).
    destruct (next_fault_free f3 Hf3) as (f4 & -> & Hf4).
    destruct (next_fault_free f4 Hf4) as (f5 & -> & Hf5).
    destruct (next_fault_free f5 Hf5) as (f6 & -> & Hf6).
    simpl. repeat (split; [reflexivity|]). exact Hdel.
  - intros d1 d2 d3 rest -> Hd. simpl.
    rewrite N.eqb_refl. simpl.
    destruct d1 as [m1|]; simpl; [split; reflexivity|].
    destruct d2 as [m2|]; simpl; [split; reflexivity|].
    destruct d3 as [m3|]; simpl; [split; reflexivity|].
    exfalso. destruct Hd as [H|[H|H]]; now apply H.
Qed.

Lemma DeleteEvent_cascade_atomic_witness :
  let out := DeleteEvent (authenticated 1 "1" tt) venueStore [] in
  response out = {| Code := http.StatusOK; Payload := JMessage "event deleted" |}
  /\ events (store out) = []
  /\ tasks (store out) = []
  /\ event_attendees (store out) = []
  /\ users (store out) = users venueStore.
Proof.
  assert (Hnd : NoDup (map Event_ID (events venueStore))) by concrete_NoDup.
  assert (Hin : In offsiteEvent (events venueStore)) by (left; reflexivity).
  destruct (DeleteEvent_cascade_atomic (authenticated 1 "1" tt) venueStore []
              offsiteEvent Hnd Hin eq_refl eq_refl) as (_ & H & _).
  destruct (H fault_free_nil) as (H1 & H2 & H3 & H4 & H5 & _).
  cbv zeta. rewrite H1, H2, H3, H4, H5. repeat split.
Defined.

(* ------------------------------------------------------------------ *)
(** ** CreateEvent: two writes, no transaction *)

Lemma CreateEvent_without_fault :
  let out := CreateEvent (authenticated 1 "" (offsiteRequest "2024-06-01"))
               freshStore [] in
  Code (response out) = http.StatusCreated
  /\ events (store out) = [offsiteEvent]
  /\ event_attendees (store out)
     = [ {| EventAttendee_ID := 1; EventAttendee_EventID := 1;
            EventAttendee_UserID := 1; EventAttendee_Role := "organizer";
            EventAttendee_Status := "" |} ].
Proof. repeat split. Qed.

Lemma CreateEvent_event_insert_fails (c : Context CreateEventRequest) s msg f :
  store (CreateEvent c s (Some msg :: f)) = s
  /\ Code (response (CreateEvent c s (Some msg :: f))) <> http.StatusCreated.
Proof.
  unfold CreateEvent.
  destruct (getUserIDFromContext c); [|split; [reflexivity|discriminate]].
  destruct (ShouldBindJSON c validateCreateEventRequest);
    [split; [reflexivity|discriminate]|].
  destruct (parseEitherDate _); split; (reflexivity || discriminate).
Qed.

(** C4. CreateEvent does not write the event and the organizer's row
    atomically: when the insert of the organizer's row fails after the
    event was written, the handler still answers 201 Created, the event is
    stored, and no attendance row exists for it. *)
Theorem CreateEvent_not_atomic :
  let out := CreateEvent (authenticated 1 "" (offsiteRequest "2024-06-01"))
               freshStore organizerInsertFails in
  response out = {| Code := http.StatusCreated; Payload := JEvent offsiteEvent |}
  /\ events (store out) = [offsiteEvent]
  /\ event_attendees (store out) = [].
Proof. repeat split. Qed.

(* ------------------------------------------------------------------ *)
(** ** Search: the end of the date range *)

Lemma parseEndDate_extends s t :
  parseEndDate s = Some t
  <-> exists t0, parseEitherDate s = Some t0 /\ t = t0 + 86399000000000.
Proof.
  unfold parseEndDate. destruct (parseEitherDate s) as [t0|]; split.
  - intros H. inversion H. exists t0. split; reflexivity.
  - intros (t1 & E & ->). inversion E. reflexivity.
  - discriminate.
  - intros (t1 & E & _). discriminate.
Qed.

Lemma Search_end_calendar_date_inclusive :
  (exists e,
      response (SearchHandler (getSearch 2 (searchFor "" "" "2024-06-01" "" "event"))
                  lastSecondStore [])
      = {| Code := http.StatusOK; Payload := JResults [EventResult e] |}
      /\ time.ParseRFC3339 "2024-06-01T23:59:59Z" = Some (Event_Date e))
  /\ response (SearchHandler (getSearch 2 (searchFor "" "" "2024-06-01" "" "event"))
                 nextDayStore [])
     = {| Code := http.StatusOK; Payload := JResults [] |}.
Proof. split; [eexists; split; reflexivity | reflexivity]. Qed.

(** C5. An end date given as an instant is not taken as it stands: the
    search moves it forward by 23h59m59s like a calendar date, so a search
    with end date 2024-06-01T12:00:00Z returns the event dated
    2024-06-01T18:00:00Z, six hours after that instant. *)
Theorem Search_end_instant_extended :
  exists e limit,
    response (SearchHandler
                (getSearch 2 (searchFor "" "" "2024-06-01T12:00:00Z" "" "event"))
                eveningStore [])
    = {| Code := http.StatusOK; Payload := JResults [EventResult e] |}
    /\ time.ParseRFC3339 "2024-06-01T18:00:00Z" = Some (Event_Date e)
    /\ time.ParseRFC3339 "2024-06-01T12:00:00Z" = Some limit
    /\ limit < Event_Date e.
Proof. do 2 eexists. repeat split. Qed.

(* ------------------------------------------------------------------ *)
(** ** Search: the type parameter *)

Lemma unrecognizedType_neither type :
  unrecognizedType type ->
  isEmpty type = false
  /\ String.eqb type "both" = false
  /\ String.eqb type "event" = false
  /\ String.eqb type "task" = false.
Proof.
  intros (H0 & H1 & H2 & H3). unfold isEmpty.
  repeat split; now apply String.eqb_neq.
Qed.

Lemma Search_unrecognized_type_counterexample :
  ~ (forall (c : SearchContext) s f,
        unrecognizedType (SearchRequest_Type (bindSearchRequest c)) ->
        Code (response (SearchHandler c s f)) = http.StatusBadRequest).
Proof.
  intros H.
  specialize (H (getSearch 1 (searchFor "Offsite" "" "" "" "concert")) venueStore []).
  assert (unrecognizedType "concert") as Hty by (repeat split; discriminate).
  specialize (H Hty). vm_compute in H. discriminate H.
Qed.

(** C6 (amended). A search whose type is non-empty and none of event,
    task and both runs no query and changes nothing: for an authenticated
    caller whose start and end dates are absent or well-formed the answer
    is 200 with an empty result sequence; the only failures are the
    missing identity and a malformed start or end date. *)
Theorem Search_unrecognized_type_empty (c : SearchContext) s f :
  unrecognizedType (SearchRequest_Type (bindSearchRequest c)) ->
  SearchHandler c s f
  = (match getUserIDFromContext (Search_Context c) with
     | None => jsonError http.StatusUnauthorized "unauthorized"
     | Some _ =>
         let req := bindSearchRequest c in
         match (if isEmpty (SearchRequest_StartDate req) then Some time.zero
                else parseEitherDate (SearchRequest_StartDate req)) with
         | None => jsonError http.StatusBadRequest "invalid start_date format"
         | Some _ =>
             match (if isEmpty (SearchRequest_EndDate req) then Some time.zero
                    else parseEndDate (SearchRequest_EndDate req)) with
             | None => jsonError http.StatusBadRequest "invalid end_date format"
             | Some _ => {| Code := http.StatusOK; Payload := JResults [] |}
             end
         end
     end, s, f).
Proof.
  intros Hty. apply unrecognizedType_neither in Hty.
  destruct Hty as (H0 & H1 & H2 & H3).
  unfold SearchHandler.
  destruct (getUserIDFromContext (Search_Context c)); [|reflexivity].
  rewrite H0. cbv zeta.
  destruct (if isEmpty (SearchRequest_StartDate (bindSearchRequest c))
            then Some time.zero else _); [|reflexivity].
  destruct (if isEmpty (SearchRequest_EndDate (bindSearchRequest c))
            then Some time.zero else _); [|reflexivity].
  unfold bind, searchEvents, searchTasks. rewrite H1, H2, H3. reflexivity.
Qed.

Lemma Search_unrecognized_type_empty_witness :
  SearchHandler (getSearch 1 (searchFor "Offsite" "" "" "" "concert")) venueStore []
  = ({| Code := http.StatusOK; Payload := JResults [] |}, venueStore, []).
Proof.
  apply (Search_unrecognized_type_empty
           (getSearch 1 (searchFor "Offsite" "" "" "" "concert")) venueStore []).
  repeat split; discriminate.
Defined.

(* ------------------------------------------------------------------ *)
(** ** InviteUser: the order of the checks *)

Lemma InviteUser_missing_target_counterexample :
  ~ (forall (c : Context InviteRequest) s f userID eventID body ev,
        getUserIDFromContext c = Some userID ->
        strconv.ParseUint (Param_id c) = Some eventID ->
        ShouldBindJSON c validateInviteRequest = inr body ->
        eventByID s eventID = Some ev ->
        Event_OrganizerID ev <> userID ->
        userByID s (InviteRequest_UserID body) = None ->
        fault_free f ->
        response (InviteUser c s f)
        = jsonError http.StatusNotFound "invited user not found").
Proof.
  intros H.
  specialize (H (authenticated 2 "1" {| InviteRequest_UserID := 99 |})
                offsiteStore [] 2%N 1%N {| InviteRequest_UserID := 99 |}
                offsiteEvent eq_refl eq_refl eq_refl eq_refl).
  assert (Event_OrganizerID offsiteEvent <> 2%N) as Hne by discriminate.
  specialize (H Hne eq_refl fault_free_nil).
  vm_compute in H. discriminate H.
Qed.

Lemma InviteUser_until_event (c : Context InviteRequest) s f userID eventID body :
  getUserIDFromContext c = Some userID ->
  strconv.ParseUint (Param_id c) = Some eventID ->
  ShouldBindJSON c validateInviteRequest = inr body ->
  fault_free f ->
  exists f1,
    fault_free f1
    /\ InviteUser c s f
       = match eventByID s eventID with
         | None => (jsonError http.StatusNotFound "event not found", s, f1)
         | Some ev =>
             if negb (Event_OrganizerID ev =? userID)%N then
               (jsonError http.StatusForbidden "only organizer can invite others",
                s, f1)
             else
               (user <- First Users
                          (fun u => (User_ID u =? InviteRequest_UserID body)%N) ;;
                match user with
                | inl ErrRecordNotFound =>
                    ret (jsonError http.StatusNotFound "invited user not found")
                | inl err =>
                    ret (jsonError http.StatusInternalServerError
                           ("db error: " ++ Error err))
                | inr invitee =>
                    if (User_ID invitee =? Event_OrganizerID ev)%N then
                      ret (jsonError http.StatusBadRequest "user is already organizer")
                    else
                      existing <- First EventAttendees
                                    (fun a => (EventAttendee_EventID a =? eventID)%N
                                              && (EventAttendee_UserID a
                                                  =? User_ID invitee)%N) ;;
                      match existing with
                      | inr _ =>
                          ret {| Code := http.StatusOK;
                                 Payload := JMessage "user already invited or participant" |}
                      | inl (ErrDB msg) =>
                          ret (jsonError http.StatusInternalServerError
                                 ("db error: " ++ Error (ErrDB msg)))
                      | inl ErrRecordNotFound =>
                          created <- Create EventAttendees
                                       {| EventAttendee_ID := 0;
                                          EventAttendee_EventID := eventID;
                                          EventAttendee_UserID := User_ID invitee;
                                          EventAttendee_Role := "attendee";
                                          EventAttendee_Status := "" |} ;;
                          match created with
                          | inl err =>
                              ret (jsonError http.StatusInternalServerError
                                     ("could not create invitation: " ++ Error err))
                          | inr _ =>
                              ret {| Code := http.StatusOK;
                                     Payload := JMessage "user invited" |}
                          end
                      end
                end) s f1
         end.
Proof.
  intros Hu Hp Hb Hf. unfold InviteUser. rewrite Hu, Hp, Hb.
  unfold bind at 1.
  destruct (First_fault_free Events (fun e => (Event_ID e =? eventID)%N) s f Hf)
    as (f1 & E1 & Hf1).
  exists f1. split; [exact Hf1|]. rewrite E1. unfold eventByID.
  change (rows Events s) with (events s).
  destruct (first_by_pk Events _) as [ev|]; [|reflexivity].
  destruct (negb (Event_OrganizerID ev =? userID)%N); reflexivity.
Qed.

(** InviteUser surfaces the first failure in the order authenticate, parse
    the path, validate the body, event exists, caller is the organizer,
    target user exists, target is not the organizer. *)
Lemma InviteUser_check_order :
  (forall (c : Context InviteRequest) s f,
      getUserIDFromContext c = None ->
      InviteUser c s f = (jsonError http.StatusUnauthorized "unauthorized", s, f))
  /\ (forall (c : Context InviteRequest) s f userID,
         getUserIDFromContext c = Some userID ->
         strconv.ParseUint (Param_id c) = None ->
         InviteUser c s f
         = (jsonError http.StatusBadRequest "invalid event id", s, f))
  /\ (forall (c : Context InviteRequest) s f userID eventID err,
         getUserIDFromContext c = Some userID ->
         strconv.ParseUint (Param_id c) = Some eventID ->
         ShouldBindJSON c validateInviteRequest = inl err ->
         InviteUser c s f
         = (jsonError http.StatusBadRequest ("invalid body: " ++ err), s, f))
  /\ (forall (c : Context InviteRequest) s f userID eventID body,
         getUserIDFromContext c = Some userID ->
         strconv.ParseUint (Param_id c) = Some eventID ->
         ShouldBindJSON c validateInviteRequest = inr body ->
         fault_free f ->
         (eventByID s eventID = None ->
          response (InviteUser c s f)
          = jsonError http.StatusNotFound "event not found"
          /\ store (InviteUser c s f) = s)
         /\ (forall ev,
                eventByID s eventID = Some ev ->
                (Event_OrganizerID ev <> userID ->
                 response (InviteUser c s f)
                 = jsonError http.StatusForbidden "only organizer can invite others"
                 /\ store (InviteUser c s f) = s)
                /\ (Event_OrganizerID ev = userID ->
                    userByID s (InviteRequest_UserID body) = None ->
                    response (InviteUser c s f)
                    = jsonError http.StatusNotFound "invited user not found"
                    /\ store (InviteUser c s f) = s)
                /\ (forall invitee,
                       Event_OrganizerID ev = userID ->
                       userByID s (InviteRequest_UserID body) = Some invitee ->
                       User_ID invitee = Event_OrganizerID ev ->
                       response (InviteUser c s f)
                       = jsonError http.StatusBadRequest "user is already organizer"
                       /\ store (InviteUser c s f) = s))).
Proof.
  split; [|split; [|split; [|]]].
  - intros c s f Hu. unfold InviteUser. now rewrite Hu.
  - intros c s f userID Hu Hp. unfold InviteUser. now rewrite Hu, Hp.
  - intros c s f userID eventID err Hu Hp Hb. unfold InviteUser.
    now rewrite Hu, Hp, Hb.
  - intros c s f userID eventID body Hu Hp Hb Hf.
    destruct (InviteUser_until_event c s f userID eventID body Hu Hp Hb Hf)
      as (f1 & Hf1 & E).
    rewrite E. clear E. split.
    + intros ->. split; reflexivity.
    + intros ev ->. split; [|split].
      * intros Hne. apply N.eqb_neq in Hne. rewrite Hne. split; reflexivity.
      * intros Heq Hnone. apply N.eqb_eq in Heq. rewrite Heq. simpl negb. cbv iota.
        unfold bind.
        destruct (First_fault_free Users
                    (fun u => (User_ID u =? InviteRequest_UserID body)%N) s f1 Hf1)
          as (f2 & E2 & Hf2).
        rewrite E2. unfold userByID in Hnone.
        change (rows Users s) with (users s). rewrite Hnone.
        split; reflexivity.
      * intros invitee Heq Hsome Hsame. apply N.eqb_eq in Heq. rewrite Heq.
        simpl negb. cbv iota. unfold bind.
        destruct (First_fault_free Users
                    (fun u => (User_ID u =? InviteRequest_UserID body)%N) s f1 Hf1)
          as (f2 & E2 & Hf2).
        rewrite E2. unfold userByID in Hsome.
        change (rows Users s) with (users s). rewrite Hsome.
        apply N.eqb_eq in Hsame. rewrite Hsame. split; reflexivity.
Qed.



(* ------------------------------------------------------------------ *)
(** ** Search: tags and order of the results *)

Section Ordering.

Context {A : Type} (key : A -> Z).

Lemma In_insert_on a l x : In x (insert_on key a l) <-> x = a \/ In x l.
Proof.
  induction l as [|b l IH]; simpl.
  - intuition.
  - destruct (key a <=? key b); simpl; [intuition|].
    rewrite IH. intuition.
Qed.

Lemma insert_on_sorted a l :
  StronglySorted (fun x y => key x <= key y) l ->
  StronglySorted (fun x y => key x <= key y) (insert_on key a l).
Proof.
  induction l as [|b l IH]; simpl; intros Hs.
  - constructor; constructor.
  - destruct (Z.leb_spec (key a) (key b)) as [Hle|Hgt].
    + constructor; [exact Hs|].
      inversion Hs as [|? ? _ Hall]; subst.
      constructor; [exact Hle|].
      apply Forall_forall. intros x Hx.
      rewrite Forall_forall in Hall. specialize (Hall x Hx).
      simpl in Hall. lia.
    + inversion Hs as [|? ? Hs' Hall]; subst.
      constructor; [now apply IH|].
      apply Forall_forall. intros x Hx. apply In_insert_on in Hx.
      destruct Hx as [->|Hx].
      * lia.
      * rewrite Forall_forall in Hall. now apply Hall.
Qed.

Lemma Order_sorted (q : Query A) s :
  StronglySorted (fun x y => key x <= key y) (Order key q s).
Proof.
  unfold Order. induction (q s) as [|a l IH]; simpl.
  - constructor.
  - now apply insert_on_sorted.
Qed.

Lemma In_Order (q : Query A) s x : In x (Order key q s) <-> In x (q s).
Proof.
  unfold Order. induction (q s) as [|a l IH]; simpl; [reflexivity|].
  rewrite In_insert_on, IH. intuition.
Qed.

End Ordering.

Lemma StronglySorted_map {A B} (f : A -> B) (R : A -> A -> Prop)
      (R' : B -> B -> Prop) l :
  (forall a b, R a b -> R' (f a) (f b)) ->
  StronglySorted R l -> StronglySorted R' (map f l).
Proof.
  intros Hf. induction 1 as [|a l Hs IH Hall]; simpl; constructor; auto.
  apply Forall_forall. intros y Hy. apply in_map_iff in Hy.
  destruct Hy as (x & <- & Hx). apply Hf.
  rewrite Forall_forall in Hall. now apply Hall.
Qed.

Lemma In_whereIf {A} (b : bool) (cond : A -> bool) (q : Query A) s x :
  In x (whereIf b cond q s) -> In x (q s).
Proof.
  unfold whereIf, Where. destruct b; [|auto].
  intros H. now apply filter_In in H.
Qed.

Lemma In_roleClause {A} role userID (event : A -> Event) restrict
      (q : Query A) s x :
  roleClause role userID event = Some restrict ->
  In x (restrict q s) -> In x (q s).
Proof.
  unfold roleClause. destruct (isEmpty role).
  { intros E; inversion E; subst. auto. }
  destruct (String.eqb role "organizer").
  { intros E; inversion E; subst. unfold Where. intros H.
    now apply filter_In in H. }
  destruct (String.eqb role "attendee"); [|discriminate].
  intros E; inversion E; subst. unfold Select, Where, Joins. intros H.
  apply in_map_iff in H. destruct H as ((a, ea) & <- & H).
  apply filter_In in H. destruct H as [H _].
  apply in_flat_map in H. destruct H as (a' & Ha' & H).
  apply in_map_iff in H. destruct H as (ea' & E' & _).
  inversion E'; subst. exact Ha'.
Qed.

Lemma PreloadTasks_result l s f l' s' f' :
  PreloadTasks (inr l) s f = (inr l', s', f') ->
  s' = s
  /\ l' = map (fun e => withTasks e
                          (filter (fun t => (Task_EventID t =? Event_ID e)%N)
                                  (tasks s))) l.
Proof.
  destruct l as [|e l].
  - intros E. inversion E; subst. split; reflexivity.
  - unfold PreloadTasks, exec.
    destruct (next_fault f) as [[msg|] f1]; [discriminate|].
    intros E. inversion E; subst. split; reflexivity.
Qed.

Lemma searchEvents_results type keyword kw role start end_ userID s f rs s' f' :
  searchEvents type keyword kw role start end_ userID s f = (inr rs, s', f') ->
  s' = s
  /\ Forall (fun r => result_type r = "event") rs
  /\ ascending rs
  /\ (type = "task" -> rs = []).
Proof.
  unfold searchEvents.
  destruct (String.eqb type "both" || String.eqb type "event") eqn:Ety.
  2:{ intros E. inversion E; subst. repeat split; constructor. }
  assert (type = "task" -> rs = []) as Htask.
  { intros ->. discriminate Ety. }
  destruct (roleClause role userID (fun e => e)) as [restrict|]; [|discriminate].
  unfold bind, Find, exec.
  destruct (next_fault f) as [[msg|] f1]; [discriminate|].
  match goal with |- context [Order Event_Date ?q s] =>
    pose proof (Order_sorted Event_Date q s) as Hsorted;
    generalize dependent (Order Event_Date q s) end.
  intros found Hsorted.
  destruct (PreloadTasks (inr found) s f1) as [[[err|loaded] s1] f2] eqn:Epre;
    [discriminate|].
  apply PreloadTasks_result in Epre. destruct Epre as [-> ->].
  intros E. inversion E; subst. clear E.
  split; [reflexivity|]. split; [|split; [|exact Htask]].
  - apply Forall_forall. intros r Hr. apply in_map_iff in Hr.
    destruct Hr as (e & <- & _). reflexivity.
  - unfold ascending.
    apply StronglySorted_map
      with (R := fun a b => Event_Date a <= Event_Date b); [auto|].
    apply StronglySorted_map
      with (R := fun a b => Event_Date a <= Event_Date b);
      [auto|exact Hsorted].
Qed.

Lemma attachEvents_store ts s f :
  store (attachEvents ts s f) = s.
Proof.
  revert f. induction ts as [|t ts IH]; intros f; [reflexivity|].
  simpl. unfold bind, First, exec, store in *.
  destruct (next_fault f) as [[msg|] f1].
  - specialize (IH f1). destruct (attachEvents ts s f1) as [[rest s1] f2].
    simpl in *. exact IH.
  - destruct (first_by_pk Events _) as [ev|];
      specialize (IH f1); destruct (attachEvents ts s f1) as [[rest s1] f2];
      simpl in *; exact IH.
Qed.

Lemma attachEvents_results s ps :
  NoDup (map Event_ID (events s)) ->
  (forall p, In p ps -> joined s p) ->
  forall f,
    let rs := response (attachEvents (map fst ps) s f) in
    Forall (fun r => exists p, In p ps /\ r = TaskResult (fst p) (snd p)) rs
    /\ (StronglySorted (fun p q => Event_Date (snd p) <= Event_Date (snd q)) ps ->
        ascending rs).
Proof.
  intros Hnd. induction ps as [|p ps IH]; intros Hj f.
  - simpl. split; constructor.
  - assert (forall q, In q ps -> joined s q) as Hj' by (intros q Hq; apply Hj; now right).
    specialize (IH Hj').
    simpl. unfold bind.
    destruct (First Events (fun e => (Event_ID e =? Task_EventID (fst p))%N) s f)
      as [[found s1] f1] eqn:Efirst.
    assert (s1 = s /\ (found = inr (snd p) \/ exists err, found = inl err))
      as [-> Hfound].
    { unfold First, exec in Efirst.
      destruct (next_fault f) as [[msg|] f0].
      - inversion Efirst; subst. split; [reflexivity|]. right. eauto.
      - destruct (Hj p (or_introl eq_refl)) as [Hin Hid].
        rewrite <- Hid in Efirst.
        change (rows Events s) with (events s) in Efirst.
        rewrite (event_lookup_unique s (snd p) Hnd Hin) in Efirst.
        inversion Efirst; subst. split; [reflexivity|]. now left. }
    specialize (IH f1). cbv zeta in IH.
    pose proof (attachEvents_store (map fst ps) s f1) as Hst.
    unfold response, store in *.
    destruct (attachEvents (map fst ps) s f1) as [[rest s2] f2].
    simpl in *. destruct IH as [Hall Hsorted].
    assert (Forall (fun r => exists q, (p = q \/ In q ps)
                                       /\ r = TaskResult (fst q) (snd q)) rest)
      as Hall'.
    { apply Forall_forall. intros r Hr. rewrite Forall_forall in Hall.
      destruct (Hall r Hr) as (q & Hq & ->). exists q. auto. }
    destruct Hfound as [->|[err ->]]; simpl.
    + split.
      * constructor; [exists p; auto | exact Hall'].
      * intros Hss. inversion Hss as [|? ? Hss' Hle]; subst.
        constructor; [now apply Hsorted|].
        apply Forall_forall. intros r Hr. rewrite Forall_forall in Hall.
        destruct (Hall r Hr) as (q & Hq & ->). simpl.
        rewrite Forall_forall in Hle. now apply Hle.
    + split; [exact Hall'|].
      intros Hss. inversion Hss; subst. now apply Hsorted.
Qed.

Lemma In_task_join s p :
  In p (Joins Events (fun t e => (Event_ID e =? Task_EventID t)%N) (Model Tasks) s) ->
  joined s p.
Proof.
  unfold Joins, Model. intros H. apply in_flat_map in H.
  destruct H as (t & _ & H). apply in_map_iff in H.
  destruct H as (e & <- & He). apply filter_In in He. destruct He as [Hin Hid].
  apply N.eqb_eq in Hid. split; assumption.
Qed.

Lemma searchTasks_results type keyword kw role start end_ userID s f rs s' f' :
  NoDup (map Event_ID (events s)) ->
  searchTasks type keyword kw role start end_ userID s f = (inr rs, s', f') ->
  s' = s
  /\ Forall (fun r => result_type r = "task") rs
  /\ ascending rs
  /\ (type = "event" -> rs = []).
Proof.
  intros Hnd. unfold searchTasks.
  destruct (String.eqb type "both" || String.eqb type "task") eqn:Ety.
  2:{ intros E. inversion E; subst. repeat split; constructor. }
  assert (type = "event" -> rs = []) as Hevent.
  { intros ->. discriminate Ety. }
  destruct (roleClause role userID snd) as [restrict|] eqn:Erole; [|discriminate].
  unfold bind, Find, exec.
  destruct (next_fault f) as [[msg|] f1]; [discriminate|].
  unfold Select.
  match goal with |- context [Order ?k ?q s] =>
    pose proof (Order_sorted k q s) as Hsorted;
    assert (forall p, In p (Order k q s) -> joined s p) as Hjoined;
    [| generalize dependent (Order k q s)] end.
  { intros p Hp. apply In_Order in Hp.
    apply (In_roleClause _ _ _ _ _ _ _ Erole) in Hp.
    repeat apply In_whereIf in Hp. now apply In_task_join. }
  intros ps Hsorted Hjoined.
  pose proof (attachEvents_results s ps Hnd Hjoined f1) as [Hall Hasc].
  pose proof (attachEvents_store (map fst ps) s f1) as Hst.
  unfold response, store in *.
  destruct (attachEvents (map fst ps) s f1) as [[results s2] f2].
  simpl in *. unfold ret. intros E. inversion E; subst. clear E.
  split; [reflexivity|]. split; [|split; [|exact Hevent]].
  - apply Forall_forall. intros r Hr. rewrite Forall_forall in Hall.
    destruct (Hall r Hr) as (p & _ & ->). reflexivity.
  - now apply Hasc.
Qed.

Lemma roleClause_valid {A} role userID (event : A -> Event) :
  role = "" \/ role = "organizer" \/ role = "attendee" ->
  exists restrict, roleClause role userID event = Some restrict.
Proof.
  unfold roleClause. intros [-> | [-> | ->]]; simpl; eexists; reflexivity.
Qed.

Lemma attachEvents_fault_free ts s f :
  fault_free f ->
  exists rs f', attachEvents ts s f = (rs, s, f') /\ fault_free f'.
Proof.
  revert f. induction ts as [|t ts IH]; intros f Hf.
  - exists [], f. split; [reflexivity | exact Hf].
  - simpl. unfold bind.
    destruct (First_fault_free Events
                (fun e => (Event_ID e =? Task_EventID t)%N) s f Hf)
      as (f1 & E & Hf1).
    rewrite E. clear E.
    destruct (IH f1 Hf1) as (rest & f2 & E & Hf2). rewrite E.
    destruct (first_by_pk Events _); do 2 eexists; split;
      try reflexivity; exact Hf2.
Qed.

Lemma searchEvents_fault_free type keyword kw role start end_ userID s f :
  role = "" \/ role = "organizer" \/ role = "attendee" ->
  fault_free f ->
  exists rs f',
    searchEvents type keyword kw role start end_ userID s f = (inr rs, s, f')
    /\ fault_free f'.
Proof.
  intros Hrole Hf. unfold searchEvents.
  destruct (String.eqb type "both" || String.eqb type "event").
  2:{ exists [], f. split; [reflexivity | exact Hf]. }
  destruct (roleClause_valid role userID (fun e : Event => e) Hrole)
    as [restrict ->].
  unfold bind, Find.
  match goal with |- context [exec ?q s f] =>
    destruct (exec_fault_free q s f Hf) as (f1 & E & Hf1); rewrite E; clear E
  end.
  cbn [fst snd].
  match goal with |- context [PreloadTasks (inr ?l) s f1] =>
    destruct l as [|e l'] end.
  - exists [], f1. split; [reflexivity | exact Hf1].
  - unfold PreloadTasks.
    match goal with |- context [exec ?q s f1] =>
      destruct (exec_fault_free q s f1 Hf1) as (f2 & E & Hf2); rewrite E; clear E
    end.
    do 2 eexists. split; [reflexivity | exact Hf2].
Qed.

Lemma searchTasks_fault_free type keyword kw role start end_ userID s f :
  role = "" \/ role = "organizer" \/ role = "attendee" ->
  fault_free f ->
  exists rs f',
    searchTasks type keyword kw role start end_ userID s f = (inr rs, s, f')
    /\ fault_free f'.
Proof.
  intros Hrole Hf. unfold searchTasks.
  destruct (String.eqb type "both" || String.eqb type "task").
  2:{ exists [], f. split; [reflexivity | exact Hf]. }
  destruct (roleClause_valid role userID (@snd Task Event) Hrole)
    as [restrict ->].
  unfold bind, Find.
  match goal with |- context [exec ?q s f] =>
    destruct (exec_fault_free q s f Hf) as (f1 & E & Hf1); rewrite E; clear E
  end.
  cbn [fst snd].
  match goal with |- context [attachEvents ?ts s f1] =>
    destruct (attachEvents_fault_free ts s f1 Hf1) as (rs & f2 & E & Hf2);
    rewrite E; clear E
  end.
  exists rs, f2. split; [reflexivity | exact Hf2].
Qed.

Lemma Search_returns_results (c : SearchContext) s f :
  wellFormedSearch c -> fault_free f ->
  exists rs,
    response (SearchHandler c s f)
    = {| Code := http.StatusOK; Payload := JResults rs |}
    /\ store (SearchHandler c s f) = s.
Proof.
  intros (Hu & Hstart & Hend & Hrole) Hf. unfold SearchHandler.
  destruct (getUserIDFromContext (Search_Context c)) as [userID|];
    [|contradiction].
  cbv zeta.
  assert (exists start,
             (if isEmpty (SearchRequest_StartDate (bindSearchRequest c))
              then Some time.zero
              else parseEitherDate (SearchRequest_StartDate (bindSearchRequest c)))
             = Some start) as [start ->].
  { destruct Hstart as [->|Hstart]; [now exists time.zero|].
    destruct (isEmpty _); [now exists time.zero|].
    destruct (parseEitherDate (SearchRequest_StartDate (bindSearchRequest c)))
      as [t|]; [now exists t | contradiction]. }
  assert (exists end_,
             (if isEmpty (SearchRequest_EndDate (bindSearchRequest c))
              then Some time.zero
              else parseEndDate (SearchRequest_EndDate (bindSearchRequest c)))
             = Some end_) as [end_ ->].
  { destruct Hend as [->|Hend]; [now exists time.zero|].
    destruct (isEmpty _); [now exists time.zero|].
    unfold parseEndDate.
    destruct (parseEitherDate (SearchRequest_EndDate (bindSearchRequest c)))
      as [t|]; [eexists; reflexivity | contradiction]. }
  unfold bind.
  match goal with |- context [searchEvents ?ty ?k ?kw ?r ?st ?en ?u s f] =>
    destruct (searchEvents_fault_free ty k kw r st en u s f Hrole Hf)
      as (evs & f1 & E & Hf1); rewrite E; clear E
  end.
  match goal with |- context [searchTasks ?ty ?k ?kw ?r ?st ?en ?u s f1] =>
    destruct (searchTasks_fault_free ty k kw r st en u s f1 Hrole Hf1)
      as (tks & f2 & E & _); rewrite E; clear E
  end.
  eexists. split; reflexivity.
Qed.

(** C9. The results of a search are the event-tagged results in ascending
    order of event date, followed by the task-tagged results in ascending
    order of the date of their parent event: no task-tagged result comes
    before an event-tagged one, whatever the dates.  With type event there
    are only event-tagged results, with type task only task-tagged ones,
    and with type both (the default) both parts are produced.  A search
    that passes the checks of the handler returns such a sequence when no
    statement fails.  (The primary key of [events] is unique.) *)
Theorem Search_results_events_then_tasks (c : SearchContext) s f :
  NoDup (map Event_ID (events s)) ->
  (wellFormedSearch c -> fault_free f ->
   exists rs,
     response (SearchHandler c s f)
     = {| Code := http.StatusOK; Payload := JResults rs |})
  /\ (forall rs,
         Payload (response (SearchHandler c s f)) = JResults rs ->
         exists eventResults taskResults,
           rs = (eventResults ++ taskResults)%list
           /\ Forall (fun r => result_type r = "event") eventResults
           /\ ascending eventResults
           /\ Forall (fun r => result_type r = "task") taskResults
           /\ ascending taskResults
           /\ (effectiveType (bindSearchRequest c) = "event" -> taskResults = [])
           /\ (effectiveType (bindSearchRequest c) = "task" -> eventResults = [])).
Proof.
  intros Hnd. split.
  { intros Hwf Hf. destruct (Search_returns_results c s f Hwf Hf) as (rs & E & _).
    now exists rs. }
  intros rs. unfold SearchHandler, response.
  destruct (getUserIDFromContext (Search_Context c)) as [userID|];
    [|discriminate].
  cbv zeta. fold (effectiveType (bindSearchRequest c)).
  destruct (if isEmpty (SearchRequest_StartDate (bindSearchRequest c))
            then Some time.zero else _) as [start|]; [|discriminate].
  destruct (if isEmpty (SearchRequest_EndDate (bindSearchRequest c))
            then Some time.zero else _) as [end_|]; [|discriminate].
  unfold bind.
  destruct (searchEvents _ _ _ _ _ _ _ s f) as [[[resp|eventResults] s1] f1] eqn:Eev.
  { unfold searchEvents in Eev.
    destruct (_ || _) in Eev; [|discriminate].
    destruct (roleClause _ _ _) in Eev; [|inversion Eev; subst; discriminate].
    unfold bind, Find, exec in Eev.
    destruct (next_fault f) as [[msg|] f0] in Eev.
    - simpl in Eev. inversion Eev; subst. discriminate.
    - destruct (PreloadTasks _ _ _) as [[[err|loaded] s2] f2] in Eev;
        inversion Eev; subst; discriminate. }
  apply searchEvents_results in Eev. destruct Eev as (-> & He1 & He2 & He3).
  destruct (searchTasks _ _ _ _ _ _ _ s f1) as [[[resp|taskResults] s2] f2] eqn:Etk.
  { unfold searchTasks in Etk.
    destruct (_ || _) in Etk; [|discriminate].
    destruct (roleClause _ _ _) in Etk; [|inversion Etk; subst; discriminate].
    unfold bind, Find, exec in Etk.
    destruct (next_fault f1) as [[msg|] f0] in Etk.
    - inversion Etk; subst. discriminate.
    - destruct (attachEvents _ _ _) as [[results s3] f3] in Etk.
      inversion Etk. }
  apply (searchTasks_results _ _ _ _ _ _ _ _ _ _ _ _ Hnd) in Etk.
  destruct Etk as (-> & Ht1 & Ht2 & Ht3).
  simpl. intros E. inversion E; subst. clear E.
  exists eventResults, taskResults. repeat split; auto.
Qed.

(* ------------------------------------------------------------------ *)
(** ** Consistency of the reachable stores *)

Lemma NoDup_map_snoc {A B} (k : A -> B) l a :
  NoDup (map k l) -> (forall x, In x l -> k x <> k a) -> NoDup (map k (l ++ [a])).
Proof.
  intros Hnd Hfresh. rewrite map_app. simpl.
  induction l as [|b l IH]; simpl.
  - constructor; [intros []|constructor].
  - inversion Hnd as [|? ? Hnotin Hnd']; subst. constructor.
    + intros H. apply in_app_or in H. destruct H as [H|[H|[]]].
      * contradiction.
      * apply (Hfresh b (or_introl eq_refl)). now symmetry.
    + apply IH; [exact Hnd'|]. intros x Hx. apply Hfresh. now right.
Qed.

Lemma NoDup_map_filter {A B} (k : A -> B) (cond : A -> bool) l :
  NoDup (map k l) -> NoDup (map k (filter cond l)).
Proof.
  induction l as [|b l IH]; simpl; intros Hnd; [constructor|].
  inversion Hnd as [|? ? Hnotin Hnd']; subst.
  destruct (cond b); simpl; [|now apply IH].
  constructor; [|now apply IH].
  intros H. apply Hnotin. apply in_map_iff in H. destruct H as (x & E & Hx).
  apply filter_In in Hx. apply in_map_iff. exists x. tauto.
Qed.

Lemma NoDup_map_inj {A B} (k : A -> B) l a b :
  NoDup (map k l) -> In a l -> In b l -> k a = k b -> a = b.
Proof.
  induction l as [|c l IH]; simpl; intros Hnd Ha Hb E; [destruct Ha|].
  inversion Hnd as [|? ? Hnotin Hnd']; subst.
  destruct Ha as [->|Ha], Hb as [->|Hb]; auto.
  - exfalso. apply Hnotin. rewrite E. now apply in_map.
  - exfalso. apply Hnotin. rewrite <- E. now apply in_map.
Qed.

Lemma map_key_updated {A B} (k : A -> B) (upd : A -> A) l :
  (forall x, In x l -> k (upd x) = k x) -> map k (map upd l) = map k l.
Proof.
  intros H. rewrite map_map. apply map_ext_in. exact H.
Qed.

Lemma initial_consistent s : initial s -> consistent s.
Proof.
  intros (He & Ht & Ha & H1 & H2 & H3).
  constructor; rewrite ?He, ?Ht, ?Ha; simpl;
    try constructor; try (intros ? []); lia.
Qed.

Lemma initial_organizers_recorded s : initial s -> organizers_recorded s.
Proof. intros (He & _) e Hin. rewrite He in Hin. destruct Hin. Qed.

Lemma eventStored_inserted_event s ev id :
  eventStored s id -> eventStored (inserted Events ev s) id.
Proof.
  intros (e & Hin & E). exists e. split; [|exact E].
  simpl. apply in_or_app. now left.
Qed.

Lemma consistent_inserted_event s ev :
  consistent s -> consistent (inserted Events ev s).
Proof.
  intros Hs. constructor; simpl.
  - apply NoDup_map_snoc; [apply (events_pk s Hs)|].
    intros x Hx. pose proof (events_below_seq s Hs x Hx). simpl. lia.
  - intros e He. apply in_app_or in He. destruct He as [He|[<-|[]]].
    + pose proof (events_below_seq s Hs e He). lia.
    + simpl. lia.
  - apply (attendees_pk s Hs).
  - apply (attendees_below_seq s Hs).
  - apply (attendees_seq_positive s Hs).
  - intros a Ha. apply eventStored_inserted_event.
    now apply (attendees_event s Hs).
  - apply (attendees_pair s Hs).
  - apply (attendees_status s Hs).
  - intros t Ht. apply eventStored_inserted_event.
    now apply (tasks_event s Hs).
Qed.

Lemma consistent_inserted_attendee s att :
  consistent s ->
  eventStored s (EventAttendee_EventID att) ->
  (forall a, In a (event_attendees s) -> attendancePair a <> attendancePair att) ->
  validStatus (EventAttendee_Status att) ->
  consistent (inserted EventAttendees att s).
Proof.
  intros Hs Hev Hfresh Hst. constructor; simpl.
  - apply (events_pk s Hs).
  - apply (events_below_seq s Hs).
  - apply NoDup_map_snoc; [apply (attendees_pk s Hs)|].
    intros x Hx. pose proof (attendees_below_seq s Hs x Hx). simpl. lia.
  - intros a Ha. apply in_app_or in Ha. destruct Ha as [Ha|[<-|[]]].
    + pose proof (attendees_below_seq s Hs a Ha). lia.
    + pose proof (attendees_seq_positive s Hs). simpl. lia.
  - pose proof (attendees_seq_positive s Hs). lia.
  - intros a Ha. apply in_app_or in Ha. destruct Ha as [Ha|[<-|[]]].
    + now apply (attendees_event s Hs).
    + exact Hev.
  - apply NoDup_map_snoc; [apply (attendees_pair s Hs)|].
    intros x Hx. exact (Hfresh x Hx).
  - intros a Ha. apply in_app_or in Ha. destruct Ha as [Ha|[<-|[]]].
    + now apply (attendees_status s Hs).
    + exact Hst.
  - apply (tasks_event s Hs).
Qed.

Lemma consistent_inserted_task s t :
  consistent s -> eventStored s (Task_EventID t) ->
  consistent (inserted Tasks t s).
Proof.
  intros Hs Hev. constructor; simpl; try apply Hs.
  intros x Hx. apply in_app_or in Hx. destruct Hx as [Hx|[<-|[]]].
  - now apply (tasks_event s Hs).
  - exact Hev.
Qed.

Lemma updated_row s att r :
  consistent s -> In att (event_attendees s) -> In r (event_attendees s) ->
  (EventAttendee_ID r =? EventAttendee_ID att)%N = true -> r = att.
Proof.
  intros Hs Hatt Hr E. apply N.eqb_eq in E.
  exact (NoDup_map_inj EventAttendee_ID _ r att (attendees_pk s Hs) Hr Hatt E).
Qed.

Lemma consistent_updated_status s att status :
  consistent s -> In att (event_attendees s) -> validStatus status ->
  consistent
    (set_rows EventAttendees
       (map (fun r => if (EventAttendee_ID r =? EventAttendee_ID att)%N
                      then withStatus att status else r)
            (event_attendees s)) s).
Proof.
  intros Hs Hatt Hst.
  assert (Hrow : forall x,
             In x (map (fun r => if (EventAttendee_ID r =? EventAttendee_ID att)%N
                                 then withStatus att status else r)
                       (event_attendees s)) ->
             exists r, In r (event_attendees s)
                       /\ EventAttendee_ID x = EventAttendee_ID r
                       /\ attendancePair x = attendancePair r
                       /\ (EventAttendee_Status x = EventAttendee_Status r
                           \/ EventAttendee_Status x = status)).
  { intros x Hx. apply in_map_iff in Hx. destruct Hx as (r & <- & Hr).
    exists r. split; [exact Hr|].
    destruct (EventAttendee_ID r =? EventAttendee_ID att)%N eqn:E.
    - rewrite (updated_row s att r Hs Hatt Hr E). simpl. auto.
    - auto. }
  constructor; simpl; try apply Hs.
  - rewrite map_key_updated; [apply (attendees_pk s Hs)|].
    intros r Hr. destruct (EventAttendee_ID r =? EventAttendee_ID att)%N eqn:E;
      [|reflexivity].
    apply N.eqb_eq in E. simpl. now symmetry.
  - intros x Hx. destruct (Hrow x Hx) as (r & Hr & -> & _).
    now apply (attendees_below_seq s Hs).
  - intros x Hx. destruct (Hrow x Hx) as (r & Hr & _ & E & _).
    injection E as E _. rewrite E. now apply (attendees_event s Hs).
  - rewrite map_key_updated; [apply (attendees_pair s Hs)|].
    intros r Hr. destruct (EventAttendee_ID r =? EventAttendee_ID att)%N eqn:E;
      [|reflexivity].
    now rewrite (updated_row s att r Hs Hatt Hr E).
  - intros x Hx. destruct (Hrow x Hx) as (r & Hr & _ & _ & [E|E]); rewrite E.
    + now apply (attendees_status s Hs).
    + exact Hst.
Qed.

Lemma consistent_cascade s id :
  consistent s ->
  consistent
    (set_rows Events
       (filter (fun e => negb (Event_ID e =? id)%N) (events s))
       (set_rows Tasks
          (filter (fun t => negb (Task_EventID t =? id)%N) (tasks s))
          (set_rows EventAttendees
             (filter (fun a => negb (EventAttendee_EventID a =? id)%N)
                     (event_attendees s)) s))).
Proof.
  intros Hs.
  assert (Hkept : forall k, k <> id -> eventStored s k ->
                            exists e, In e (filter (fun e => negb (Event_ID e =? id)%N)
                                                   (events s))
                                      /\ Event_ID e = k).
  { intros k Hk (e & He & E). exists e. split; [|exact E].
    apply filter_In. split; [exact He|]. apply negb_true_iff.
    apply N.eqb_neq. congruence. }
  constructor; simpl.
  - apply NoDup_map_filter, (events_pk s Hs).
  - intros e He. apply filter_In in He. now apply (events_below_seq s Hs).
  - apply NoDup_map_filter, (attendees_pk s Hs).
  - intros a Ha. apply filter_In in Ha. now apply (attendees_below_seq s Hs).
  - apply (attendees_seq_positive s Hs).
  - intros a Ha. apply filter_In in Ha. destruct Ha as [Ha Hne].
    apply negb_true_iff, N.eqb_neq in Hne.
    apply Hkept; [exact Hne|]. now apply (attendees_event s Hs).
  - apply NoDup_map_filter, (attendees_pair s Hs).
  - intros a Ha. apply filter_In in Ha. now apply (attendees_status s Hs).
  - intros t Ht. apply filter_In in Ht. destruct Ht as [Ht Hne].
    apply negb_true_iff, N.eqb_neq in Hne.
    apply Hkept; [exact Hne|]. now apply (tasks_event s Hs).
Qed.

Lemma effect_consistent s faulty s' :
  consistent s -> effect s faulty s' -> consistent s'.
Proof.
  intros Hs He. destruct He as [|ev H0|ev att H0 ->|att H0 Hev Hfresh Hst
                                |att status Hatt Hst|id|t H0 Hev].
  - exact Hs.
  - now apply consistent_inserted_event.
  - apply consistent_inserted_attendee.
    + now apply consistent_inserted_event.
    + exists (set_pk Events (events_id_seq s) ev). split; [|reflexivity].
      simpl. apply in_or_app. right. now left.
    + intros a Ha Epair. simpl in Ha.
      destruct (attendees_event s Hs a Ha) as (e & He & E).
      pose proof (events_below_seq s Hs e He).
      injection Epair as E1 _. simpl in E1. lia.
    + now left.
  - now apply consistent_inserted_attendee.
  - now apply consistent_updated_status.
  - now apply consistent_cascade.
  - now apply consistent_inserted_task.
Qed.

Lemma effect_organizers_recorded s s' :
  consistent s -> organizers_recorded s -> effect s false s' ->
  organizers_recorded s'.
Proof.
  intros Hs Hrec He. remember false as faulty eqn:Ef.
  destruct He as [|ev H0|ev att H0 ->|att H0 Hev Hfresh Hst
                  |att status Hatt Hst|id|t H0 Hev]; try discriminate.
  - exact Hrec.
  - intros e He. simpl in He. apply in_app_or in He.
    destruct He as [He|[<-|[]]].
    + destruct (Hrec e He) as (a & Ha & H). exists a. split; [|exact H].
      simpl. apply in_or_app. now left.
    + eexists. split; [simpl; apply in_or_app; right; left; reflexivity|].
      repeat split.
  - intros e He. simpl in He. destruct (Hrec e He) as (a & Ha & H).
    exists a. split; [|exact H]. simpl. apply in_or_app. now left.
  - intros e He. simpl in He. destruct (Hrec e He) as (a & Ha & H1 & H2 & H3).
    destruct (EventAttendee_ID a =? EventAttendee_ID att)%N eqn:E.
    + pose proof (updated_row s att a Hs Hatt Ha E) as ->.
      exists (withStatus att status). split; [|repeat split; assumption].
      simpl. apply in_map_iff. exists att. now rewrite N.eqb_refl.
    + exists a. split; [|repeat split; assumption].
      simpl. apply in_map_iff. exists a. now rewrite E.
  - intros e He. simpl in He. apply filter_In in He. destruct He as [He Hne].
    destruct (Hrec e He) as (a & Ha & H1 & H2 & H3).
    exists a. split; [|repeat split; assumption].
    simpl. apply filter_In. split; [exact Ha|]. now rewrite H1.
  - intros e He. simpl in He. destruct (Hrec e He) as (a & Ha & H).
    exists a. split; [exact Ha|exact H].
Qed.

(* ------------------------------------------------------------------ *)
(** ** The effect of each request *)

Lemma next_fault_Some f msg f' : next_fault f = (Some msg, f') -> ~ fault_free f.
Proof.
  destruct f as [|x f]; simpl; intros E H; inversion E; subst.
  discriminate (H (Some msg) (or_introl eq_refl)).
Qed.

Lemma next_fault_None f f' :
  next_fault f = (None, f') -> fault_free f -> fault_free f'.
Proof.
  destruct f as [|x f]; simpl; intros E H; inversion E; subst.
  - exact H.
  - intros y Hy. apply H. now right.
Qed.

Lemma First_cases {A} (T : Table A) cond s f :
  (exists msg f', First T cond s f = (inl (ErrDB msg), s, f') /\ ~ fault_free f)
  \/ (exists f',
         First T cond s f
         = (match first_by_pk T (filter cond (rows T s)) with
            | Some a => inr a
            | None => inl ErrRecordNotFound
            end, s, f')
         /\ (fault_free f -> fault_free f')).
Proof.
  unfold First, exec. destruct (next_fault f) as [[msg|] f'] eqn:E.
  - left. exists msg, f'. split; [reflexivity|]. now apply next_fault_Some in E.
  - right. exists f'. split; [|now apply next_fault_None].
    now destruct (first_by_pk T (filter cond (rows T s))).
Qed.

Lemma Create_cases {A} (T : Table A) (a : A) s f :
  pk T a = 0%N ->
  (exists msg f', Create T a s f = (inl (ErrDB msg), s, f') /\ ~ fault_free f)
  \/ (exists f',
         Create T a s f = (inr (set_pk T (next_id T s) a), inserted T a s, f')
         /\ (fault_free f -> fault_free f')).
Proof.
  intros Hpk. unfold Create, exec. destruct (next_fault f) as [[msg|] f'] eqn:E.
  - left. exists msg, f'. split; [reflexivity|]. now apply next_fault_Some in E.
  - right. exists f'. split; [|now apply next_fault_None].
    now rewrite Hpk.
Qed.

Lemma no_attendance_of_fresh_event s userID :
  consistent s ->
  first_by_pk EventAttendees
    (filter (fun a => (EventAttendee_EventID a =? events_id_seq s)%N
                      && (EventAttendee_UserID a =? userID)%N)
            (event_attendees s)) = None.
Proof.
  intros Hs. rewrite filter_none; [reflexivity|].
  intros a Ha. destruct (attendees_event s Hs a Ha) as (e & He & E).
  pose proof (events_below_seq s Hs e He).
  apply andb_false_iff. left. apply N.eqb_neq. lia.
Qed.

Lemma CreateEvent_effect c s f :
  consistent s ->
  exists faulty,
    effect s faulty (store (CreateEvent c s f))
    /\ (fault_free f -> faulty = false).
Proof.
  intros Hs. unfold CreateEvent.
  destruct (getUserIDFromContext c) as [userID|]; [|unchanged].
  destruct (ShouldBindJSON c validateCreateEventRequest) as [err|body];
    [unchanged|].
  destruct (parseEitherDate _) as [eventDate|]; [|unchanged].
  unfold bind at 1.
  match goal with |- context [Create Events ?ev s f] =>
    destruct (Create_cases Events ev s f eq_refl)
      as [(msg & f1 & E & Hf)|(f1 & E & Hf)]; rewrite E; clear E;
    [unchanged|]; set (event := ev) end.
  unfold bind, FirstOrCreate. unfold bind.
  match goal with |- context [First EventAttendees ?cond ?s1 f1] =>
    destruct (First_cases EventAttendees cond s1 f1)
      as [(msg & f2 & E & Hf')|(f2 & E & Hf')]; rewrite E; clear E end.
  { exists true. split; [now apply effect_event_only|].
    intros H. exfalso. auto. }
  change (rows EventAttendees (inserted Events event s)) with (event_attendees s).
  change (Event_ID (set_pk Events (next_id Events s) event)) with (events_id_seq s).
  rewrite (no_attendance_of_fresh_event s userID Hs).
  match goal with |- context [Create EventAttendees ?a ?s1 f2] =>
    destruct (Create_cases EventAttendees a s1 f2 eq_refl)
      as [(msg & f3 & E & Hf'')|(f3 & E & Hf'')]; rewrite E; clear E end.
  { exists true. split; [now apply effect_event_only|].
    intros H. exfalso. auto. }
  exists false. split; [|reflexivity].
  now apply effect_event.
Qed.

Lemma InviteUser_effect c s f :
  consistent s ->
  effect s false (store (InviteUser c s f)).
Proof.
  intros Hs. unfold InviteUser.
  destruct (getUserIDFromContext c) as [userID|]; [|unchanged].
  destruct (strconv.ParseUint (Param_id c)) as [eventID|]; [|unchanged].
  destruct (ShouldBindJSON c validateInviteRequest) as [err|body]; [unchanged|].
  unfold bind at 1.
  destruct (First_cases Events (fun e => (Event_ID e =? eventID)%N) s f)
    as [(msg & f1 & E & Hf)|(f1 & E & Hf)]; rewrite E; clear E; [unchanged|].
  destruct (first_by_pk Events _) as [ev|] eqn:Eev; [|unchanged].
  apply first_by_pk_matches in Eev. destruct Eev as [Hev Hid].
  apply N.eqb_eq in Hid.
  destruct (negb (Event_OrganizerID ev =? userID)%N); [unchanged|].
  unfold bind at 1.
  destruct (First_cases Users
              (fun u => (User_ID u =? InviteRequest_UserID body)%N) s f1)
    as [(msg & f2 & E & Hf')|(f2 & E & Hf')]; rewrite E; clear E; [unchanged|].
  destruct (first_by_pk Users _) as [invitee|]; [|unchanged].
  destruct (User_ID invitee =? Event_OrganizerID ev)%N; [unchanged|].
  unfold bind at 1.
  destruct (First_cases EventAttendees
              (fun a => (EventAttendee_EventID a =? eventID)%N
                        && (EventAttendee_UserID a =? User_ID invitee)%N) s f2)
    as [(msg & f3 & E & Hf'')|(f3 & E & Hf'')]; rewrite E; clear E; [unchanged|].
  destruct (first_by_pk EventAttendees _) as [existing|] eqn:Eex; [unchanged|].
  unfold bind.
  match goal with |- context [Create EventAttendees ?a s f3] =>
    destruct (Create_cases EventAttendees a s f3 eq_refl)
      as [(msg & f4 & E & Hf3)|(f4 & E & Hf3)]; rewrite E; clear E;
    [unchanged|] end.
    apply effect_attendee; simpl.
  - reflexivity.
  - exists ev. split; assumption.
  - intros a Ha Epair.
    pose proof (first_by_pk_none_matches EventAttendees _ _ Eex a Ha) as Hc.
    simpl in Hc. injection Epair as E1 E2.
    rewrite E1, E2, !N.eqb_refl in Hc. discriminate.
  - now left.
Qed.

Lemma acceptedStatus_valid n : acceptedStatus n = true -> validStatus n.
Proof. intros H. apply acceptedStatus_iff in H. right. exact H. Qed.

Lemma SetAttendance_effect c s f :
  consistent s ->
  effect s false (store (SetAttendance c s f)).
Proof.
  intros Hs. unfold SetAttendance.
  destruct (getUserIDFromContext c) as [userID|]; [|unchanged].
  destruct (strconv.ParseUint (Param_id c)) as [eventID|]; [|unchanged].
  destruct (ShouldBindJSON c validateAttendanceRequest) as [err|body];
    [unchanged|].
  cbv zeta.
  destruct (acceptedStatus (normalize (AttendanceRequest_Status body))) eqn:Hacc;
    [|unchanged].
  apply acceptedStatus_valid in Hacc. cbn [negb].
  unfold bind at 1.
  destruct (First_cases Events (fun e => (Event_ID e =? eventID)%N) s f)
    as [(msg & f1 & E & Hf)|(f1 & E & Hf)]; rewrite E; clear E; [unchanged|].
  destruct (first_by_pk Events _) as [ev|] eqn:Eev; [|unchanged].
  apply first_by_pk_matches in Eev. destruct Eev as [Hev Hid].
  apply N.eqb_eq in Hid.
  unfold bind at 1.
  destruct (First_cases EventAttendees
              (fun a => (EventAttendee_EventID a =? eventID)%N
                        && (EventAttendee_UserID a =? userID)%N) s f1)
    as [(msg & f2 & E & Hf')|(f2 & E & Hf')]; rewrite E; clear E; [unchanged|].
  destruct (first_by_pk EventAttendees _) as [att|] eqn:Eatt.
  - apply first_by_pk_matches in Eatt. destruct Eatt as [Hatt _].
    pose proof (attendees_below_seq s Hs att Hatt) as Hid_att.
    unfold bind, Save.
    replace (pk EventAttendees
               (withStatus att (normalize (AttendanceRequest_Status body)))
             =? 0)%N with false
      by (symmetry; apply N.eqb_neq; simpl; lia).
    unfold exec. destruct (next_fault f2) as [[msg|] f3]; [unchanged|].
    destruct (existsb _ (rows EventAttendees s)) eqn:Eex.
    +       exact (effect_status s att _ Hatt Hacc).
    + exfalso.
      assert (existsb (fun r => (pk EventAttendees r
                                 =? pk EventAttendees
                                      (withStatus att
                                         (normalize (AttendanceRequest_Status body))))%N)
                      (rows EventAttendees s) = true) as Htrue.
      { apply existsb_exists. exists att. split; [exact Hatt|].
        apply N.eqb_refl. }
      rewrite Htrue in Eex. discriminate.
  - unfold bind.
    match goal with |- context [Create EventAttendees ?a s f2] =>
      destruct (Create_cases EventAttendees a s f2 eq_refl)
        as [(msg & f3 & E & Hf2)|(f3 & E & Hf2)]; rewrite E; clear E;
      [unchanged|] end.
        apply effect_attendee; simpl.
    + reflexivity.
    + exists ev. split; assumption.
    + intros a Ha Epair.
      pose proof (first_by_pk_none_matches EventAttendees _ _ Eatt a Ha) as Hc.
      simpl in Hc. injection Epair as E1 E2.
      rewrite E1, E2, !N.eqb_refl in Hc. discriminate.
    + exact Hacc.
Qed.

Lemma CreateTask_effect c s f :
  consistent s ->
  effect s false (store (CreateTask c s f)).
Proof.
  intros Hs. unfold CreateTask.
  destruct (getUserIDFromContext c) as [userID|]; [|unchanged].
  destruct (strconv.ParseUint (Param_id c)) as [eventID|]; [|unchanged].
  unfold bind at 1.
  destruct (First_cases Events (fun e => (Event_ID e =? eventID)%N) s f)
    as [(msg & f1 & E & Hf)|(f1 & E & Hf)]; rewrite E; clear E; [unchanged|].
  destruct (first_by_pk Events _) as [ev|] eqn:Eev; [|unchanged].
  apply first_by_pk_matches in Eev. destruct Eev as [Hev Hid].
  apply N.eqb_eq in Hid.
  destruct (negb (Event_OrganizerID ev =? userID)%N); [unchanged|].
  destruct (ShouldBindJSON c validateCreateTaskRequest) as [err|body];
    [unchanged|].
  unfold bind.
  match goal with |- context [Create Tasks ?a s f1] =>
    destruct (Create_cases Tasks a s f1 eq_refl)
      as [(msg & f2 & E & Hf1)|(f2 & E & Hf1)]; rewrite E; clear E;
    [unchanged|] end.
    apply effect_task; [reflexivity|]. exists ev. split; assumption.
Qed.

Lemma DeleteEvent_effect c s f :
  effect s false (store (DeleteEvent c s f)).
Proof.
  unfold DeleteEvent.
  destruct (getUserIDFromContext c) as [userID|]; [|unchanged].
  destruct (isEmpty (Param_id c)); [unchanged|].
  destruct (strconv.Atoi (Param_id c)) as [id|]; [|unchanged].
  unfold bind, Transaction, Delete, First, exec, ret, store.
  destruct (next_fault f) as [[msg|] f1]; [unchanged|].
  destruct (first_by_pk Events _) as [ev|]; [|unchanged].
  destruct (negb (Event_OrganizerID ev =? userID)%N); [unchanged|].
  simpl.
  repeat next_statement; try unchanged.
    exact (effect_cascade s (Event_ID ev)).
Qed.

Lemma handle_effect r s f :
  consistent s ->
  exists faulty,
    effect s faulty (store (handle r s f))
    /\ (fault_free f -> faulty = false).
Proof.
  intros Hs. destruct r as [c|c|c|c|c]; simpl.
  - now apply CreateEvent_effect.
  - exists false. split; [apply DeleteEvent_effect | reflexivity].
  - exists false. split; [now apply InviteUser_effect | reflexivity].
  - exists false. split; [now apply SetAttendance_effect | reflexivity].
  - exists false. split; [now apply CreateTask_effect | reflexivity].
Qed.

Lemma consistent_withUsers us seq s :
  consistent s -> consistent (withUsers us seq s).
Proof. intros Hs. constructor; simpl; apply Hs. Qed.

Lemma reachable_consistent s : reachable s -> consistent s.
Proof.
  induction 1 as [s Hinit|s r f _ IH|s us seq _ IH].
  - now apply initial_consistent.
  - destruct (handle_effect r s f IH) as (faulty & He & _).
    exact (effect_consistent s faulty _ IH He).
  - now apply consistent_withUsers.
Qed.

Lemma reachable_without_fault_reachable s :
  reachable_without_fault s -> reachable s.
Proof.
  induction 1 as [s Hinit|s r f _ IH _|s us seq _ IH].
  - now apply reachable_initial.
  - now apply reachable_handle.
  - now apply reachable_users.
Qed.

Lemma reachable_without_fault_recorded s :
  reachable_without_fault s -> organizers_recorded s.
Proof.
  induction 1 as [s Hinit|s r f Hreach IH Hf|s us seq _ IH].
  - now apply initial_organizers_recorded.
  - pose proof (reachable_consistent s (reachable_without_fault_reachable s Hreach))
      as Hs.
    destruct (handle_effect r s f Hs) as (faulty & He & Hflag).
    rewrite (Hflag Hf) in He.
    exact (effect_organizers_recorded s _ Hs IH He).
  - exact IH.
Qed.

(* ------------------------------------------------------------------ *)
(** ** The scenarios are reachable *)

Lemma freshStore_initial : initial freshStore.
Proof. unfold initial. simpl. repeat split; lia. Qed.

Lemma offsiteStore_reachable : reachable_without_fault offsiteStore.
Proof.
  exact (reachable_without_fault_handle freshStore
           (PostEvents (authenticated 1 "" (offsiteRequest "2024-06-01"))) []
           (reachable_without_fault_initial freshStore freshStore_initial)
           fault_free_nil).
Qed.

Lemma venueStore_reachable : reachable_without_fault venueStore.
Proof.
  exact (reachable_without_fault_handle offsiteStore
           (PostEventsIdTasks
              (authenticated 1 "1"
                 {| CreateTaskRequest_Title := "Book venue";
                    CreateTaskRequest_Description := "" |})) []
           offsiteStore_reachable fault_free_nil).
Qed.

(* ------------------------------------------------------------------ *)
(** ** GetTasksByEvent *)

(** C10. GetTasksByEvent checks neither that the event exists nor who
    asks: its answer depends on nothing but the path parameter and the
    task table, and for a well-formed id that matches no stored event it
    answers 200 with an empty task list, never a NotFound error (a failing
    query gives 500). *)
Theorem GetTasksByEvent_unknown_event (c : Context unit) s f eventID :
  reachable s ->
  strconv.ParseUint (Param_id c) = Some eventID ->
  (forall e, In e (events s) -> Event_ID e <> eventID) ->
  store (GetTasksByEvent c s f) = s
  /\ (fault_free f ->
      response (GetTasksByEvent c s f)
      = {| Code := http.StatusOK; Payload := JTasks [] |})
  /\ (response (GetTasksByEvent c s f)
      = {| Code := http.StatusOK; Payload := JTasks [] |}
      \/ Code (response (GetTasksByEvent c s f)) = http.StatusInternalServerError)
  /\ (forall (c' : Context unit) s',
         Param_id c' = Param_id c -> tasks s' = tasks s ->
         response (GetTasksByEvent c' s' f) = response (GetTasksByEvent c s f)).
Proof.
  intros Hreach Hp Hnone.
  pose proof (reachable_consistent s Hreach) as Hs.
  assert (filter (fun t => (Task_EventID t =? eventID)%N) (tasks s) = []) as Hempty.
  { apply filter_none. intros t Ht.
    destruct (tasks_event s Hs t Ht) as (e & He & E).
    apply N.eqb_neq. rewrite <- E. now apply Hnone. }
  split; [|split; [|split]].
  - unfold GetTasksByEvent. rewrite Hp.
    unfold bind, Find, exec, store.
    destruct (next_fault f) as [[msg|] f1]; reflexivity.
  - intros Hf. unfold GetTasksByEvent. rewrite Hp.
    unfold bind, Find, exec, response.
    destruct (next_fault_free f Hf) as (f1 & -> & _).
    unfold Where, Model. simpl. now rewrite Hempty.
  - unfold GetTasksByEvent. rewrite Hp.
    unfold bind, Find, exec, response.
    destruct (next_fault f) as [[msg|] f1]; [now right|].
    left. unfold Where, Model. simpl. now rewrite Hempty.
  - intros c' s' Hc' Hs'. unfold GetTasksByEvent. rewrite Hc', Hp.
    unfold bind, Find, exec, response.
    destruct (next_fault f) as [[msg|] f1]; [reflexivity|].
    unfold Where, Model. simpl. now rewrite Hs'.
Qed.

Lemma GetTasksByEvent_unknown_event_witness :
  store (GetTasksByEvent (authenticated 2 "7" tt) venueStore []) = venueStore
  /\ response (GetTasksByEvent (authenticated 2 "7" tt) venueStore [])
     = {| Code := http.StatusOK; Payload := JTasks [] |}.
Proof.
  assert (forall e, In e (events venueStore) -> Event_ID e <> 7%N) as Hnone.
  { intros e [<-|[]]. discriminate. }
  destruct (GetTasksByEvent_unknown_event (authenticated 2 "7" tt) venueStore []
              7%N (reachable_without_fault_reachable _ venueStore_reachable)
              eq_refl Hnone) as (H1 & H2 & _).
  split; [exact H1 | exact (H2 fault_free_nil)].
Defined.

(* ------------------------------------------------------------------ *)
(** ** InviteUser is idempotent *)

Lemma attendance_unique s a :
  consistent s -> In a (event_attendees s) ->
  attendanceOf s (EventAttendee_EventID a) (EventAttendee_UserID a) = [a].
Proof.
  intros Hs Ha. unfold attendanceOf.
  pose proof (attendees_pair s Hs) as Hnd.
  induction (event_attendees s) as [|b l IH]; simpl; [destruct Ha|].
  simpl in Hnd. inversion Hnd as [|? ? Hnotin Hnd']; subst.
  destruct Ha as [->|Ha].
  - rewrite !N.eqb_refl. simpl. f_equal. apply filter_none.
    intros x Hx. apply andb_false_iff.
    destruct (N.eqb_spec (EventAttendee_EventID x) (EventAttendee_EventID a)) as [E1|];
      [|now left].
    destruct (N.eqb_spec (EventAttendee_UserID x) (EventAttendee_UserID a)) as [E2|];
      [|now right].
    exfalso. apply Hnotin. apply in_map_iff. exists x. split; [|exact Hx].
    unfold attendancePair. now rewrite E1, E2.
  - destruct ((EventAttendee_EventID b =? EventAttendee_EventID a)%N
              && (EventAttendee_UserID b =? EventAttendee_UserID a)%N) eqn:E.
    + exfalso. apply andb_true_iff in E. destruct E as [E1 E2].
      apply N.eqb_eq in E1, E2. apply Hnotin. apply in_map_iff.
      exists a. split; [|exact Ha]. unfold attendancePair. now rewrite E1, E2.
    + now apply IH.
Qed.

Lemma InviteUser_organizer_target_counterexample :
  ~ (forall s (c : Context InviteRequest) f ev invitee body a,
        reachable s ->
        In ev (events s) ->
        getUserIDFromContext c = Some (Event_OrganizerID ev) ->
        strconv.ParseUint (Param_id c) = Some (Event_ID ev) ->
        ShouldBindJSON c validateInviteRequest = inr body ->
        In invitee (users s) ->
        User_ID invitee = InviteRequest_UserID body ->
        In a (event_attendees s) ->
        EventAttendee_EventID a = Event_ID ev ->
        EventAttendee_UserID a = User_ID invitee ->
        fault_free f ->
        response (InviteUser c s f)
        = {| Code := http.StatusOK;
             Payload := JMessage "user already invited or participant" |}).
Proof.
  intros H.
  specialize (H offsiteStore
                (authenticated 1 "1" {| InviteRequest_UserID := 1 |}) []
                offsiteEvent
                {| User_ID := 1; User_Email := "u1@example.org";
                   User_Password := "secret1" |}
                {| InviteRequest_UserID := 1 |}
                {| EventAttendee_ID := 1; EventAttendee_EventID := 1;
                   EventAttendee_UserID := 1; EventAttendee_Role := "organizer";
                   EventAttendee_Status := "" |}
                (reachable_without_fault_reachable _ offsiteStore_reachable)
                (or_introl eq_refl) eq_refl eq_refl eq_refl
                (or_introl eq_refl) eq_refl (or_introl eq_refl) eq_refl eq_refl
                fault_free_nil).
  vm_compute in H. discriminate H.
Qed.

Lemma InviteUser_existing (c : Context InviteRequest) s f ev invitee body a :
  consistent s ->
  In ev (events s) ->
  getUserIDFromContext c = Some (Event_OrganizerID ev) ->
  strconv.ParseUint (Param_id c) = Some (Event_ID ev) ->
  ShouldBindJSON c validateInviteRequest = inr body ->
  In invitee (users s) ->
  User_ID invitee = InviteRequest_UserID body ->
  User_ID invitee <> Event_OrganizerID ev ->
  In a (event_attendees s) ->
  EventAttendee_EventID a = Event_ID ev ->
  EventAttendee_UserID a = User_ID invitee ->
  exists r f',
    InviteUser c s f = (r, s, f')
    /\ (fault_free f ->
        r = {| Code := http.StatusOK;
               Payload := JMessage "user already invited or participant" |}).
Proof.
  intros Hs Hev Hu Hp Hb Hinv Hinvid Hne Ha HaE HaU.
  unfold InviteUser. rewrite Hu, Hp, Hb. unfold bind at 1.
  destruct (First_cases Events (fun e => (Event_ID e =? Event_ID ev)%N) s f)
    as [(msg & f1 & E & Hf)|(f1 & E & Hf)]; rewrite E; clear E.
  { do 2 eexists. split; [reflexivity|]. intros H. contradiction. }
  change (rows Events s) with (events s).
  rewrite (event_lookup_unique s ev (events_pk s Hs) Hev).
  rewrite N.eqb_refl. cbn [negb]. unfold bind at 1.
  destruct (First_cases Users
              (fun u => (User_ID u =? InviteRequest_UserID body)%N) s f1)
    as [(msg & f2 & E & Hf')|(f2 & E & Hf')]; rewrite E; clear E.
  { do 2 eexists. split; [reflexivity|]. intros H. exfalso. auto. }
  destruct (first_by_pk Users _) as [found|] eqn:Efound.
  2:{ exfalso.
      pose proof (first_by_pk_none_matches Users _ _ Efound invitee Hinv) as Hc.
      simpl in Hc. rewrite Hinvid, N.eqb_refl in Hc. discriminate. }
  apply first_by_pk_matches in Efound. destruct Efound as [_ Hfid].
  apply N.eqb_eq in Hfid.
  replace (User_ID found =? Event_OrganizerID ev)%N with false
    by (symmetry; apply N.eqb_neq; congruence).
  unfold bind at 1.
  destruct (First_cases EventAttendees
              (fun x => (EventAttendee_EventID x =? Event_ID ev)%N
                        && (EventAttendee_UserID x =? User_ID found)%N) s f2)
    as [(msg & f3 & E & Hf'')|(f3 & E & Hf'')]; rewrite E; clear E.
  { do 2 eexists. split; [reflexivity|]. intros H. exfalso. auto. }
  destruct (first_by_pk EventAttendees _) as [existing|] eqn:Eex.
  - do 2 eexists. split; reflexivity.
  - exfalso.
    pose proof (first_by_pk_none_matches EventAttendees _ _ Eex a Ha) as Hc.
    simpl in Hc. rewrite HaE, HaU, Hfid, Hinvid, !N.eqb_refl in Hc. discriminate.
Qed.

(** C2 (amended). Invite is idempotent for a target other than the
    organizer: when the organizer of a stored event E invites an existing
    user U who is not E's organizer and an attendance row for (E, U)
    already exists, the call creates no row and changes none (the store is
    what it was, whatever statement fails), exactly one attendance row
    exists for (E, U) afterwards, and with no failing statement the answer
    is 200 "user already invited or participant". *)
Theorem InviteUser_idempotent (c : Context InviteRequest) s f ev invitee body a :
  reachable s ->
  In ev (events s) ->
  getUserIDFromContext c = Some (Event_OrganizerID ev) ->
  strconv.ParseUint (Param_id c) = Some (Event_ID ev) ->
  ShouldBindJSON c validateInviteRequest = inr body ->
  In invitee (users s) ->
  User_ID invitee = InviteRequest_UserID body ->
  User_ID invitee <> Event_OrganizerID ev ->
  In a (event_attendees s) ->
  EventAttendee_EventID a = Event_ID ev ->
  EventAttendee_UserID a = User_ID invitee ->
  store (InviteUser c s f) = s
  /\ attendanceOf (store (InviteUser c s f)) (Event_ID ev) (User_ID invitee) = [a]
  /\ (fault_free f ->
      response (InviteUser c s f)
      = {| Code := http.StatusOK;
           Payload := JMessage "user already invited or participant" |}).
Proof.
  intros Hreach Hev Hu Hp Hb Hinv Hinvid Hne Ha HaE HaU.
  pose proof (reachable_consistent s Hreach) as Hs.
  destruct (InviteUser_existing c s f ev invitee body a
              Hs Hev Hu Hp Hb Hinv Hinvid Hne Ha HaE HaU) as (r & f' & E & Hr).
  rewrite E. unfold store, response. simpl.
  split; [reflexivity|]. split; [|exact Hr].
  rewrite <- HaE, <- HaU. now apply attendance_unique.
Qed.

Lemma invitedStore_reachable : reachable_without_fault invitedStore.
Proof.
  exact (reachable_without_fault_handle offsiteStore
           (PostEventsIdInvite (authenticated 1 "1" {| InviteRequest_UserID := 2 |}))
           [] offsiteStore_reachable fault_free_nil).
Qed.

Lemma organizerGoingStore_reachable : reachable_without_fault organizerGoingStore.
Proof.
  exact (reachable_without_fault_handle offsiteStore
           (PostEventsIdRespond (authenticated 1 "1" (rsvp "going")))
           [] offsiteStore_reachable fault_free_nil).
Qed.

Lemma InviteUser_idempotent_witness :
  store (InviteUser (authenticated 1 "1" {| InviteRequest_UserID := 2 |})
           invitedStore []) = invitedStore
  /\ List.length (attendanceOf invitedStore 1 2) = 1%nat
  /\ response (InviteUser (authenticated 1 "1" {| InviteRequest_UserID := 2 |})
                 invitedStore [])
     = {| Code := http.StatusOK;
          Payload := JMessage "user already invited or participant" |}.
Proof.
  assert (User_ID {| User_ID := 2; User_Email := "u2@example.org";
                     User_Password := "secret2" |}
          <> Event_OrganizerID offsiteEvent) as Hne by discriminate.
  destruct (InviteUser_idempotent
              (authenticated 1 "1" {| InviteRequest_UserID := 2 |})
              invitedStore [] offsiteEvent
              {| User_ID := 2; User_Email := "u2@example.org";
                 User_Password := "secret2" |}
              {| InviteRequest_UserID := 2 |}
              {| EventAttendee_ID := 2; EventAttendee_EventID := 1;
                 EventAttendee_UserID := 2; EventAttendee_Role := "attendee";
                 EventAttendee_Status := "" |}
              (reachable_without_fault_reachable _ invitedStore_reachable)
              (or_introl eq_refl) eq_refl eq_refl eq_refl
              (or_intror (or_introl eq_refl)) eq_refl Hne
              (or_intror (or_introl eq_refl)) eq_refl eq_refl)
    as (H1 & H2 & H3).
  split; [exact H1|]. split; [|exact (H3 fault_free_nil)].
  rewrite H1 in H2. simpl Event_ID in H2. simpl User_ID in H2.
  now rewrite H2.
Defined.

Lemma Search_results_events_then_tasks_witness :
  response (SearchHandler (getSearch 2 (searchFor "" "" "" "" "")) venueStore [])
  = {| Code := http.StatusOK;
       Payload := JResults [EventResult (withTasks offsiteEvent [venueTask]);
                            TaskResult venueTask offsiteEvent] |}
  /\ exists eventResults taskResults,
      [EventResult (withTasks offsiteEvent [venueTask]);
       TaskResult venueTask offsiteEvent]
      = (eventResults ++ taskResults)%list
      /\ Forall (fun r => result_type r = "event") eventResults
      /\ ascending eventResults
      /\ Forall (fun r => result_type r = "task") taskResults
      /\ ascending taskResults.
Proof.
  assert (NoDup (map Event_ID (events venueStore))) as Hnd by concrete_NoDup.
  destruct (Search_results_events_then_tasks
              (getSearch 2 (searchFor "" "" "" "" "")) venueStore [] Hnd)
    as (_ & H).
  split; [reflexivity|].
  destruct (H [EventResult (withTasks offsiteEvent [venueTask]);
               TaskResult venueTask offsiteEvent] eq_refl)
    as (evs & tks & H1 & H2 & H3 & H4 & H5 & _).
  exists evs, tks. repeat split; assumption.
Defined.

(* ------------------------------------------------------------------ *)
(** ** The attendance row of the organizer *)

Lemma SetAttendance_events c s f :
  events (store (SetAttendance c s f)) = events s.
Proof.
  unfold SetAttendance.
  destruct (getUserIDFromContext c) as [userID|]; [|reflexivity].
  destruct (strconv.ParseUint (Param_id c)) as [eventID|]; [|reflexivity].
  destruct (ShouldBindJSON c validateAttendanceRequest) as [err|body];
    [reflexivity|].
  cbv zeta. destruct (negb _); [reflexivity|].
  unfold bind, First, Save, Create, exec, ret, store.
  repeat match goal with
         | |- context [next_fault ?f] => destruct (next_fault f) as [[?|] ?]
         | |- context [first_by_pk ?T ?l] => destruct (first_by_pk T l)
         | |- context [(?a =? ?b)%N] => destruct (a =? b)%N
         | |- context [existsb ?p ?l] => destruct (existsb p l)
         end; reflexivity.
Qed.





(* ------------------------------------------------------------------ *)
(** ** The order of the checks in the other handlers *)

Lemma DeleteEvent_check_order :
  (forall (c : Context unit) s f,
      getUserIDFromContext c = None ->
      DeleteEvent c s f = (jsonError http.StatusUnauthorized "unauthorized", s, f))
  /\ (forall (c : Context unit) s f userID,
         getUserIDFromContext c = Some userID ->
         Param_id c = "" ->
         DeleteEvent c s f
         = (jsonError http.StatusBadRequest "missing event id", s, f))
  /\ (forall (c : Context unit) s f userID,
         getUserIDFromContext c = Some userID ->
         Param_id c <> "" ->
         strconv.Atoi (Param_id c) = None ->
         DeleteEvent c s f
         = (jsonError http.StatusBadRequest "invalid event id", s, f))
  /\ (forall (c : Context unit) s f userID id,
         getUserIDFromContext c = Some userID ->
         strconv.Atoi (Param_id c) = Some id ->
         fault_free f ->
         (eventByInt s id = None ->
          response (DeleteEvent c s f)
          = jsonError http.StatusNotFound "event not found"
          /\ store (DeleteEvent c s f) = s)
         /\ (forall ev,
                eventByInt s id = Some ev ->
                Event_OrganizerID ev <> userID ->
                response (DeleteEvent c s f)
                = jsonError http.StatusForbidden
                    "only organizer can delete the event"
                /\ store (DeleteEvent c s f) = s)).
Proof.
  split; [|split; [|split]].
  - intros c s f Hu. unfold DeleteEvent. now rewrite Hu.
  - intros c s f userID Hu Hp. unfold DeleteEvent. now rewrite Hu, Hp.
  - intros c s f userID Hu Hne Hp. unfold DeleteEvent. rewrite Hu, Hp.
    apply String.eqb_neq in Hne. unfold isEmpty. now rewrite Hne.
  - intros c s f userID id Hu Hp Hf. unfold DeleteEvent.
    rewrite Hu, (Atoi_nonempty _ _ Hp), Hp. unfold bind.
    destruct (First_fault_free Events (fun e => Z.of_N (Event_ID e) =? id) s f Hf)
      as (f1 & E & _).
    rewrite E. clear E. unfold eventByInt.
    change (rows Events s) with (events s). split.
    + intros ->. split; reflexivity.
    + intros ev -> Hne. apply N.eqb_neq in Hne. rewrite Hne.
      split; reflexivity.
Qed.

Lemma SetAttendance_check_order :
  (forall (c : Context AttendanceRequest) s f,
      getUserIDFromContext c = None ->
      SetAttendance c s f = (jsonError http.StatusUnauthorized "unauthorized", s, f))
  /\ (forall (c : Context AttendanceRequest) s f userID,
         getUserIDFromContext c = Some userID ->
         strconv.ParseUint (Param_id c) = None ->
         SetAttendance c s f
         = (jsonError http.StatusBadRequest "invalid event id", s, f))
  /\ (forall (c : Context AttendanceRequest) s f userID eventID err,
         getUserIDFromContext c = Some userID ->
         strconv.ParseUint (Param_id c) = Some eventID ->
         ShouldBindJSON c validateAttendanceRequest = inl err ->
         SetAttendance c s f
         = (jsonError http.StatusBadRequest ("invalid body: " ++ err), s, f))
  /\ (forall (c : Context AttendanceRequest) s f userID eventID body,
         getUserIDFromContext c = Some userID ->
         strconv.ParseUint (Param_id c) = Some eventID ->
         ShouldBindJSON c validateAttendanceRequest = inr body ->
         (acceptedStatus (normalize (AttendanceRequest_Status body)) = false ->
          SetAttendance c s f
          = (jsonError http.StatusBadRequest
               "status must be one of: Going, Maybe, Not Going", s, f))
         /\ (acceptedStatus (normalize (AttendanceRequest_Status body)) = true ->
             fault_free f ->
             eventByID s eventID = None ->
             response (SetAttendance c s f)
             = jsonError http.StatusNotFound "event not found"
             /\ store (SetAttendance c s f) = s)).
Proof.
  split; [|split; [|split]].
  - intros c s f Hu. unfold SetAttendance. now rewrite Hu.
  - intros c s f userID Hu Hp. unfold SetAttendance. now rewrite Hu, Hp.
  - intros c s f userID eventID err Hu Hp Hb. unfold SetAttendance.
    now rewrite Hu, Hp, Hb.
  - intros c s f userID eventID body Hu Hp Hb. unfold SetAttendance.
    rewrite Hu, Hp, Hb. cbv zeta. split.
    + intros ->. reflexivity.
    + intros -> Hf Hnone. cbn [negb]. unfold bind.
      destruct (First_fault_free Events (fun e => (Event_ID e =? eventID)%N) s f Hf)
        as (f1 & E & _).
      rewrite E. clear E. unfold eventByID in Hnone.
      change (rows Events s) with (events s). rewrite Hnone.
      split; reflexivity.
Qed.

Lemma CreateTask_check_order :
  (forall (c : Context CreateTaskRequest) s f,
      getUserIDFromContext c = None ->
      CreateTask c s f = (jsonError http.StatusUnauthorized "unauthorized", s, f))
  /\ (forall (c : Context CreateTaskRequest) s f userID,
         getUserIDFromContext c = Some userID ->
         strconv.ParseUint (Param_id c) = None ->
         CreateTask c s f
         = (jsonError http.StatusBadRequest "invalid event id", s, f))
  /\ (forall (c : Context CreateTaskRequest) s f userID eventID,
         getUserIDFromContext c = Some userID ->
         strconv.ParseUint (Param_id c) = Some eventID ->
         fault_free f ->
         (eventByID s eventID = None ->
          response (CreateTask c s f)
          = jsonError http.StatusNotFound "event not found"
          /\ store (CreateTask c s f) = s)
         /\ (forall ev,
                eventByID s eventID = Some ev ->
                (Event_OrganizerID ev <> userID ->
                 response (CreateTask c s f)
                 = jsonError http.StatusForbidden "only organizer can create tasks"
                 /\ store (CreateTask c s f) = s)
                /\ (forall err,
                       Event_OrganizerID ev = userID ->
                       ShouldBindJSON c validateCreateTaskRequest = inl err ->
                       response (CreateTask c s f)
                       = jsonError http.StatusBadRequest ("invalid body: " ++ err)
                       /\ store (CreateTask c s f) = s))).
Proof.
  split; [|split].
  - intros c s f Hu. unfold CreateTask. now rewrite Hu.
  - intros c s f userID Hu Hp. unfold CreateTask. now rewrite Hu, Hp.
  - intros c s f userID eventID Hu Hp Hf. unfold CreateTask.
    rewrite Hu, Hp. unfold bind.
    destruct (First_fault_free Events (fun e => (Event_ID e =? eventID)%N) s f Hf)
      as (f1 & E & _).
    rewrite E. clear E. unfold eventByID.
    change (rows Events s) with (events s). split.
    + intros ->. split; reflexivity.
    + intros ev ->. split.
      * intros Hne. apply N.eqb_neq in Hne. rewrite Hne. split; reflexivity.
      * intros err Heq Hb. apply N.eqb_eq in Heq. rewrite Heq, Hb.
        split; reflexivity.
Qed.

Lemma GetEventAttendees_check_order :
  (forall (c : Context unit) s f,
      getUserIDFromContext c = None ->
      GetEventAttendees c s f
      = (jsonError http.StatusUnauthorized "unauthorized", s, f))
  /\ (forall (c : Context unit) s f userID,
         getUserIDFromContext c = Some userID ->
         strconv.ParseUint (Param_id c) = None ->
         GetEventAttendees c s f
         = (jsonError http.StatusBadRequest "invalid event id", s, f))
  /\ (forall (c : Context unit) s f userID eventID,
         getUserIDFromContext c = Some userID ->
         strconv.ParseUint (Param_id c) = Some eventID ->
         fault_free f ->
         (eventByID s eventID = None ->
          response (GetEventAttendees c s f)
          = jsonError http.StatusNotFound "event not found"
          /\ store (GetEventAttendees c s f) = s)
         /\ (forall ev,
                eventByID s eventID = Some ev ->
                Event_OrganizerID ev <> userID ->
                response (GetEventAttendees c s f)
                = jsonError http.StatusForbidden
                    "only organizer can view attendees"
                /\ store (GetEventAttendees c s f) = s)).
Proof.
  split; [|split].
  - intros c s f Hu. unfold GetEventAttendees. now rewrite Hu.
  - intros c s f userID Hu Hp. unfold GetEventAttendees. now rewrite Hu, Hp.
  - intros c s f userID eventID Hu Hp Hf. unfold GetEventAttendees.
    rewrite Hu, Hp. unfold bind.
    destruct (First_fault_free Events (fun e => (Event_ID e =? eventID)%N) s f Hf)
      as (f1 & E & _).
    rewrite E. clear E. unfold eventByID.
    change (rows Events s) with (events s). split.
    + intros ->. split; reflexivity.
    + intros ev -> Hne. apply N.eqb_neq in Hne. rewrite Hne.
      split; reflexivity.
Qed.

(** C8 (amended). Every handler that looks an event up by the id in its
    path surfaces its first failing check without changing the store, in an
    order fixed per handler (the lookups themselves not failing).
    InviteUser: caller known, id parses, body binds, event exists, caller is
    the organizer, target user exists, target is not the organizer; so a
    caller who is not the organizer and names a target user that does not
    exist is answered 403 Forbidden, not "invited user not found".
    DeleteEvent: caller known, id present, id parses, event exists, caller
    is the organizer.  SetAttendance: caller known, id parses, body binds,
    status is accepted, event exists; it has no authorization check.
    CreateTask: caller known, id parses, event exists, caller is the
    organizer, and only then the body binds.  GetEventAttendees: caller
    known, id parses, event exists, caller is the organizer.  Each failure is
    answered whatever the later checks would have said. *)
Theorem handlers_check_order :
  (forall (c : Context InviteRequest) s f userID eventID body ev,
      getUserIDFromContext c = Some userID ->
      strconv.ParseUint (Param_id c) = Some eventID ->
      ShouldBindJSON c validateInviteRequest = inr body ->
      fault_free f ->
      eventByID s eventID = Some ev ->
      Event_OrganizerID ev <> userID ->
      userByID s (InviteRequest_UserID body) = None ->
      response (InviteUser c s f)
      = jsonError http.StatusForbidden "only organizer can invite others"
      /\ store (InviteUser c s f) = s)
  /\ ((forall (c : Context InviteRequest) s f,
         getUserIDFromContext c = None ->
         InviteUser c s f = (jsonError http.StatusUnauthorized "unauthorized", s, f))
     /\ (forall (c : Context InviteRequest) s f userID,
            getUserIDFromContext c = Some userID ->
            strconv.ParseUint (Param_id c) = None ->
            InviteUser c s f
            = (jsonError http.StatusBadRequest "invalid event id", s, f))
     /\ (forall (c : Context InviteRequest) s f userID eventID err,
            getUserIDFromContext c = Some userID ->
            strconv.ParseUint (Param_id c) = Some eventID ->
            ShouldBindJSON c validateInviteRequest = inl err ->
            InviteUser c s f
            = (jsonError http.StatusBadRequest ("invalid body: " ++ err), s, f))
     /\ (forall (c : Context InviteRequest) s f userID eventID body,
            getUserIDFromContext c = Some userID ->
            strconv.ParseUint (Param_id c) = Some eventID ->
            ShouldBindJSON c validateInviteRequest = inr body ->
            fault_free f ->
            (eventByID s eventID = None ->
             response (InviteUser c s f)
             = jsonError http.StatusNotFound "event not found"
             /\ store (InviteUser c s f) = s)
            /\ (forall ev,
                   eventByID s eventID = Some ev ->
                   (Event_OrganizerID ev <> userID ->
                    response (InviteUser c s f)
                    = jsonError http.StatusForbidden "only organizer can invite others"
                    /\ store (InviteUser c s f) = s)
                   /\ (Event_OrganizerID ev = userID ->
                       userByID s (InviteRequest_UserID body) = None ->
                       response (InviteUser c s f)
                       = jsonError http.StatusNotFound "invited user not found"
                       /\ store (InviteUser c s f) = s)
                   /\ (forall invitee,
                          Event_OrganizerID ev = userID ->
                          userByID s (InviteRequest_UserID body) = Some invitee ->
                          User_ID invitee = Event_OrganizerID ev ->
                          response (InviteUser c s f)
                          = jsonError http.StatusBadRequest "user is already organizer"
                          /\ store (InviteUser c s f) = s))))
  /\ ((forall (c : Context unit) s f,
         getUserIDFromContext c = None ->
         DeleteEvent c s f = (jsonError http.StatusUnauthorized "unauthorized", s, f))
     /\ (forall (c : Context unit) s f userID,
            getUserIDFromContext c = Some userID ->
            Param_id c = "" ->
            DeleteEvent c s f
            = (jsonError http.StatusBadRequest "missing event id", s, f))
     /\ (forall (c : Context unit) s f userID,
            getUserIDFromContext c = Some userID ->
            Param_id c <> "" ->
            strconv.Atoi (Param_id c) = None ->
            DeleteEvent c s f
            = (jsonError http.StatusBadRequest "invalid event id", s, f))
     /\ (forall (c : Context unit) s f userID id,
            getUserIDFromContext c = Some userID ->
            strconv.Atoi (Param_id c) = Some id ->
            fault_free f ->
            (eventByInt s id = None ->
             response (DeleteEvent c s f)
             = jsonError http.StatusNotFound "event not found"
             /\ store (DeleteEvent c s f) = s)
            /\ (forall ev,
                   eventByInt s id = Some ev ->
                   Event_OrganizerID ev <> userID ->
                   response (DeleteEvent c s f)
                   = jsonError http.StatusForbidden
                       "only organizer can delete the event"
                   /\ store (DeleteEvent c s f) = s)))
  /\ ((forall (c : Context AttendanceRequest) s f,
         getUserIDFromContext c = None ->
         SetAttendance c s f = (jsonError http.StatusUnauthorized "unauthorized", s, f))
     /\ (forall (c : Context AttendanceRequest) s f userID,
            getUserIDFromContext c = Some userID ->
            strconv.ParseUint (Param_id c) = None ->
            SetAttendance c s f
            = (jsonError http.StatusBadRequest "invalid event id", s, f))
     /\ (forall (c : Context AttendanceRequest) s f userID eventID err,
            getUserIDFromContext c = Some userID ->
            strconv.ParseUint (Param_id c) = Some eventID ->
            ShouldBindJSON c validateAttendanceRequest = inl err ->
            SetAttendance c s f
            = (jsonError http.StatusBadRequest ("invalid body: " ++ err), s, f))
     /\ (forall (c : Context AttendanceRequest) s f userID eventID body,
            getUserIDFromContext c = Some userID ->
            strconv.ParseUint (Param_id c) = Some eventID ->
            ShouldBindJSON c validateAttendanceRequest = inr body ->
            (acceptedStatus (normalize (AttendanceRequest_Status body)) = false ->
             SetAttendance c s f
             = (jsonError http.StatusBadRequest
                  "status must be one of: Going, Maybe, Not Going", s, f))
            /\ (acceptedStatus (normalize (AttendanceRequest_Status body)) = true ->
                fault_free f ->
                eventByID s eventID = None ->
                response (SetAttendance c s f)
                = jsonError http.StatusNotFound "event not found"
                /\ store (SetAttendance c s f) = s)))
  /\ ((forall (c : Context CreateTaskRequest) s f,
         getUserIDFromContext c = None ->
         CreateTask c s f = (jsonError http.StatusUnauthorized "unauthorized", s, f))
     /\ (forall (c : Context CreateTaskRequest) s f userID,
            getUserIDFromContext c = Some userID ->
            strconv.ParseUint (Param_id c) = None ->
            CreateTask c s f
            = (jsonError http.StatusBadRequest "invalid event id", s, f))
     /\ (forall (c : Context CreateTaskRequest) s f userID eventID,
            getUserIDFromContext c = Some userID ->
            strconv.ParseUint (Param_id c) = Some eventID ->
            fault_free f ->
            (eventByID s eventID = None ->
             response (CreateTask c s f)
             = jsonError http.StatusNotFound "event not found"
             /\ store (CreateTask c s f) = s)
            /\ (forall ev,
                   eventByID s eventID = Some ev ->
                   (Event_OrganizerID ev <> userID ->
                    response (CreateTask c s f)
                    = jsonError http.StatusForbidden "only organizer can create tasks"
                    /\ store (CreateTask c s f) = s)
                   /\ (forall err,
                          Event_OrganizerID ev = userID ->
                          ShouldBindJSON c validateCreateTaskRequest = inl err ->
                          response (CreateTask c s f)
                          = jsonError http.StatusBadRequest ("invalid body: " ++ err)
                          /\ store (CreateTask c s f) = s))))
  /\ ((forall (c : Context unit) s f,
         getUserIDFromContext c = None ->
         GetEventAttendees c s f
         = (jsonError http.StatusUnauthorized "unauthorized", s, f))
     /\ (forall (c : Context unit) s f userID,
            getUserIDFromContext c = Some userID ->
            strconv.ParseUint (Param_id c) = None ->
            GetEventAttendees c s f
            = (jsonError http.StatusBadRequest "invalid event id", s, f))
     /\ (forall (c : Context unit) s f userID eventID,
            getUserIDFromContext c = Some userID ->
            strconv.ParseUint (Param_id c) = Some eventID ->
            fault_free f ->
            (eventByID s eventID = None ->
             response (GetEventAttendees c s f)
             = jsonError http.StatusNotFound "event not found"
             /\ store (GetEventAttendees c s f) = s)
            /\ (forall ev,
                   eventByID s eventID = Some ev ->
                   Event_OrganizerID ev <> userID ->
                   response (GetEventAttendees c s f)
                   = jsonError http.StatusForbidden
                       "only organizer can view attendees"
                   /\ store (GetEventAttendees c s f) = s))).
Proof.
  split.
  { destruct InviteUser_check_order as (_ & _ & _ & I4).
    intros c s f userID eventID body ev Hu Hp Hb Hf Hev Hne _.
    destruct (I4 c s f userID eventID body Hu Hp Hb Hf) as (_ & H).
    destruct (H ev Hev) as (Hforbidden & _). now apply Hforbidden. }
  split; [exact InviteUser_check_order|].
  split; [exact DeleteEvent_check_order|].
  split; [exact SetAttendance_check_order|].
  split; [exact CreateTask_check_order | exact GetEventAttendees_check_order].
Qed.

Lemma handlers_check_order_witness :
  response (InviteUser (authenticated 2 "1" {| InviteRequest_UserID := 99 |})
              offsiteStore [])
  = jsonError http.StatusForbidden "only organizer can invite others"
  /\ store (InviteUser (authenticated 2 "1" {| InviteRequest_UserID := 99 |})
              offsiteStore []) = offsiteStore
  /\ userByID offsiteStore 99 = None.
Proof.
  destruct handlers_check_order as (H & _).
  assert (Event_OrganizerID offsiteEvent <> 2%N) as Hne by discriminate.
  destruct (H (authenticated 2 "1" {| InviteRequest_UserID := 99 |})
              offsiteStore [] 2%N 1%N {| InviteRequest_UserID := 99 |}
              offsiteEvent eq_refl eq_refl eq_refl fault_free_nil eq_refl
              Hne eq_refl) as (H1 & H2).
  repeat split; assumption.
Defined.

Lemma SetAttendance_status_normalization_witness :
  exists att,
    response (SetAttendance (authenticated 2 "1" (rsvp " GOING ")) offsiteStore [])
    = {| Code := http.StatusOK; Payload := JAttendee att |}
    /\ EventAttendee_Status att = "Going"
    /\ EventAttendee_Role att = "attendee".
Proof.
  destruct SetAttendance_status_normalization
    as (_ & _ & _ & _ & _ & _ & _ & Haccepts & _).
  destruct (Haccepts (authenticated 2 "1" (rsvp " GOING ")) offsiteStore []
              2%N 1%N (rsvp " GOING ") offsiteEvent
              eq_refl eq_refl eq_refl eq_refl (or_introl eq_refl) eq_refl
              fault_free_nil) as (att & H1 & H2 & _).
  exists att. split; [exact H1|]. split; [exact H2|].
  vm_compute in H1. injection H1 as <-. reflexivity.
Defined.

(* ------------------------------------------------------------------ *)
(** ** Queries: basic facts *)

Lemma Find_fault_free {A} (q : Query A) s f :
  fault_free f ->
  exists f', Find q s f = (inr (q s), s, f') /\ fault_free f'.
Proof.
  intros Hf. unfold Find.
  destruct (exec_fault_free (fun s0 => (inr (q s0), s0)) s f Hf) as (f' & E & Hf').
  exists f'. split; assumption.
Qed.

Lemma Find_cases {A} (q : Query A) s f :
  (exists msg f', Find q s f = (inl (ErrDB msg), s, f') /\ ~ fault_free f)
  \/ (exists f', Find q s f = (inr (q s), s, f')
                 /\ (fault_free f -> fault_free f')).
Proof.
  unfold Find, exec. destruct (next_fault f) as [[msg|] f'] eqn:E.
  - left. exists msg, f'. split; [reflexivity|]. now apply next_fault_Some in E.
  - right. exists f'. split; [reflexivity|]. now apply next_fault_None.
Qed.

Lemma PreloadTasks_cases l s f :
  (exists msg f', PreloadTasks (inr l) s f = (inl (ErrDB msg), s, f')
                  /\ ~ fault_free f)
  \/ (exists f', PreloadTasks (inr l) s f = (inr (map (preloaded s) l), s, f')
                 /\ (fault_free f -> fault_free f')).
Proof.
  destruct l as [|e l].
  - right. exists f. split; [reflexivity | auto].
  - unfold PreloadTasks, exec. destruct (next_fault f) as [[msg|] f'] eqn:E.
    + left. exists msg, f'. split; [reflexivity|]. now apply next_fault_Some in E.
    + right. exists f'. split; [reflexivity|]. now apply next_fault_None.
Qed.

Lemma insert_on_Permutation {A} (key : A -> Z) a l :
  Permutation (insert_on key a l) (a :: l).
Proof.
  induction l as [|b l IH]; simpl; [reflexivity|].
  destruct (key a <=? key b); [reflexivity|].
  rewrite IH. apply perm_swap.
Qed.

Lemma Order_Permutation {A} (key : A -> Z) (q : Query A) s :
  Permutation (Order key q s) (q s).
Proof.
  unfold Order. induction (q s) as [|a l IH]; simpl; [reflexivity|].
  rewrite insert_on_Permutation. now constructor.
Qed.

Lemma byDate_preloaded s l : byDate l -> byDate (map (preloaded s) l).
Proof.
  unfold byDate. intros H.
  apply StronglySorted_map with (R := fun a b => Event_Date a <= Event_Date b);
    [auto | exact H].
Qed.

(* ------------------------------------------------------------------ *)
(** ** GetOrganizedEvents *)

(** X1. For an authenticated caller and no failing statement,
    GetOrganizedEvents answers 200 with the stored events the caller
    organizes, each exactly once and with its tasks attached, in ascending
    order of date; events of other organizers are never listed. *)
Theorem GetOrganizedEvents_own_events (c : Context unit) s f userID :
  getUserIDFromContext c = Some userID ->
  fault_free f ->
  exists l,
    response (GetOrganizedEvents c s f)
    = {| Code := http.StatusOK; Payload := JEvents (map (preloaded s) l) |}
    /\ Permutation l (filter (fun e => (Event_OrganizerID e =? userID)%N) (events s))
    /\ byDate l
    /\ (forall e, In e l <-> In e (events s) /\ Event_OrganizerID e = userID).
Proof.
  intros Hu Hf. unfold GetOrganizedEvents. rewrite Hu. unfold bind.
  match goal with |- context [Find (Order Event_Date ?q) s f] =>
    destruct (Find_fault_free (Order Event_Date q) s f Hf) as (f1 & E & Hf1);
    rewrite E; clear E;
    pose proof (Order_Permutation Event_Date q s) as Hperm;
    pose proof (Order_sorted Event_Date q s) as Hsorted;
    set (l := Order Event_Date q s) in *
  end.
  destruct (PreloadTasks_cases l s f1) as [(msg & f2 & E & Hbad)|(f2 & E & _)];
    [contradiction|].
  rewrite E. exists l. split; [reflexivity|]. split; [exact Hperm|].
  split; [exact Hsorted|].
  intros e. split.
  - intros He. apply (Permutation_in _ Hperm) in He.
    apply filter_In in He. destruct He as [He Ho]. apply N.eqb_eq in Ho. auto.
  - intros [He Ho]. apply (Permutation_in _ (Permutation_sym Hperm)).
    apply filter_In. split; [exact He|]. now apply N.eqb_eq.
Qed.

Lemma GetOrganizedEvents_own_events_witness :
  exists l,
    response (GetOrganizedEvents (authenticated 1 "" tt) venueStore [])
    = {| Code := http.StatusOK; Payload := JEvents (map (preloaded venueStore) l) |}
    /\ Permutation l (filter (fun e => (Event_OrganizerID e =? 1)%N)
                             (events venueStore))
    /\ byDate l
    /\ (forall e, In e l <-> In e (events venueStore) /\ Event_OrganizerID e = 1%N).
Proof.
  exact (GetOrganizedEvents_own_events (authenticated 1 "" tt) venueStore []
           1%N eq_refl fault_free_nil).
Defined.

(* ------------------------------------------------------------------ *)
(** ** GetInvitedEvents *)

Lemma invitedTo_ids s userID e :
  existsb (N.eqb (Event_ID e))
    (map EventAttendee_EventID
       (filter (fun a => (EventAttendee_UserID a =? userID)%N
                         && String.eqb (EventAttendee_Role a) "attendee")
               (event_attendees s)))
  = invitedTo s userID e.
Proof.
  unfold invitedTo. induction (event_attendees s) as [|a l IH]; [reflexivity|].
  simpl. destruct ((EventAttendee_UserID a =? userID)%N
                   && String.eqb (EventAttendee_Role a) "attendee") eqn:E; simpl.
  - rewrite IH. f_equal. rewrite N.eqb_sym.
    apply andb_true_iff in E. destruct E as [-> ->].
    now rewrite !andb_true_r.
  - rewrite IH.
    replace ((EventAttendee_EventID a =? Event_ID e)%N
             && (EventAttendee_UserID a =? userID)%N
             && String.eqb (EventAttendee_Role a) "attendee") with false;
      [reflexivity|].
    rewrite <- andb_assoc, E. now rewrite andb_false_r.
Qed.

Lemma invitedTo_iff s userID e :
  invitedTo s userID e = true
  <-> exists a, In a (event_attendees s)
                /\ EventAttendee_EventID a = Event_ID e
                /\ EventAttendee_UserID a = userID
                /\ EventAttendee_Role a = "attendee".
Proof.
  unfold invitedTo. rewrite existsb_exists. split.
  - intros (a & Ha & H). apply andb_true_iff in H. destruct H as [H H3].
    apply andb_true_iff in H. destruct H as [H1 H2].
    apply N.eqb_eq in H1, H2. apply String.eqb_eq in H3. eauto.
  - intros (a & Ha & H1 & H2 & H3). exists a. split; [exact Ha|].
    rewrite H1, H2, H3, !N.eqb_refl. reflexivity.
Qed.

Lemma GetInvitedEvents_result (c : Context unit) s f userID :
  getUserIDFromContext c = Some userID ->
  exists r f',
    GetInvitedEvents c s f = (r, s, f')
    /\ ((Code r = http.StatusInternalServerError /\ ~ fault_free f)
        \/ exists l,
            r = {| Code := http.StatusOK; Payload := JEvents (map (preloaded s) l) |}
            /\ Permutation l (filter (invitedTo s userID) (events s))
            /\ byDate l).
Proof.
  intros Hu. unfold GetInvitedEvents. rewrite Hu. unfold bind at 1.
  match goal with |- context [Find ?q s f] =>
    destruct (Find_cases q s f) as [(msg & f1 & E & Hbad)|(f1 & E & Hf1)];
    rewrite E; clear E
  end.
  { do 2 eexists. split; [reflexivity|]. left. split; [reflexivity | exact Hbad]. }
  assert (Hfilter :
            filter (invitedTo s userID) (events s)
            = filter (fun e => existsb (N.eqb (Event_ID e))
                                 (map EventAttendee_EventID
                                    (Where (fun a => (EventAttendee_UserID a =? userID)%N
                                                     && String.eqb (EventAttendee_Role a)
                                                                   "attendee")
                                           (Model EventAttendees) s)))
                     (events s)).
  { apply filter_ext. intros e. symmetry. apply invitedTo_ids. }
  destruct (Where _ (Model EventAttendees) s) as [|a attendances] eqn:Erows.
  { do 2 eexists. split; [reflexivity|]. right. exists []. split; [reflexivity|].
    split; [|constructor]. rewrite Hfilter. simpl.
    rewrite filter_none; [constructor | reflexivity]. }
  unfold bind.
  match goal with |- context [Find (Order Event_Date ?q) s f1] =>
    destruct (Find_cases (Order Event_Date q) s f1)
      as [(msg & f2 & E & Hbad)|(f2 & E & Hf2)];
    rewrite E; clear E;
    [| pose proof (Order_Permutation Event_Date q s) as Hperm;
       pose proof (Order_sorted Event_Date q s) as Hsorted;
       set (l := Order Event_Date q s) in * ]
  end.
  { do 2 eexists. split; [reflexivity|]. left. split; [reflexivity|]. auto. }
  destruct (PreloadTasks_cases l s f2) as [(msg & f3 & E & Hbad)|(f3 & E & _)];
    rewrite E; clear E.
  { do 2 eexists. split; [reflexivity|]. left. split; [reflexivity|]. auto. }
  do 2 eexists. split; [reflexivity|]. right. exists l.
  split; [reflexivity|]. split; [|exact Hsorted].
  rewrite Hfilter. exact Hperm.
Qed.

(** X2. For an authenticated caller and no failing statement,
    GetInvitedEvents answers 200 with the stored events for which the
    caller holds an attendance row of role attendee, each exactly once
    (however many such rows there are) and with its tasks attached, in
    ascending order of date. *)
Theorem GetInvitedEvents_attended_events (c : Context unit) s f userID :
  getUserIDFromContext c = Some userID ->
  fault_free f ->
  exists l,
    response (GetInvitedEvents c s f)
    = {| Code := http.StatusOK; Payload := JEvents (map (preloaded s) l) |}
    /\ store (GetInvitedEvents c s f) = s
    /\ Permutation l (filter (invitedTo s userID) (events s))
    /\ byDate l
    /\ (forall e,
           In e l
           <-> In e (events s)
               /\ exists a, In a (event_attendees s)
                            /\ EventAttendee_EventID a = Event_ID e
                            /\ EventAttendee_UserID a = userID
                            /\ EventAttendee_Role a = "attendee").
Proof.
  intros Hu Hf.
  destruct (GetInvitedEvents_result c s f userID Hu)
    as (r & f' & E & [[_ Hbad]|(l & -> & Hperm & Hsorted)]); [contradiction|].
  rewrite E. exists l. split; [reflexivity|]. split; [reflexivity|].
  split; [exact Hperm|]. split; [exact Hsorted|].
  intros e. rewrite <- invitedTo_iff. split.
  - intros He. apply (Permutation_in _ Hperm) in He. now apply filter_In in He.
  - intros He. apply (Permutation_in _ (Permutation_sym Hperm)).
    now apply filter_In.
Qed.

Lemma GetInvitedEvents_attended_events_witness :
  exists l,
    response (GetInvitedEvents (authenticated 2 "" tt) invitedStore [])
    = {| Code := http.StatusOK;
         Payload := JEvents (map (preloaded invitedStore) l) |}
    /\ store (GetInvitedEvents (authenticated 2 "" tt) invitedStore []) = invitedStore
    /\ Permutation l (filter (invitedTo invitedStore 2) (events invitedStore))
    /\ byDate l
    /\ (forall e,
           In e l
           <-> In e (events invitedStore)
               /\ exists a, In a (event_attendees invitedStore)
                            /\ EventAttendee_EventID a = Event_ID e
                            /\ EventAttendee_UserID a = 2%N
                            /\ EventAttendee_Role a = "attendee").
Proof.
  exact (GetInvitedEvents_attended_events (authenticated 2 "" tt) invitedStore []
           2%N eq_refl fault_free_nil).
Defined.

(** X3. When the caller holds no attendance row of role attendee,
    GetInvitedEvents answers 200 with an empty list after its first query
    alone: the query on events is not run, so nothing that would fail
    later in the schedule is reached. *)
Theorem GetInvitedEvents_no_attendance (c : Context unit) s f f' userID :
  getUserIDFromContext c = Some userID ->
  (forall a, In a (event_attendees s) ->
             EventAttendee_UserID a = userID ->
             EventAttendee_Role a <> "attendee") ->
  next_fault f = (None, f') ->
  GetInvitedEvents c s f
  = ({| Code := http.StatusOK; Payload := JEvents [] |}, s, f').
Proof.
  intros Hu Hnone Hnext. unfold GetInvitedEvents. rewrite Hu.
  unfold bind, Find, exec. rewrite Hnext.
  unfold Where, Model. cbn [rows EventAttendees].
  rewrite filter_none; [reflexivity|].
  intros a Ha. apply andb_false_iff.
  destruct (N.eqb_spec (EventAttendee_UserID a) userID) as [E|]; [|now left].
  right. apply String.eqb_neq. now apply Hnone.
Qed.

Lemma GetInvitedEvents_no_attendance_witness :
  GetInvitedEvents (authenticated 1 "" tt) invitedStore [None; Some "timeout"]
  = ({| Code := http.StatusOK; Payload := JEvents [] |}, invitedStore,
     [Some "timeout"]).
Proof.
  apply (GetInvitedEvents_no_attendance (authenticated 1 "" tt) invitedStore
           [None; Some "timeout"] [Some "timeout"] 1%N eq_refl);
    [|reflexivity].
  intros a [<-|[<-|[]]]; simpl; intros H; discriminate.
Defined.



(* ------------------------------------------------------------------ *)
(** ** GetEventAttendees *)

Lemma organizer_test ev userID :
  Event_OrganizerID ev = userID -> negb (Event_OrganizerID ev =? userID)%N = false.
Proof. intros ->. now rewrite N.eqb_refl. Qed.

Lemma not_organizer_test ev userID :
  Event_OrganizerID ev <> userID -> negb (Event_OrganizerID ev =? userID)%N = true.
Proof. intros H. apply N.eqb_neq in H. now rewrite H. Qed.

(** X5. Only the organizer of an event sees its attendees: for an
    authenticated caller, a well-formed id and no failing statement,
    GetEventAttendees answers 404 when no event has the id, 403 when the
    caller is not the organizer (an attendee of the event included), and
    otherwise 200 with exactly the attendance rows of that event; in a
    store reachable without failure these include the organizer's own
    row.  The store is never changed. *)
Theorem GetEventAttendees_organizer_only (c : Context unit) s f userID eventID :
  getUserIDFromContext c = Some userID ->
  strconv.ParseUint (Param_id c) = Some eventID ->
  fault_free f ->
  store (GetEventAttendees c s f) = s
  /\ (eventByID s eventID = None ->
      response (GetEventAttendees c s f)
      = jsonError http.StatusNotFound "event not found")
  /\ (forall ev,
         eventByID s eventID = Some ev ->
         (Event_OrganizerID ev <> userID ->
          response (GetEventAttendees c s f)
          = jsonError http.StatusForbidden "only organizer can view attendees")
         /\ (Event_OrganizerID ev = userID ->
             exists l,
               response (GetEventAttendees c s f)
               = {| Code := http.StatusOK; Payload := JAttendees l |}
               /\ (forall a, In a l <-> In a (event_attendees s)
                                        /\ EventAttendee_EventID a = eventID)
               /\ (reachable_without_fault s ->
                   exists a, In a l /\ EventAttendee_UserID a = userID
                             /\ EventAttendee_Role a = "organizer"))).
Proof.
  intros Hu Hp Hf. unfold GetEventAttendees. rewrite Hu, Hp. unfold bind.
  destruct (First_fault_free Events (fun e => (Event_ID e =? eventID)%N) s f Hf)
    as (f1 & E & Hf1).
  rewrite E. clear E. unfold eventByID.
  change (rows Events s) with (events s).
  destruct (first_by_pk Events _) as [ev|] eqn:Eev.
  2:{ split; [reflexivity|]. split; [reflexivity|]. discriminate. }
  destruct (N.eqb_spec (Event_OrganizerID ev) userID) as [Horg|Hnot]; cbn [negb].
  - match goal with |- context [Find ?q s f1] =>
      destruct (Find_fault_free q s f1 Hf1) as (f2 & E & _); rewrite E; clear E
    end.
    split; [reflexivity|]. split; [discriminate|].
    intros ev' Hev'. inversion Hev'; subst ev'. split; [contradiction|].
    intros _. eexists. split; [reflexivity|]. split.
    + intros a. unfold Where, Model. cbn [rows EventAttendees].
      rewrite filter_In, N.eqb_eq. reflexivity.
    + intros Hreach.
      apply first_by_pk_matches in Eev. destruct Eev as [Hin Hid].
      apply N.eqb_eq in Hid.
      destruct (reachable_without_fault_recorded s Hreach ev Hin)
        as (a & Ha & H1 & H2 & H3).
      exists a. split; [|split; [congruence | exact H3]].
      unfold Where, Model. cbn [rows EventAttendees].
      apply filter_In. split; [exact Ha|]. apply N.eqb_eq. congruence.
  - split; [reflexivity|]. split; [discriminate|].
    intros ev' Hev'. inversion Hev'; subst ev'. split; [reflexivity|].
    contradiction.
Qed.

Lemma GetEventAttendees_organizer_only_witness :
  response (GetEventAttendees (authenticated 2 "1" tt) invitedStore [])
  = jsonError http.StatusForbidden "only organizer can view attendees"
  /\ exists l,
      response (GetEventAttendees (authenticated 1 "1" tt) invitedStore [])
      = {| Code := http.StatusOK; Payload := JAttendees l |}
      /\ List.length l = 2%nat.
Proof.
  destruct (GetEventAttendees_organizer_only (authenticated 2 "1" tt)
              invitedStore [] 2%N 1%N eq_refl eq_refl fault_free_nil)
    as (_ & _ & H).
  destruct (H offsiteEvent eq_refl) as [Hforbidden _].
  split; [apply Hforbidden; discriminate|].
  eexists. split; reflexivity.
Defined.

(** X6. After an RSVP the organizer sees it: when a user's SetAttendance
    on a stored event is accepted, the attendee list the organizer then
    gets for that event holds a row of that user with the normalized
    status. *)
Theorem RSVP_visible_to_organizer
        (c : Context AttendanceRequest) (c' : Context unit) s f f'
        userID eventID body ev :
  NoDup (map Event_ID (events s)) ->
  In ev (events s) -> Event_ID ev = eventID ->
  getUserIDFromContext c = Some userID ->
  strconv.ParseUint (Param_id c) = Some eventID ->
  Body c = inr body ->
  acceptedStatus (normalize (AttendanceRequest_Status body)) = true ->
  fault_free f ->
  getUserIDFromContext c' = Some (Event_OrganizerID ev) ->
  strconv.ParseUint (Param_id c') = Some eventID ->
  fault_free f' ->
  exists l a,
    response (GetEventAttendees c' (store (SetAttendance c s f)) f')
    = {| Code := http.StatusOK; Payload := JAttendees l |}
    /\ In a l
    /\ EventAttendee_UserID a = userID
    /\ EventAttendee_Status a = normalize (AttendanceRequest_Status body).
Proof.
  intros Hnd Hev Hid Hu Hp Hb Hacc Hf Hu' Hp' Hf'.
  destruct (SetAttendance_accepts c s f userID eventID body ev
              Hu Hp Hb Hacc Hev Hid Hf) as (att & _ & Hst & HattE & HattU & Hatt).
  set (s' := store (SetAttendance c s f)) in *.
  assert (events s' = events s) as Hevents by apply SetAttendance_events.
  assert (eventByID s' eventID = Some ev) as Hlookup.
  { unfold eventByID. rewrite Hevents, <- Hid.
    now apply event_lookup_unique. }
  unfold GetEventAttendees. rewrite Hu', Hp'. unfold bind.
  destruct (First_fault_free Events (fun e => (Event_ID e =? eventID)%N) s' f' Hf')
    as (f1 & E & Hf1).
  rewrite E. clear E. unfold eventByID in Hlookup.
  change (rows Events s') with (events s'). rewrite Hlookup.
  rewrite N.eqb_refl. cbn [negb].
  match goal with |- context [Find ?q s' f1] =>
    destruct (Find_fault_free q s' f1 Hf1) as (f2 & E & _); rewrite E; clear E
  end.
  eexists. exists att. split; [reflexivity|]. split; [|split; assumption].
  unfold Where, Model. cbn [rows EventAttendees].
  apply filter_In. split; [exact Hatt|]. now apply N.eqb_eq.
Qed.

Lemma RSVP_visible_to_organizer_witness :
  exists l a,
    response (GetEventAttendees (authenticated 1 "1" tt)
                (store (SetAttendance (authenticated 2 "1" (rsvp "maybe"))
                          offsiteStore [])) [])
    = {| Code := http.StatusOK; Payload := JAttendees l |}
    /\ In a l
    /\ EventAttendee_UserID a = 2%N
    /\ EventAttendee_Status a = normalize "maybe".
Proof.
  assert (NoDup (map Event_ID (events offsiteStore))) as Hnd by concrete_NoDup.
  exact (RSVP_visible_to_organizer (authenticated 2 "1" (rsvp "maybe"))
           (authenticated 1 "1" tt) offsiteStore [] [] 2%N 1%N (rsvp "maybe")
           offsiteEvent Hnd (or_introl eq_refl) eq_refl eq_refl eq_refl eq_refl
           eq_refl fault_free_nil eq_refl eq_refl fault_free_nil).
Defined.

(* ------------------------------------------------------------------ *)
(** ** What the handlers never do *)

Lemma PreloadTasks_store found s f : store (PreloadTasks found s f) = s.
Proof.
  destruct found as [err|[|e l]]; try reflexivity.
  unfold PreloadTasks, exec, store. now destruct (next_fault f) as [[msg|] f'].
Qed.

Lemma Find_store {A} (q : Query A) s f : store (Find q s f) = s.
Proof.
  unfold Find, exec, store. now destruct (next_fault f) as [[msg|] f'].
Qed.

Lemma First_store {A} (T : Table A) cond s f : store (First T cond s f) = s.
Proof.
  unfold First, exec, store. destruct (next_fault f) as [[msg|] f']; [reflexivity|].
  now destruct (first_by_pk T _).
Qed.

Lemma searchEvents_store type keyword kw role start end_ userID s f :
  store (searchEvents type keyword kw role start end_ userID s f) = s.
Proof.
  unfold searchEvents. destruct (_ || _); [|reflexivity].
  destruct (roleClause _ _ _) as [restrict|]; [|reflexivity].
  unfold bind.
  match goal with |- context [Find ?q s f] =>
    pose proof (Find_store q s f) as H1;
    destruct (Find q s f) as [[found s1] f1] end.
  unfold store in H1. simpl in H1. subst s1.
  pose proof (PreloadTasks_store found s f1) as H2.
  destruct (PreloadTasks found s f1) as [[[err|loaded] s2] f2];
    unfold store in *; simpl in *; exact H2.
Qed.

Lemma searchTasks_store type keyword kw role start end_ userID s f :
  store (searchTasks type keyword kw role start end_ userID s f) = s.
Proof.
  unfold searchTasks. destruct (_ || _); [|reflexivity].
  destruct (roleClause _ _ _) as [restrict|]; [|reflexivity].
  unfold bind.
  match goal with |- context [Find ?q s f] =>
    pose proof (Find_store q s f) as H1;
    destruct (Find q s f) as [[[err|found] s1] f1] end;
    unfold store in H1; simpl in H1; subst s1; [reflexivity|].
  pose proof (attachEvents_store found s f1) as H2.
  destruct (attachEvents found s f1) as [[results s2] f2].
  unfold store in *; simpl in *; exact H2.
Qed.

Lemma SearchHandler_store c s f : store (SearchHandler c s f) = s.
Proof.
  unfold SearchHandler.
  destruct (getUserIDFromContext (Search_Context c)) as [userID|]; [|reflexivity].
  cbv zeta.
  destruct (if isEmpty (SearchRequest_StartDate (bindSearchRequest c))
            then Some time.zero else _) as [start|]; [|reflexivity].
  destruct (if isEmpty (SearchRequest_EndDate (bindSearchRequest c))
            then Some time.zero else _) as [end_|]; [|reflexivity].
  unfold bind.
  match goal with |- context [searchEvents ?a ?b ?k ?r ?st ?en ?u s f] =>
    pose proof (searchEvents_store a b k r st en u s f) as H1;
    destruct (searchEvents a b k r st en u s f) as [[[resp|evs] s1] f1] end;
    unfold store in H1; simpl in H1; subst s1; [reflexivity|].
  match goal with |- context [searchTasks ?a ?b ?k ?r ?st ?en ?u s f1] =>
    pose proof (searchTasks_store a b k r st en u s f1) as H2;
    destruct (searchTasks a b k r st en u s f1) as [[[resp|tks] s2] f2] end;
    unfold store in *; simpl in *; exact H2.
Qed.

(** X7. The five reading handlers (organized events, invited events,
    attendees of an event, tasks of an event, search) never change the
    store, whatever the request and whichever statements fail. *)
Theorem reading_handlers_keep_store :
  (forall c s f, store (GetOrganizedEvents c s f) = s)
  /\ (forall c s f, store (GetInvitedEvents c s f) = s)
  /\ (forall c s f, store (GetEventAttendees c s f) = s)
  /\ (forall c s f, store (GetTasksByEvent c s f) = s)
  /\ (forall c s f, store (SearchHandler c s f) = s).
Proof.
  split; [|split; [|split; [|split]]].
  - intros c s f. unfold GetOrganizedEvents.
    destruct (getUserIDFromContext c) as [userID|]; [|reflexivity].
    unfold bind.
    match goal with |- context [Find ?q s f] =>
      pose proof (Find_store q s f) as H1;
      destruct (Find q s f) as [[found s1] f1] end.
    unfold store in H1. simpl in H1. subst s1.
    pose proof (PreloadTasks_store found s f1) as H2.
    destruct (PreloadTasks found s f1) as [[[err|loaded] s2] f2];
      unfold store in *; simpl in *; exact H2.
  - intros c s f. unfold GetInvitedEvents.
    destruct (getUserIDFromContext c) as [userID|]; [|reflexivity].
    unfold bind at 1.
    match goal with |- context [Find ?q s f] =>
      pose proof (Find_store q s f) as H1;
      destruct (Find q s f) as [[[err|[|a l]] s1] f1] end;
      unfold store in H1; simpl in H1; subst s1; try reflexivity.
    unfold bind.
    match goal with |- context [Find ?q s f1] =>
      pose proof (Find_store q s f1) as H1;
      destruct (Find q s f1) as [[found s1] f2] end.
    unfold store in H1. simpl in H1. subst s1.
    pose proof (PreloadTasks_store found s f2) as H2.
    destruct (PreloadTasks found s f2) as [[[err|loaded] s2] f3];
      unfold store in *; simpl in *; exact H2.
  - intros c s f. unfold GetEventAttendees.
    destruct (getUserIDFromContext c) as [userID|]; [|reflexivity].
    destruct (strconv.ParseUint (Param_id c)) as [eventID|]; [|reflexivity].
    unfold bind at 1.
    pose proof (First_store Events (fun e => (Event_ID e =? eventID)%N) s f) as H1.
    destruct (First Events _ s f) as [[[[|msg]|ev] s1] f1];
      unfold store in H1; simpl in H1; subst s1; try reflexivity.
    destruct (negb _); [reflexivity|]. unfold bind.
    match goal with |- context [Find ?q s f1] =>
      pose proof (Find_store q s f1) as H1;
      destruct (Find q s f1) as [[[err|found] s1] f2] end;
      unfold store in *; simpl in *; exact H1.
  - intros c s f. unfold GetTasksByEvent.
    destruct (strconv.ParseUint (Param_id c)) as [eventID|]; [|reflexivity].
    unfold bind.
    match goal with |- context [Find ?q s f] =>
      pose proof (Find_store q s f) as H1;
      destruct (Find q s f) as [[[err|found] s1] f1] end;
      unfold store in *; simpl in *; exact H1.
  - exact SearchHandler_store.
Qed.

(** X8. Every handler that reads the caller's identity answers 401
    "unauthorized" when the context holds none, before it parses anything
    or runs any statement: the store and the schedule are untouched. *)
Theorem unauthenticated_rejected :
  (forall (c : Context CreateEventRequest) s f,
      getUserIDFromContext c = None ->
      CreateEvent c s f = (jsonError http.StatusUnauthorized "unauthorized", s, f))
  /\ (forall (c : Context unit) s f,
         getUserIDFromContext c = None ->
         GetOrganizedEvents c s f
         = (jsonError http.StatusUnauthorized "unauthorized", s, f))
  /\ (forall (c : Context unit) s f,
         getUserIDFromContext c = None ->
         GetInvitedEvents c s f
         = (jsonError http.StatusUnauthorized "unauthorized", s, f))
  /\ (forall (c : Context unit) s f,
         getUserIDFromContext c = None ->
         DeleteEvent c s f
         = (jsonError http.StatusUnauthorized "unauthorized", s, f))
  /\ (forall (c : Context InviteRequest) s f,
         getUserIDFromContext c = None ->
         InviteUser c s f
         = (jsonError http.StatusUnauthorized "unauthorized", s, f))
  /\ (forall (c : Context AttendanceRequest) s f,
         getUserIDFromContext c = None ->
         SetAttendance c s f
         = (jsonError http.StatusUnauthorized "unauthorized", s, f))
  /\ (forall (c : Context unit) s f,
         getUserIDFromContext c = None ->
         GetEventAttendees c s f
         = (jsonError http.StatusUnauthorized "unauthorized", s, f))
  /\ (forall (c : Context CreateTaskRequest) s f,
         getUserIDFromContext c = None ->
         CreateTask c s f
         = (jsonError http.StatusUnauthorized "unauthorized", s, f))
  /\ (forall (c : SearchContext) s f,
         getUserIDFromContext (Search_Context c) = None ->
         SearchHandler c s f
         = (jsonError http.StatusUnauthorized "unauthorized", s, f)).
Proof.
  repeat match goal with |- _ /\ _ => split end; intros c s f H.
  - unfold CreateEvent. now rewrite H.
  - unfold GetOrganizedEvents. now rewrite H.
  - unfold GetInvitedEvents. now rewrite H.
  - unfold DeleteEvent. now rewrite H.
  - unfold InviteUser. now rewrite H.
  - unfold SetAttendance. now rewrite H.
  - unfold GetEventAttendees. now rewrite H.
  - unfold CreateTask. now rewrite H.
  - unfold SearchHandler. now rewrite H.
Qed.

(* ------------------------------------------------------------------ *)
(** ** CreateEvent: what a successful call writes *)

Lemma parseEitherDate_nonempty date t :
  parseEitherDate date = Some t -> isEmpty date = false.
Proof. destruct date; [discriminate | reflexivity]. Qed.

Lemma isEmpty_false s : s <> "" -> isEmpty s = false.
Proof. intros H. now apply String.eqb_neq. Qed.

Lemma CreateEvent_new (c : Context CreateEventRequest) s f userID body date :
  consistent s ->
  getUserIDFromContext c = Some userID ->
  Body c = inr body ->
  CreateEventRequest_Title body <> "" ->
  parseEitherDate (CreateEventRequest_Date body) = Some date ->
  fault_free f ->
  exists f',
  CreateEvent c s f
  = ({| Code := http.StatusCreated;
        Payload :=
          JEvent {| Event_ID := events_id_seq s;
                    Event_Title :=
                      strings.TrimSpace (CreateEventRequest_Title body);
                    Event_Description := CreateEventRequest_Description body;
                    Event_Location := CreateEventRequest_Location body;
                    Event_Date := date;
                    Event_OrganizerID := userID;
                    Event_Tasks := [] |} |},
     inserted EventAttendees
       {| EventAttendee_ID := 0;
          EventAttendee_EventID := events_id_seq s;
          EventAttendee_UserID := userID;
          EventAttendee_Role := "organizer";
          EventAttendee_Status := "" |}
       (inserted Events
          {| Event_ID := 0;
             Event_Title :=
               strings.TrimSpace (CreateEventRequest_Title body);
             Event_Description := CreateEventRequest_Description body;
             Event_Location := CreateEventRequest_Location body;
             Event_Date := date;
             Event_OrganizerID := userID;
             Event_Tasks := [] |} s), f').
Proof.
  intros Hs Hu Hb Htitle Hdate Hf.
  unfold CreateEvent. rewrite Hu.
  unfold ShouldBindJSON. rewrite Hb.
  unfold validateCreateEventRequest, required. simpl filter.
  rewrite (isEmpty_false _ Htitle), (parseEitherDate_nonempty _ _ Hdate).
  cbn [snd filter]. rewrite Hdate. unfold bind at 1.
  match goal with |- context [Create Events ?ev s f] =>
    destruct (Create_fault_free Events ev s f Hf eq_refl) as (f1 & E & Hf1);
    rewrite E; clear E; set (event := ev) in *
  end.
  unfold bind, FirstOrCreate. unfold bind.
  match goal with |- context [First EventAttendees ?cond ?s1 f1] =>
    destruct (First_fault_free EventAttendees cond s1 f1 Hf1) as (f2 & E & Hf2);
    rewrite E; clear E
  end.
  change (rows EventAttendees (inserted Events event s)) with (event_attendees s).
  change (Event_ID (set_pk Events (next_id Events s) event)) with (events_id_seq s).
  rewrite (no_attendance_of_fresh_event s userID Hs).
  match goal with |- context [Create EventAttendees ?a ?s1 f2] =>
    destruct (Create_fault_free EventAttendees a s1 f2 Hf2 eq_refl)
      as (f3 & E & _); rewrite E; clear E
  end.
  exists f3. reflexivity.
Qed.

(** X9. In a reachable store, a CreateEvent call by an authenticated
    caller with a non-empty title and a date in one of the two accepted
    forms, with no failing statement, answers 201 with the new event: its
    id is the next value of the sequence, its title is the trimmed title,
    its organizer is the caller.  The store gains exactly that event and
    one attendance row for it: the caller's, with role "organizer" and empty
    status; tasks and users are untouched. *)
Theorem CreateEvent_success (c : Context CreateEventRequest) s f userID body date :
  reachable s ->
  getUserIDFromContext c = Some userID ->
  Body c = inr body ->
  CreateEventRequest_Title body <> "" ->
  parseEitherDate (CreateEventRequest_Date body) = Some date ->
  fault_free f ->
  let ev := {| Event_ID := events_id_seq s;
               Event_Title := strings.TrimSpace (CreateEventRequest_Title body);
               Event_Description := CreateEventRequest_Description body;
               Event_Location := CreateEventRequest_Location body;
               Event_Date := date;
               Event_OrganizerID := userID;
               Event_Tasks := [] |} in
  let org := {| EventAttendee_ID := event_attendees_id_seq s;
                EventAttendee_EventID := events_id_seq s;
                EventAttendee_UserID := userID;
                EventAttendee_Role := "organizer";
                EventAttendee_Status := "" |} in
  let out := CreateEvent c s f in
  response out = {| Code := http.StatusCreated; Payload := JEvent ev |}
  /\ events (store out) = (events s ++ [ev])%list
  /\ event_attendees (store out) = (event_attendees s ++ [org])%list
  /\ tasks (store out) = tasks s
  /\ users (store out) = users s
  /\ events_id_seq (store out) = (events_id_seq s + 1)%N.
Proof.
  intros Hreach Hu Hb Htitle Hdate Hf.
  pose proof (reachable_consistent s Hreach) as Hs.
  cbv zeta.
  destruct (CreateEvent_new c s f userID body date Hs Hu Hb Htitle Hdate Hf)
    as [f' E].
  rewrite E. repeat split.
Qed.

Lemma CreateEvent_success_witness :
  response (CreateEvent (authenticated 2 "" (offsiteRequest "2024-07-01T09:30:00+02:00"))
              offsiteStore [])
  = {| Code := http.StatusCreated;
       Payload := JEvent {| Event_ID := 2; Event_Title := "Offsite";
                            Event_Description := ""; Event_Location := "";
                            Event_Date := 63855415800000000000;
                            Event_OrganizerID := 2; Event_Tasks := [] |} |}
  /\ List.length
       (events (store (CreateEvent
                         (authenticated 2 ""
                            (offsiteRequest "2024-07-01T09:30:00+02:00"))
                         offsiteStore []))) = 2%nat.
Proof.
  assert (CreateEventRequest_Title (offsiteRequest "2024-07-01T09:30:00+02:00") <> "")
    as Htitle by discriminate.
  destruct (CreateEvent_success
              (authenticated 2 "" (offsiteRequest "2024-07-01T09:30:00+02:00"))
              offsiteStore [] 2%N (offsiteRequest "2024-07-01T09:30:00+02:00")
              63855415800000000000
              (reachable_without_fault_reachable _ offsiteStore_reachable)
              eq_refl eq_refl Htitle eq_refl fault_free_nil)
    as (H1 & H2 & _).
  split; [exact H1|]. rewrite H2. reflexivity.
Defined.

(** X10. CreateEvent writes nothing for a request it rejects: an
    undecodable body, an empty title or an empty date answer 400 "invalid
    request: ...", a date in neither accepted form answers 400 "invalid date
    format (use RFC3339 or YYYY-MM-DD)"; no statement is run. *)
Theorem CreateEvent_rejects_invalid (c : Context CreateEventRequest) s f userID :
  getUserIDFromContext c = Some userID ->
  (forall err,
      Body c = inl err ->
      CreateEvent c s f
      = (jsonError http.StatusBadRequest ("invalid request: " ++ err), s, f))
  /\ (forall body,
         Body c = inr body ->
         CreateEventRequest_Title body = "" \/ CreateEventRequest_Date body = "" ->
         exists err,
           CreateEvent c s f
           = (jsonError http.StatusBadRequest ("invalid request: " ++ err), s, f))
  /\ (forall body,
         Body c = inr body ->
         CreateEventRequest_Title body <> "" ->
         CreateEventRequest_Date body <> "" ->
         parseEitherDate (CreateEventRequest_Date body) = None ->
         CreateEvent c s f
         = (jsonError http.StatusBadRequest
              "invalid date format (use RFC3339 or YYYY-MM-DD)", s, f)).
Proof.
  intros Hu. unfold CreateEvent. rewrite Hu. unfold ShouldBindJSON.
  split; [|split].
  - intros err ->. reflexivity.
  - intros body -> Hempty.
    unfold validateCreateEventRequest, required. simpl filter.
    destruct (isEmpty (CreateEventRequest_Title body)) eqn:E1,
             (isEmpty (CreateEventRequest_Date body)) eqn:E2;
      try (eexists; reflexivity).
    exfalso. apply String.eqb_neq in E1, E2. tauto.
  - intros body -> Htitle Hdate Hparse.
    unfold validateCreateEventRequest, required. simpl filter.
    rewrite (isEmpty_false _ Htitle), (isEmpty_false _ Hdate).
    cbn [snd filter]. now rewrite Hparse.
Qed.

Lemma CreateEvent_rejects_invalid_witness :
  CreateEvent (authenticated 1 "" (offsiteRequest "01/06/2024")) offsiteStore []
  = (jsonError http.StatusBadRequest
       "invalid date format (use RFC3339 or YYYY-MM-DD)", offsiteStore, []).
Proof.
  destruct (CreateEvent_rejects_invalid
              (authenticated 1 "" (offsiteRequest "01/06/2024")) offsiteStore []
              1%N eq_refl) as (_ & _ & H).
  apply (H (offsiteRequest "01/06/2024") eq_refl); [discriminate | discriminate |].
  reflexivity.
Defined.

(* ------------------------------------------------------------------ *)
(** ** DeleteEvent: a signed id *)

(** X11. DeleteEvent parses its id with strconv.Atoi, which takes a
    sign: a negative id is well-formed, matches no event, and is answered
    404 "event not found" (500 if the lookup fails); nothing is deleted. *)
Theorem DeleteEvent_negative_id (c : Context unit) s f userID id :
  getUserIDFromContext c = Some userID ->
  strconv.Atoi (Param_id c) = Some id ->
  id < 0 ->
  store (DeleteEvent c s f) = s
  /\ (fault_free f ->
      response (DeleteEvent c s f)
      = jsonError http.StatusNotFound "event not found").
Proof.
  intros Hu Hp Hneg. unfold DeleteEvent.
  rewrite Hu, (Atoi_nonempty _ _ Hp), Hp.
  assert (first_by_pk Events
            (filter (fun e => Z.of_N (Event_ID e) =? id) (events s)) = None)
    as Hnone.
  { rewrite filter_none; [reflexivity|].
    intros e _. apply Z.eqb_neq. lia. }
  unfold bind, First, exec, store, response.
  change (rows Events s) with (events s). rewrite Hnone.
  split.
  - destruct (next_fault f) as [[msg|] f1]; reflexivity.
  - intros Hf. destruct (next_fault_free f Hf) as (f1 & -> & _). reflexivity.
Qed.

Lemma DeleteEvent_negative_id_witness :
  store (DeleteEvent (authenticated 1 "-1" tt) venueStore []) = venueStore
  /\ response (DeleteEvent (authenticated 1 "-1" tt) venueStore [])
     = jsonError http.StatusNotFound "event not found".
Proof.
  assert (-1 < 0) as Hneg by lia.
  destruct (DeleteEvent_negative_id (authenticated 1 "-1" tt) venueStore []
              1%N (-1) eq_refl eq_refl Hneg) as (H1 & H2).
  split; [exact H1 | exact (H2 fault_free_nil)].
Defined.

(* ------------------------------------------------------------------ *)
(** ** InviteUser: the first invitation, and the second *)

Lemma InviteUser_new (c : Context InviteRequest) s f ev invitee body :
  consistent s ->
  In ev (events s) ->
  getUserIDFromContext c = Some (Event_OrganizerID ev) ->
  strconv.ParseUint (Param_id c) = Some (Event_ID ev) ->
  ShouldBindJSON c validateInviteRequest = inr body ->
  In invitee (users s) ->
  User_ID invitee = InviteRequest_UserID body ->
  User_ID invitee <> Event_OrganizerID ev ->
  attendanceOf s (Event_ID ev) (User_ID invitee) = [] ->
  fault_free f ->
  exists f',
    InviteUser c s f
    = ({| Code := http.StatusOK; Payload := JMessage "user invited" |},
       inserted EventAttendees
         {| EventAttendee_ID := 0;
            EventAttendee_EventID := Event_ID ev;
            EventAttendee_UserID := User_ID invitee;
            EventAttendee_Role := "attendee";
            EventAttendee_Status := "" |} s, f').
Proof.
  intros Hs Hev Hu Hp Hb Hinv Hinvid Hne Hnone Hf.
  unfold InviteUser. rewrite Hu, Hp, Hb. unfold bind at 1.
  destruct (First_fault_free Events (fun e => (Event_ID e =? Event_ID ev)%N) s f Hf)
    as (f1 & E & Hf1); rewrite E; clear E.
  change (rows Events s) with (events s).
  rewrite (event_lookup_unique s ev (events_pk s Hs) Hev).
  rewrite N.eqb_refl. cbn [negb]. unfold bind at 1.
  destruct (First_fault_free Users
              (fun u => (User_ID u =? InviteRequest_UserID body)%N) s f1 Hf1)
    as (f2 & E & Hf2); rewrite E; clear E.
  destruct (first_by_pk Users _) as [found|] eqn:Efound.
  2:{ exfalso.
      pose proof (first_by_pk_none_matches Users _ _ Efound invitee Hinv) as Hc.
      simpl in Hc. rewrite Hinvid, N.eqb_refl in Hc. discriminate. }
  apply first_by_pk_matches in Efound. destruct Efound as [_ Hfid].
  apply N.eqb_eq in Hfid.
  assert (User_ID found = User_ID invitee) as Hsame by congruence.
  rewrite Hsame.
  replace (User_ID invitee =? Event_OrganizerID ev)%N with false
    by (symmetry; now apply N.eqb_neq).
  unfold bind at 1.
  destruct (First_fault_free EventAttendees
              (fun x => (EventAttendee_EventID x =? Event_ID ev)%N
                        && (EventAttendee_UserID x =? User_ID invitee)%N) s f2 Hf2)
    as (f3 & E & Hf3); rewrite E; clear E.
  unfold attendanceOf in Hnone.
  change (rows EventAttendees s) with (event_attendees s). rewrite Hnone.
  cbn [first_by_pk]. unfold bind.
  match goal with |- context [Create EventAttendees ?a s f3] =>
    destruct (Create_fault_free EventAttendees a s f3 Hf3 eq_refl)
      as (f4 & E & _); rewrite E; clear E
  end.
  exists f4. reflexivity.
Qed.

(** X12. In a reachable store, when the organizer of a stored event
    invites an existing user who is not the organizer and has no
    attendance row for the event, and no statement fails, the answer is
    200 "user invited" and the store gains exactly one attendance row: that
    user's, for that event, with role "attendee" and empty status. *)
Theorem InviteUser_creates_invitation
        (c : Context InviteRequest) s f ev invitee body :
  reachable s ->
  In ev (events s) ->
  getUserIDFromContext c = Some (Event_OrganizerID ev) ->
  strconv.ParseUint (Param_id c) = Some (Event_ID ev) ->
  ShouldBindJSON c validateInviteRequest = inr body ->
  In invitee (users s) ->
  User_ID invitee = InviteRequest_UserID body ->
  User_ID invitee <> Event_OrganizerID ev ->
  attendanceOf s (Event_ID ev) (User_ID invitee) = [] ->
  fault_free f ->
  let out := InviteUser c s f in
  response out = {| Code := http.StatusOK; Payload := JMessage "user invited" |}
  /\ event_attendees (store out)
     = (event_attendees s
        ++ [{| EventAttendee_ID := event_attendees_id_seq s;
               EventAttendee_EventID := Event_ID ev;
               EventAttendee_UserID := User_ID invitee;
               EventAttendee_Role := "attendee";
               EventAttendee_Status := "" |}])%list
  /\ events (store out) = events s
  /\ tasks (store out) = tasks s
  /\ users (store out) = users s.
Proof.
  intros Hreach Hev Hu Hp Hb Hinv Hinvid Hne Hnone Hf. cbv zeta.
  destruct (InviteUser_new c s f ev invitee body (reachable_consistent s Hreach)
              Hev Hu Hp Hb Hinv Hinvid Hne Hnone Hf) as (f' & E).
  rewrite E. repeat split.
Qed.

Lemma InviteUser_creates_invitation_witness :
  response (InviteUser (authenticated 1 "1" {| InviteRequest_UserID := 2 |})
              offsiteStore [])
  = {| Code := http.StatusOK; Payload := JMessage "user invited" |}
  /\ List.length (event_attendees invitedStore) = 2%nat.
Proof.
  assert (User_ID {| User_ID := 2; User_Email := "u2@example.org";
                     User_Password := "secret2" |}
          <> Event_OrganizerID offsiteEvent) as Hne by discriminate.
  destruct (InviteUser_creates_invitation
              (authenticated 1 "1" {| InviteRequest_UserID := 2 |})
              offsiteStore [] offsiteEvent
              {| User_ID := 2; User_Email := "u2@example.org";
                 User_Password := "secret2" |}
              {| InviteRequest_UserID := 2 |}
              (reachable_without_fault_reachable _ offsiteStore_reachable)
              (or_introl eq_refl) eq_refl eq_refl eq_refl
              (or_intror (or_introl eq_refl)) eq_refl Hne eq_refl fault_free_nil)
    as (H1 & H2 & _).
  split; [exact H1|]. unfold invitedStore. rewrite H2. reflexivity.
Defined.

(** X13. Inviting the same user twice: under the conditions of a first
    successful invitation, repeating the call (with no failing statement)
    answers 200 "user already invited or participant" and leaves the store
    exactly as the first call left it, with one attendance row for the
    pair. *)
Theorem InviteUser_twice
        (c : Context InviteRequest) s f f2 ev invitee body :
  reachable s ->
  In ev (events s) ->
  getUserIDFromContext c = Some (Event_OrganizerID ev) ->
  strconv.ParseUint (Param_id c) = Some (Event_ID ev) ->
  ShouldBindJSON c validateInviteRequest = inr body ->
  In invitee (users s) ->
  User_ID invitee = InviteRequest_UserID body ->
  User_ID invitee <> Event_OrganizerID ev ->
  attendanceOf s (Event_ID ev) (User_ID invitee) = [] ->
  fault_free f -> fault_free f2 ->
  let first := store (InviteUser c s f) in
  response (InviteUser c first f2)
  = {| Code := http.StatusOK;
       Payload := JMessage "user already invited or participant" |}
  /\ store (InviteUser c first f2) = first
  /\ List.length (attendanceOf first (Event_ID ev) (User_ID invitee)) = 1%nat.
Proof.
  intros Hreach Hev Hu Hp Hb Hinv Hinvid Hne Hnone Hf Hf2. cbv zeta.
  pose proof (reachable_consistent s Hreach) as Hs.
  destruct (InviteUser_new c s f ev invitee body Hs
              Hev Hu Hp Hb Hinv Hinvid Hne Hnone Hf) as (f' & E).
  rewrite E. unfold store at 1 3 4. cbn [fst snd].
  match goal with |- context [inserted EventAttendees ?row s] =>
    set (att := row); set (s1 := inserted EventAttendees att s)
  end.
  assert (consistent s1) as Hs1.
  { apply consistent_inserted_attendee; [exact Hs | | | now left].
    - exists ev. split; [exact Hev | reflexivity].
    - intros a Ha Epair. injection Epair as E1 E2. simpl in E1, E2.
      assert (In a (attendanceOf s (Event_ID ev) (User_ID invitee))) as Hin.
      { unfold attendanceOf. apply filter_In. split; [exact Ha|].
        now rewrite E1, E2, !N.eqb_refl. }
      rewrite Hnone in Hin. destruct Hin. }
  set (row := set_pk EventAttendees (next_id EventAttendees s) att).
  assert (In row (event_attendees s1)) as Hrow.
  { simpl. apply in_or_app. right. now left. }
  destruct (InviteUser_existing c s1 f2 ev invitee body row Hs1 Hev Hu Hp Hb
              Hinv Hinvid Hne Hrow eq_refl eq_refl) as (r & f3 & E2 & Hr).
  rewrite E2. unfold store, response. cbn [fst snd].
  split; [exact (Hr Hf2)|]. split; [reflexivity|].
  change (Event_ID ev) with (EventAttendee_EventID row).
  change (User_ID invitee) with (EventAttendee_UserID row).
  now rewrite (attendance_unique s1 row Hs1 Hrow).
Qed.

Lemma InviteUser_twice_witness :
  response (InviteUser (authenticated 1 "1" {| InviteRequest_UserID := 2 |})
              invitedStore [])
  = {| Code := http.StatusOK;
       Payload := JMessage "user already invited or participant" |}
  /\ store (InviteUser (authenticated 1 "1" {| InviteRequest_UserID := 2 |})
              invitedStore []) = invitedStore
  /\ List.length (attendanceOf invitedStore 1 2) = 1%nat.
Proof.
  assert (User_ID {| User_ID := 2; User_Email := "u2@example.org";
                     User_Password := "secret2" |}
          <> Event_OrganizerID offsiteEvent) as Hne by discriminate.
  exact (InviteUser_twice
           (authenticated 1 "1" {| InviteRequest_UserID := 2 |})
           offsiteStore [] [] offsiteEvent
           {| User_ID := 2; User_Email := "u2@example.org";
              User_Password := "secret2" |}
           {| InviteRequest_UserID := 2 |}
           (reachable_without_fault_reachable _ offsiteStore_reachable)
           (or_introl eq_refl) eq_refl eq_refl eq_refl
           (or_intror (or_introl eq_refl)) eq_refl Hne eq_refl
           fault_free_nil fault_free_nil).
Defined.

(* ------------------------------------------------------------------ *)
(** ** Invariants of the stores reached by requests served in turn *)

(** X14. At most one attendance row per (event, user) when requests are
    served one after another: in every store reached by running requests
    each to its end before the next begins, whichever statements failed on
    the way, no pair of an event and a user has two attendance rows.  The
    table has no unique index on the pair, so this is a property of the
    handlers run in turn; requests that overlap are outside it. *)
Theorem reachable_one_row_per_pair s eventID userID :
  reachable s ->
  (List.length (attendanceOf s eventID userID) <= 1)%nat.
Proof.
  intros Hreach. pose proof (reachable_consistent s Hreach) as Hs.
  destruct (attendanceOf s eventID userID) as [|a l] eqn:E; [simpl; lia|].
  assert (In a (attendanceOf s eventID userID)) as Ha by (rewrite E; now left).
  unfold attendanceOf in Ha. apply filter_In in Ha. destruct Ha as [Ha Hc].
  apply andb_true_iff in Hc. destruct Hc as [H1 H2]. apply N.eqb_eq in H1, H2.
  pose proof (attendance_unique s a Hs Ha) as Hu.
  rewrite H1, H2, E in Hu. inversion Hu. simpl. lia.
Qed.

Lemma reachable_one_row_per_pair_witness :
  (List.length (attendanceOf organizerGoingStore 1 1) <= 1)%nat.
Proof.
  exact (reachable_one_row_per_pair organizerGoingStore 1 1
           (reachable_without_fault_reachable _ organizerGoingStore_reachable)).
Defined.

(** X15. No orphans and no reused keys when requests are served one
    after another: in every store reached by running requests each to its
    end before the next begins, whichever statements failed on the way,
    every task and every attendance row refers to a stored event, event ids
    are pairwise distinct and below the sequence, and every stored status is
    empty or one of Going, Maybe, Not Going.  The attendance table has no
    foreign key, so for its rows this is a property of the handlers run in
    turn; requests that overlap are outside it. *)
Theorem reachable_referential_integrity s :
  reachable s ->
  (forall t, In t (tasks s) ->
             exists e, In e (events s) /\ Event_ID e = Task_EventID t)
  /\ (forall a, In a (event_attendees s) ->
                exists e, In e (events s) /\ Event_ID e = EventAttendee_EventID a)
  /\ NoDup (map Event_ID (events s))
  /\ (forall e, In e (events s) -> (Event_ID e < events_id_seq s)%N)
  /\ (forall a, In a (event_attendees s) ->
                validStatus (EventAttendee_Status a)).
Proof.
  intros Hreach. pose proof (reachable_consistent s Hreach) as Hs.
  split; [exact (tasks_event s Hs)|].
  split; [exact (attendees_event s Hs)|].
  split; [exact (events_pk s Hs)|].
  split; [exact (events_below_seq s Hs) | exact (attendees_status s Hs)].
Qed.

Lemma reachable_referential_integrity_witness :
  NoDup (map Event_ID (events venueStore))
  /\ exists e, In e (events venueStore) /\ Event_ID e = Task_EventID venueTask.
Proof.
  destruct (reachable_referential_integrity venueStore
              (reachable_without_fault_reachable _ venueStore_reachable))
    as (Htasks & _ & Hnd & _).
  split; [exact Hnd|]. apply Htasks. now left.
Defined.

(* ------------------------------------------------------------------ *)
(** ** SetAttendance: the row it writes *)

Lemma SetAttendance_bind (c : Context AttendanceRequest) body :
  Body c = inr body ->
  acceptedStatus (normalize (AttendanceRequest_Status body)) = true ->
  ShouldBindJSON c validateAttendanceRequest = inr body.
Proof.
  intros Hb Hacc. unfold ShouldBindJSON. rewrite Hb.
  unfold validateAttendanceRequest, required. simpl.
  destruct (isEmpty (AttendanceRequest_Status body)) eqn:He; [|reflexivity].
  apply String.eqb_eq in He. rewrite He in Hacc.
  rewrite normalize_empty_rejected in Hacc. discriminate.
Qed.

Lemma SetAttendance_update (c : Context AttendanceRequest) s f
      userID eventID body a :
  consistent s ->
  getUserIDFromContext c = Some userID ->
  strconv.ParseUint (Param_id c) = Some eventID ->
  Body c = inr body ->
  acceptedStatus (normalize (AttendanceRequest_Status body)) = true ->
  In a (event_attendees s) ->
  EventAttendee_EventID a = eventID ->
  EventAttendee_UserID a = userID ->
  fault_free f ->
  exists f',
    SetAttendance c s f
    = ({| Code := http.StatusOK;
          Payload := JAttendee
                       (withStatus a (normalize (AttendanceRequest_Status body))) |},
       set_rows EventAttendees
         (map (fun r => if (EventAttendee_ID r =? EventAttendee_ID a)%N
                        then withStatus a (normalize (AttendanceRequest_Status body))
                        else r)
              (event_attendees s)) s, f').
Proof.
  intros Hs Hu Hp Hb Hacc Ha HaE HaU Hf. unfold SetAttendance.
  rewrite Hu, Hp, (SetAttendance_bind c body Hb Hacc). cbv zeta.
  rewrite Hacc. cbn [negb]. unfold bind at 1.
  destruct (First_fault_free Events (fun e => (Event_ID e =? eventID)%N) s f Hf)
    as (f1 & E & Hf1); rewrite E; clear E.
  destruct (first_by_pk Events _) as [ev'|] eqn:Efound.
  2:{ exfalso. destruct (attendees_event s Hs a Ha) as (e & He & Hid).
      apply first_by_pk_none_matches with (a := e) in Efound; [|exact He].
      apply N.eqb_neq in Efound. congruence. }
  unfold bind at 1.
  destruct (First_fault_free EventAttendees
              (fun x => (EventAttendee_EventID x =? eventID)%N
                        && (EventAttendee_UserID x =? userID)%N) s f1 Hf1)
    as (f2 & E & Hf2); rewrite E; clear E.
  pose proof (attendance_unique s a Hs Ha) as Huniq.
  rewrite HaE, HaU in Huniq. unfold attendanceOf in Huniq.
  change (rows EventAttendees s) with (event_attendees s). rewrite Huniq.
  cbn [first_by_pk]. unfold bind, Save.
  change (pk EventAttendees (withStatus a (normalize (AttendanceRequest_Status body))))
    with (EventAttendee_ID a).
  pose proof (attendees_below_seq s Hs a Ha) as Hpos.
  replace (EventAttendee_ID a =? 0)%N with false
    by (symmetry; apply N.eqb_neq; lia).
  match goal with |- context [exec ?q s f2] =>
    destruct (exec_fault_free q s f2 Hf2) as (f3 & E & _); rewrite E; clear E
  end.
  assert (existsb (fun r => (pk EventAttendees r =? EventAttendee_ID a)%N)
                  (rows EventAttendees s) = true) as Eex.
  { apply existsb_exists. exists a. split; [exact Ha | apply N.eqb_refl]. }
  rewrite Eex. exists f3. reflexivity.
Qed.

Lemma SetAttendance_insert (c : Context AttendanceRequest) s f
      userID eventID body ev :
  getUserIDFromContext c = Some userID ->
  strconv.ParseUint (Param_id c) = Some eventID ->
  Body c = inr body ->
  acceptedStatus (normalize (AttendanceRequest_Status body)) = true ->
  In ev (events s) -> Event_ID ev = eventID ->
  attendanceOf s eventID userID = [] ->
  fault_free f ->
  exists f',
    SetAttendance c s f
    = ({| Code := http.StatusOK;
          Payload := JAttendee
                       {| EventAttendee_ID := event_attendees_id_seq s;
                          EventAttendee_EventID := eventID;
                          EventAttendee_UserID := userID;
                          EventAttendee_Role := "attendee";
                          EventAttendee_Status :=
                            normalize (AttendanceRequest_Status body) |} |},
       inserted EventAttendees
         {| EventAttendee_ID := 0;
            EventAttendee_EventID := eventID;
            EventAttendee_UserID := userID;
            EventAttendee_Role := "attendee";
            EventAttendee_Status := normalize (AttendanceRequest_Status body) |} s,
       f').
Proof.
  intros Hu Hp Hb Hacc Hev Hid Hnone Hf. unfold SetAttendance.
  rewrite Hu, Hp, (SetAttendance_bind c body Hb Hacc). cbv zeta.
  rewrite Hacc. cbn [negb]. unfold bind at 1.
  destruct (First_fault_free Events (fun e => (Event_ID e =? eventID)%N) s f Hf)
    as (f1 & E & Hf1); rewrite E; clear E.
  destruct (first_by_pk Events _) as [ev'|] eqn:Efound.
  2:{ exfalso.
      apply first_by_pk_none_matches with (a := ev) in Efound; [|exact Hev].
      apply N.eqb_neq in Efound. contradiction. }
  unfold bind at 1.
  destruct (First_fault_free EventAttendees
              (fun x => (EventAttendee_EventID x =? eventID)%N
                        && (EventAttendee_UserID x =? userID)%N) s f1 Hf1)
    as (f2 & E & Hf2); rewrite E; clear E.
  unfold attendanceOf in Hnone.
  change (rows EventAttendees s) with (event_attendees s). rewrite Hnone.
  cbn [first_by_pk]. unfold bind.
  match goal with |- context [Create EventAttendees ?a s f2] =>
    destruct (Create_fault_free EventAttendees a s f2 Hf2 eq_refl)
      as (f3 & E & _); rewrite E; clear E
  end.
  exists f3. reflexivity.
Qed.

(** X16. An RSVP on an existing attendance row updates it in place: in a
    reachable store, when the caller already has a row for the event and
    sends an accepted status (no statement failing), the answer is 200 with
    that row carrying the normalized status and its id, event, user and
    role as before; the attendance table keeps its length and order, every
    row with another id is as it was, and nothing else in the store
    changes. *)
Theorem SetAttendance_updates_in_place
        (c : Context AttendanceRequest) s f userID eventID body a :
  reachable s ->
  getUserIDFromContext c = Some userID ->
  strconv.ParseUint (Param_id c) = Some eventID ->
  Body c = inr body ->
  acceptedStatus (normalize (AttendanceRequest_Status body)) = true ->
  In a (event_attendees s) ->
  EventAttendee_EventID a = eventID ->
  EventAttendee_UserID a = userID ->
  fault_free f ->
  let out := SetAttendance c s f in
  let updated := withStatus a (normalize (AttendanceRequest_Status body)) in
  response out = {| Code := http.StatusOK; Payload := JAttendee updated |}
  /\ EventAttendee_Role updated = EventAttendee_Role a
  /\ event_attendees (store out)
     = map (fun r => if (EventAttendee_ID r =? EventAttendee_ID a)%N
                     then updated else r) (event_attendees s)
  /\ attendanceOf (store out) eventID userID = [updated]
  /\ (forall r, In r (event_attendees s) -> r <> a ->
                In r (event_attendees (store out)))
  /\ events (store out) = events s
  /\ tasks (store out) = tasks s
  /\ users (store out) = users s
  /\ event_attendees_id_seq (store out) = event_attendees_id_seq s.
Proof.
  intros Hreach Hu Hp Hb Hacc Ha HaE HaU Hf. cbv zeta.
  pose proof (reachable_consistent s Hreach) as Hs.
  destruct (SetAttendance_update c s f userID eventID body a Hs Hu Hp Hb Hacc
              Ha HaE HaU Hf) as (f' & E).
  rewrite E. unfold store, response. cbn [fst snd].
  set (n := normalize (AttendanceRequest_Status body)).
  split; [reflexivity|]. split; [reflexivity|]. split; [reflexivity|].
  split.
  { assert (validStatus n) as Hvalid.
    { unfold n, acceptedStatus in *. unfold validStatus.
      destruct (String.eqb_spec (normalize (AttendanceRequest_Status body)) "Going");
        [tauto|].
      destruct (String.eqb_spec (normalize (AttendanceRequest_Status body)) "Maybe");
        [tauto|].
      destruct (String.eqb_spec (normalize (AttendanceRequest_Status body)) "Not Going");
        [tauto|].
      discriminate. }
    pose proof (consistent_updated_status s a n Hs Ha Hvalid) as Hs'.
    assert (In (withStatus a n)
               (event_attendees
                  (set_rows EventAttendees
                     (map (fun r => if (EventAttendee_ID r =? EventAttendee_ID a)%N
                                    then withStatus a n else r)
                          (event_attendees s)) s))) as Hin.
    { simpl. apply in_map_iff. exists a. now rewrite N.eqb_refl. }
    pose proof (attendance_unique _ _ Hs' Hin) as Huniq.
    simpl in Huniq. rewrite HaE, HaU in Huniq. exact Huniq. }
  split; [|repeat split].
  intros r Hr Hne. simpl. apply in_map_iff. exists r. split; [|exact Hr].
  destruct (EventAttendee_ID r =? EventAttendee_ID a)%N eqn:Eid; [|reflexivity].
  exfalso. apply Hne. exact (updated_row s a r Hs Ha Hr Eid).
Qed.

Lemma SetAttendance_updates_in_place_witness :
  response (SetAttendance (authenticated 1 "1" (rsvp "maybe")) organizerGoingStore [])
  = {| Code := http.StatusOK;
       Payload := JAttendee (withStatus organizerGoingRow "Maybe") |}
  /\ attendanceOf
       (store (SetAttendance (authenticated 1 "1" (rsvp "maybe"))
                 organizerGoingStore [])) 1 1
     = [withStatus organizerGoingRow "Maybe"].
Proof.
  destruct (SetAttendance_updates_in_place
              (authenticated 1 "1" (rsvp "maybe")) organizerGoingStore [] 1 1
              (rsvp "maybe") organizerGoingRow
              (reachable_without_fault_reachable _ organizerGoingStore_reachable)
              eq_refl eq_refl eq_refl eq_refl (or_introl eq_refl) eq_refl eq_refl
              fault_free_nil) as (H1 & _ & _ & H4 & _).
  split; [exact H1 | exact H4].
Defined.

(** X17. An RSVP needs no invitation: when a signed-in user who has no
    attendance row for a stored event sends an accepted status (no
    statement failing), the answer is 200 and the store gains exactly one
    row for that user and event, with role "attendee", the normalized
    status and the next id of the sequence. *)
Theorem SetAttendance_first_rsvp
        (c : Context AttendanceRequest) s f userID eventID body ev :
  getUserIDFromContext c = Some userID ->
  strconv.ParseUint (Param_id c) = Some eventID ->
  Body c = inr body ->
  acceptedStatus (normalize (AttendanceRequest_Status body)) = true ->
  In ev (events s) -> Event_ID ev = eventID ->
  attendanceOf s eventID userID = [] ->
  fault_free f ->
  let out := SetAttendance c s f in
  let row := {| EventAttendee_ID := event_attendees_id_seq s;
                EventAttendee_EventID := eventID;
                EventAttendee_UserID := userID;
                EventAttendee_Role := "attendee";
                EventAttendee_Status := normalize (AttendanceRequest_Status body) |} in
  response out = {| Code := http.StatusOK; Payload := JAttendee row |}
  /\ event_attendees (store out) = (event_attendees s ++ [row])%list
  /\ event_attendees_id_seq (store out) = (event_attendees_id_seq s + 1)%N
  /\ events (store out) = events s
  /\ tasks (store out) = tasks s
  /\ users (store out) = users s.
Proof.
  intros Hu Hp Hb Hacc Hev Hid Hnone Hf. cbv zeta.
  destruct (SetAttendance_insert c s f userID eventID body ev Hu Hp Hb Hacc
              Hev Hid Hnone Hf) as (f' & E).
  rewrite E. repeat split.
Qed.

Lemma SetAttendance_first_rsvp_witness :
  response (SetAttendance (authenticated 2 "1" (rsvp " GOING ")) offsiteStore [])
  = {| Code := http.StatusOK;
       Payload := JAttendee
                    {| EventAttendee_ID := 2; EventAttendee_EventID := 1;
                       EventAttendee_UserID := 2;
                       EventAttendee_Role := "attendee";
                       EventAttendee_Status := "Going" |} |}.
Proof.
  exact (proj1 (SetAttendance_first_rsvp
                  (authenticated 2 "1" (rsvp " GOING ")) offsiteStore [] 2 1
                  (rsvp " GOING ") offsiteEvent
                  eq_refl eq_refl eq_refl eq_refl (or_introl eq_refl) eq_refl
                  eq_refl fault_free_nil)).
Defined.

(** X18. After a first RSVP the event shows in the caller's invited
    list: with the store left by a first accepted RSVP of a user on a
    stored event, GetInvitedEvents for that user (no statement failing)
    answers 200 with a list that contains that event, its tasks
    attached. *)
Theorem first_rsvp_then_invited
        (c : Context AttendanceRequest) (c' : Context unit)
        s f f2 userID eventID body ev :
  getUserIDFromContext c = Some userID ->
  strconv.ParseUint (Param_id c) = Some eventID ->
  Body c = inr body ->
  acceptedStatus (normalize (AttendanceRequest_Status body)) = true ->
  In ev (events s) -> Event_ID ev = eventID ->
  attendanceOf s eventID userID = [] ->
  fault_free f ->
  getUserIDFromContext c' = Some userID ->
  fault_free f2 ->
  let after := store (SetAttendance c s f) in
  exists l,
    response (GetInvitedEvents c' after f2)
    = {| Code := http.StatusOK; Payload := JEvents l |}
    /\ In (preloaded s ev) l.
Proof.
  intros Hu Hp Hb Hacc Hev Hid Hnone Hf Hu' Hf2. cbv zeta.
  destruct (SetAttendance_insert c s f userID eventID body ev Hu Hp Hb Hacc
              Hev Hid Hnone Hf) as (f' & E).
  rewrite E. unfold store at 1. cbn [fst snd].
  match goal with |- context [inserted EventAttendees ?row s] =>
    set (s1 := inserted EventAttendees row s)
  end.
  destruct (GetInvitedEvents_result c' s1 f2 userID Hu')
    as (r & f3 & E2 & [[_ Hbad]|(l & -> & Hperm & _)]); [contradiction|].
  rewrite E2. exists (map (preloaded s1) l). split; [reflexivity|].
  change (preloaded s ev) with (preloaded s1 ev).
  apply in_map. apply (Permutation_in _ (Permutation_sym Hperm)).
  apply filter_In. split; [exact Hev|].
  unfold invitedTo. apply existsb_exists. eexists. split.
  - simpl. apply in_or_app. right. left. reflexivity.
  - simpl. now rewrite Hid, !N.eqb_refl.
Qed.

Lemma first_rsvp_then_invited_witness :
  exists l,
    response (GetInvitedEvents (authenticated 2 "" tt)
                (store (SetAttendance (authenticated 2 "1" (rsvp "maybe"))
                          offsiteStore [])) [])
    = {| Code := http.StatusOK; Payload := JEvents l |}
    /\ In (preloaded offsiteStore offsiteEvent) l.
Proof.
  exact (first_rsvp_then_invited
           (authenticated 2 "1" (rsvp "maybe")) (authenticated 2 "" tt)
           offsiteStore [] [] 2 1 (rsvp "maybe") offsiteEvent
           eq_refl eq_refl eq_refl eq_refl (or_introl eq_refl) eq_refl
           eq_refl fault_free_nil eq_refl fault_free_nil).
Defined.

(* ------------------------------------------------------------------ *)
(** ** CreateTask, then GetTasksByEvent *)

Lemma CreateTask_new (c : Context CreateTaskRequest) s f ev body :
  NoDup (map Event_ID (events s)) ->
  In ev (events s) ->
  getUserIDFromContext c = Some (Event_OrganizerID ev) ->
  strconv.ParseUint (Param_id c) = Some (Event_ID ev) ->
  Body c = inr body ->
  CreateTaskRequest_Title body <> "" ->
  fault_free f ->
  exists f',
    CreateTask c s f
    = ({| Code := http.StatusCreated;
          Payload := JTask
                       {| Task_ID := tasks_id_seq s;
                          Task_EventID := Event_ID ev;
                          Task_Title := strings.TrimSpace (CreateTaskRequest_Title body);
                          Task_Description := CreateTaskRequest_Description body |} |},
       inserted Tasks
         {| Task_ID := 0;
            Task_EventID := Event_ID ev;
            Task_Title := strings.TrimSpace (CreateTaskRequest_Title body);
            Task_Description := CreateTaskRequest_Description body |} s, f').
Proof.
  intros Hnd Hev Hu Hp Hb Htitle Hf. unfold CreateTask. rewrite Hu, Hp.
  unfold bind at 1.
  destruct (First_fault_free Events (fun e => (Event_ID e =? Event_ID ev)%N) s f Hf)
    as (f1 & E & Hf1); rewrite E; clear E.
  change (rows Events s) with (events s).
  rewrite (event_lookup_unique s ev Hnd Hev).
  rewrite N.eqb_refl. cbn [negb].
  unfold ShouldBindJSON. rewrite Hb.
  unfold validateCreateTaskRequest, required. simpl.
  rewrite (isEmpty_false _ Htitle). simpl. unfold bind.
  match goal with |- context [Create Tasks ?a s f1] =>
    destruct (Create_fault_free Tasks a s f1 Hf1 eq_refl)
      as (f2 & E & _); rewrite E; clear E
  end.
  exists f2. reflexivity.
Qed.

(** X19. A created task is listed: when the organizer of a stored event
    (event ids distinct) posts a task with a non-empty title and no
    statement fails, the answer is 201 with the task, its title trimmed,
    its id the next of the sequence; the task table gains exactly that row
    and nothing else changes; and GetTasksByEvent for the event then
    answers 200 with the event's earlier tasks followed by the new one. *)
Theorem CreateTask_then_GetTasksByEvent
        (c : Context CreateTaskRequest) (c' : Context unit) s f f2 ev body :
  NoDup (map Event_ID (events s)) ->
  In ev (events s) ->
  getUserIDFromContext c = Some (Event_OrganizerID ev) ->
  strconv.ParseUint (Param_id c) = Some (Event_ID ev) ->
  Body c = inr body ->
  CreateTaskRequest_Title body <> "" ->
  fault_free f ->
  strconv.ParseUint (Param_id c') = Some (Event_ID ev) ->
  fault_free f2 ->
  let out := CreateTask c s f in
  let task := {| Task_ID := tasks_id_seq s;
                 Task_EventID := Event_ID ev;
                 Task_Title := strings.TrimSpace (CreateTaskRequest_Title body);
                 Task_Description := CreateTaskRequest_Description body |} in
  response out = {| Code := http.StatusCreated; Payload := JTask task |}
  /\ tasks (store out) = (tasks s ++ [task])%list
  /\ tasks_id_seq (store out) = (tasks_id_seq s + 1)%N
  /\ events (store out) = events s
  /\ event_attendees (store out) = event_attendees s
  /\ users (store out) = users s
  /\ response (GetTasksByEvent c' (store out) f2)
     = {| Code := http.StatusOK;
          Payload := JTasks (tasksOf s ev ++ [task])%list |}.
Proof.
  intros Hnd Hev Hu Hp Hb Htitle Hf Hp' Hf2. cbv zeta.
  destruct (CreateTask_new c s f ev body Hnd Hev Hu Hp Hb Htitle Hf) as (f' & E).
  rewrite E. unfold store, response. cbn [fst snd].
  do 6 (split; [reflexivity|]).
  unfold GetTasksByEvent. rewrite Hp'. unfold bind.
  match goal with |- context [Find ?q ?s1 f2] =>
    destruct (Find_fault_free q s1 f2 Hf2) as (f3 & E2 & _); rewrite E2; clear E2
  end.
  cbn [fst snd]. unfold Where, Model, tasksOf. simpl.
  rewrite filter_app. simpl. now rewrite N.eqb_refl.
Qed.

Lemma CreateTask_then_GetTasksByEvent_witness :
  response (CreateTask
              (authenticated 1 "1"
                 {| CreateTaskRequest_Title := "  Order food ";
                    CreateTaskRequest_Description := "" |}) venueStore [])
  = {| Code := http.StatusCreated;
       Payload := JTask {| Task_ID := 2; Task_EventID := 1;
                           Task_Title := "Order food";
                           Task_Description := "" |} |}
  /\ response
       (GetTasksByEvent (authenticated 2 "1" tt)
          (store (CreateTask
                    (authenticated 1 "1"
                       {| CreateTaskRequest_Title := "  Order food ";
                          CreateTaskRequest_Description := "" |}) venueStore []))
          [])
     = {| Code := http.StatusOK;
          Payload := JTasks [venueTask;
                             {| Task_ID := 2; Task_EventID := 1;
                                Task_Title := "Order food";
                                Task_Description := "" |}] |}.
Proof.
  assert (CreateTaskRequest_Title
            {| CreateTaskRequest_Title := "  Order food ";
               CreateTaskRequest_Description := "" |} <> "") as Hne
      by discriminate.
  assert (NoDup (map Event_ID (events venueStore))) as Hnd
      by (concrete_NoDup).
  destruct (CreateTask_then_GetTasksByEvent
              (authenticated 1 "1"
                 {| CreateTaskRequest_Title := "  Order food ";
                    CreateTaskRequest_Description := "" |})
              (authenticated 2 "1" tt) venueStore [] [] offsiteEvent
              {| CreateTaskRequest_Title := "  Order food ";
                 CreateTaskRequest_Description := "" |}
              Hnd (or_introl eq_refl) eq_refl eq_refl eq_refl Hne fault_free_nil
              eq_refl fault_free_nil) as (H1 & _ & _ & _ & _ & _ & H7).
  split; [exact H1 | exact H7].
Defined.

(* ------------------------------------------------------------------ *)
(** ** Search: what the filters let through *)

Lemma In_whereIf_iff {A} (b : bool) (cond : A -> bool) (q : Query A) s x :
  In x (whereIf b cond q s) <-> In x (q s) /\ (b = true -> cond x = true).
Proof.
  unfold whereIf, Where. destruct b.
  - rewrite filter_In. intuition.
  - intuition discriminate.
Qed.

Lemma In_roleClause_iff {A} role userID (event : A -> Event) restrict
      (q : Query A) s x :
  roleClause role userID event = Some restrict ->
  In x (restrict q s)
  <-> In x (q s)
      /\ (role = "organizer" -> Event_OrganizerID (event x) = userID)
      /\ (role = "attendee" -> invitedTo s userID (event x) = true).
Proof.
  unfold roleClause. destruct (isEmpty role) eqn:Eempty.
  { intros E; inversion E; subst. apply String.eqb_eq in Eempty. subst role.
    intuition discriminate. }
  destruct (String.eqb_spec role "organizer") as [->|Horg].
  { intros E; inversion E; subst. unfold Where. rewrite filter_In, N.eqb_eq.
    intuition discriminate. }
  destruct (String.eqb_spec role "attendee") as [->|Hatt]; [|discriminate].
  intros E; inversion E; subst. clear E. unfold Select, Where, Joins. split.
  - intros H. apply in_map_iff in H. destruct H as ((a, ea) & <- & H).
    apply filter_In in H. destruct H as [H Hc].
    apply in_flat_map in H. destruct H as (a' & Ha' & H).
    apply in_map_iff in H. destruct H as (ea' & E' & Hea).
    inversion E'; subst. apply filter_In in Hea. destruct Hea as [Hea Hon].
    simpl in *. split; [exact Ha'|]. split; [discriminate|]. intros _.
    unfold invitedTo. apply existsb_exists. exists ea. split; [exact Hea|].
    apply andb_true_iff in Hc. destruct Hc as [Hc1 Hc2].
    now rewrite Hon, Hc1, Hc2.
  - intros (Hx & _ & Hinv). specialize (Hinv eq_refl).
    unfold invitedTo in Hinv. apply existsb_exists in Hinv.
    destruct Hinv as (ea & Hea & Hc).
    apply andb_true_iff in Hc. destruct Hc as [Hc Hc3].
    apply andb_true_iff in Hc. destruct Hc as [Hc1 Hc2].
    apply in_map_iff. exists (x, ea). split; [reflexivity|].
    apply filter_In. split; [|simpl; now rewrite Hc2, Hc3].
    apply in_flat_map. exists x. split; [exact Hx|].
    apply in_map. apply filter_In. split; [exact Hea | exact Hc1].
Qed.

Lemma In_filtered {A} (event : A -> Event) (kwcond : A -> bool)
      keyword role start end_ userID restrict (q : Query A) s x :
  roleClause role userID event = Some restrict ->
  In x (restrict
          (whereIf (negb (time.IsZero end_))
             (fun a => Event_Date (event a) <=? end_)
             (whereIf (negb (time.IsZero start))
                (fun a => start <=? Event_Date (event a))
                (whereIf (negb (isEmpty keyword)) kwcond q))) s)
  <-> In x (q s)
      /\ (keyword <> "" -> kwcond x = true)
      /\ (start <> time.zero -> start <= Event_Date (event x))
      /\ (end_ <> time.zero -> Event_Date (event x) <= end_)
      /\ (role = "organizer" -> Event_OrganizerID (event x) = userID)
      /\ (role = "attendee" -> invitedTo s userID (event x) = true).
Proof.
  intros Hrole. rewrite (In_roleClause_iff _ _ _ _ _ _ _ Hrole).
  rewrite !In_whereIf_iff.
  unfold isEmpty, time.IsZero, time.zero.
  rewrite !negb_true_iff, String.eqb_neq, !Z.eqb_neq, !Z.leb_le.
  tauto.
Qed.

Lemma type_test type kind :
  String.eqb type "both" || String.eqb type kind = true
  <-> type = "both" \/ type = kind.
Proof. now rewrite orb_true_iff, !String.eqb_eq. Qed.

Lemma searchEvents_members type keyword role start end_ userID s f rs s' f' :
  searchEvents type keyword ("%" ++ keyword ++ "%") role start end_ userID s f
  = (inr rs, s', f') ->
  forall r,
    In r rs
    <-> (type = "both" \/ type = "event")
        /\ exists e0,
            r = EventResult (preloaded s e0)
            /\ In e0 (events s)
            /\ withinFilters s keyword role start end_ userID r.
Proof.
  unfold searchEvents.
  destruct (String.eqb type "both" || String.eqb type "event") eqn:Ety.
  2:{ intros E. inversion E; subst. intros r. simpl. split; [tauto|].
      intros [Hty _]. apply type_test in Hty. congruence. }
  apply type_test in Ety.
  destruct (roleClause role userID (fun e => e)) as [restrict|] eqn:Erole;
    [|discriminate].
  unfold bind, Find, exec.
  destruct (next_fault f) as [[msg|] f1]; [discriminate|].
  match goal with |- context [Order Event_Date ?q s] =>
    pose proof (In_Order Event_Date q s) as Hin;
    generalize dependent (Order Event_Date q s) end.
  intros found Hin.
  destruct (PreloadTasks (inr found) s f1) as [[[err|loaded] s1] f2] eqn:Epre;
    [discriminate|].
  apply PreloadTasks_result in Epre. destruct Epre as [-> ->].
  intros E. injection E as E1 E2 E3. subst rs s' f'.
  pose proof (fun e0 =>
                In_filtered (fun e => e)
                  (fun e => strings.ILike (Event_Title e) ("%" ++ keyword ++ "%")
                            || strings.ILike (Event_Description e)
                                 ("%" ++ keyword ++ "%"))
                  keyword role start end_ userID restrict (Model Events) s e0 Erole)
    as Hfilt.
  intros r. rewrite in_map_iff. split.
  - intros (e & <- & He). apply in_map_iff in He.
    destruct He as (e0 & <- & He0). split; [exact Ety|].
    exists e0. split; [reflexivity|].
    apply Hin in He0. apply Hfilt in He0.
    destruct He0 as (He0 & Hconds). split; [exact He0 | exact Hconds].
  - intros (_ & e0 & -> & He0 & Hconds).
    exists (preloaded s e0). split; [reflexivity|].
    apply (in_map (preloaded s)). apply Hin. apply Hfilt.
    split; [exact He0 | exact Hconds].
Qed.

Lemma In_task_join_iff s t e :
  In (t, e)
     (Joins Events (fun t e => (Event_ID e =? Task_EventID t)%N) (Model Tasks) s)
  <-> In t (tasks s) /\ In e (events s) /\ Event_ID e = Task_EventID t.
Proof.
  unfold Joins, Model. rewrite in_flat_map. split.
  - intros (t' & Ht' & H). apply in_map_iff in H.
    destruct H as (e' & E & He). inversion E; subst.
    apply filter_In in He. destruct He as [Hin Hid]. apply N.eqb_eq in Hid.
    auto.
  - intros (Ht & He & Hid). exists t. split; [exact Ht|].
    apply in_map. apply filter_In. split; [exact He | now apply N.eqb_eq].
Qed.

Lemma attachEvents_exact s ps :
  NoDup (map Event_ID (events s)) ->
  (forall p, In p ps -> joined s p) ->
  forall f, fault_free f ->
  exists f',
    attachEvents (map fst ps) s f
    = (map (fun p => TaskResult (fst p) (snd p)) ps, s, f')
    /\ fault_free f'.
Proof.
  intros Hnd. induction ps as [|p ps IH]; intros Hj f Hf.
  - exists f. split; [reflexivity | exact Hf].
  - simpl. unfold bind.
    destruct (First_fault_free Events
                (fun e => (Event_ID e =? Task_EventID (fst p))%N) s f Hf)
      as (f1 & E & Hf1); rewrite E; clear E.
    destruct (Hj p (or_introl eq_refl)) as [Hin Hid]. rewrite <- Hid.
    change (rows Events s) with (events s).
    rewrite (event_lookup_unique s (snd p) Hnd Hin).
    destruct (IH (fun q Hq => Hj q (or_intror Hq)) f1 Hf1) as (f2 & E & Hf2).
    rewrite E. exists f2. split; [reflexivity | exact Hf2].
Qed.

Lemma searchTasks_members type keyword role start end_ userID s f rs s' f' :
  NoDup (map Event_ID (events s)) ->
  searchTasks type keyword ("%" ++ keyword ++ "%") role start end_ userID s f
  = (inr rs, s', f') ->
  (forall r,
      In r rs ->
      (type = "both" \/ type = "task")
      /\ exists t e,
          r = TaskResult t e
          /\ drawnFrom s r
          /\ withinFilters s keyword role start end_ userID r)
  /\ (fault_free f ->
      forall t e,
        type = "both" \/ type = "task" ->
        drawnFrom s (TaskResult t e) ->
        withinFilters s keyword role start end_ userID (TaskResult t e) ->
        In (TaskResult t e) rs).
Proof.
  intros Hnd. unfold searchTasks.
  destruct (String.eqb type "both" || String.eqb type "task") eqn:Ety.
  2:{ intros E. inversion E; subst. split.
      - intros r [].
      - intros _ t e Hty. apply type_test in Hty. congruence. }
  apply type_test in Ety.
  destruct (roleClause role userID snd) as [restrict|] eqn:Erole; [|discriminate].
  pose proof (fun p =>
                In_filtered snd
                  (fun p : Task * Event =>
                     strings.ILike (Task_Title (fst p)) ("%" ++ keyword ++ "%")
                     || strings.ILike (Task_Description (fst p)) ("%" ++ keyword ++ "%")
                     || strings.ILike (Event_Title (snd p)) ("%" ++ keyword ++ "%")
                     || strings.ILike (Event_Description (snd p))
                          ("%" ++ keyword ++ "%"))
                  keyword role start end_ userID restrict
                  (Joins Events (fun t e => (Event_ID e =? Task_EventID t)%N)
                     (Model Tasks)) s p Erole)
    as Hfilt.
  unfold bind.
  match goal with |- context [Find ?q s f] =>
    destruct (Find_cases q s f) as [(msg & f1 & E & Hbad)|(f1 & E & Hf1)];
    rewrite E; clear E
  end; [discriminate|].
  unfold Select.
  match goal with |- context [Order ?k ?q s] =>
    pose proof (In_Order k q s) as Hin;
    generalize dependent (Order k q s) end.
  intros ps Hin.
  assert (forall p, In p ps -> joined s p) as Hjoined.
  { intros [t e] Hp. apply Hin in Hp. apply Hfilt in Hp. destruct Hp as [Hp _].
    apply In_task_join_iff in Hp. split; tauto. }
  split.
  - pose proof (attachEvents_results s ps Hnd Hjoined f1) as [Hall _].
    unfold response in Hall.
    destruct (attachEvents (map fst ps) s f1) as [[results s2] f2].
    simpl in *. unfold ret in H. injection H as H1 H2 H3. subst rs.
    intros r Hr. rewrite Forall_forall in Hall.
    destruct (Hall r Hr) as ([t e] & Hp & ->). simpl.
    split; [exact Ety|]. exists t, e. split; [reflexivity|].
    apply Hin in Hp. apply Hfilt in Hp. destruct Hp as [Hp Hconds].
    apply In_task_join_iff in Hp. split; [exact Hp | exact Hconds].
  - intros Hf t e _ Hdrawn Hconds.
    destruct (attachEvents_exact s ps Hnd Hjoined f1 (Hf1 Hf)) as (f2 & E & _).
    rewrite E in H. unfold ret in H. injection H as H1 H2 H3. subst rs.
    apply in_map_iff. exists (t, e). split; [reflexivity|].
    apply Hin. apply Hfilt. split; [|exact Hconds].
    apply In_task_join_iff. exact Hdrawn.
Qed.

Lemma searchEvents_error type keyword kw role start end_ userID s f resp s' f' :
  searchEvents type keyword kw role start end_ userID s f = (inl resp, s', f') ->
  exists code msg, resp = jsonError code msg.
Proof.
  unfold searchEvents. destruct (_ || _); [|discriminate].
  destruct (roleClause _ _ _) as [restrict|].
  2:{ intros E. inversion E. eauto. }
  unfold bind.
  destruct (Find _ s f) as [[found s1] f1].
  destruct (PreloadTasks found s1 f1) as [[[err|loaded] s2] f2];
    intros E; inversion E. eauto.
Qed.

Lemma searchTasks_error type keyword kw role start end_ userID s f resp s' f' :
  searchTasks type keyword kw role start end_ userID s f = (inl resp, s', f') ->
  exists code msg, resp = jsonError code msg.
Proof.
  unfold searchTasks. destruct (_ || _); [|discriminate].
  destruct (roleClause _ _ _) as [restrict|].
  2:{ intros E. inversion E. eauto. }
  unfold bind.
  destruct (Find _ s f) as [[[err|found] s1] f1].
  - intros E. inversion E. eauto.
  - destruct (attachEvents found s1 f1) as [[results s2] f2]. discriminate.
Qed.

Lemma searchEvents_schedule type keyword kw role start end_ userID s f rs s' f' :
  searchEvents type keyword kw role start end_ userID s f = (inr rs, s', f') ->
  fault_free f -> fault_free f'.
Proof.
  unfold searchEvents. destruct (_ || _).
  2:{ intros E. inversion E; subst. auto. }
  destruct (roleClause _ _ _) as [restrict|]; [|discriminate].
  unfold bind.
  match goal with |- context [Find ?q s f] =>
    destruct (Find_cases q s f) as [(msg & f1 & E & Hbad)|(f1 & E & Hf1)];
    rewrite E; clear E
  end; [discriminate|].
  match goal with |- context [PreloadTasks (inr ?l) s f1] =>
    destruct (PreloadTasks_cases l s f1) as [(msg & f2 & E & Hbad)|(f2 & E & Hf2)];
    rewrite E; clear E
  end; [discriminate|].
  intros E. inversion E; subst. auto.
Qed.

Lemma SearchHandler_answer (c : SearchContext) s f userID rs :
  getUserIDFromContext (Search_Context c) = Some userID ->
  response (SearchHandler c s f)
  = {| Code := http.StatusOK; Payload := JResults rs |} ->
  let req := bindSearchRequest c in
  let keyword := strings.TrimSpace (SearchRequest_Keyword req) in
  exists start end_ evs tks s1 f1 s2 f2,
    searchStart req = Some start
    /\ searchEnd req = Some end_
    /\ searchEvents (effectiveType req) keyword ("%" ++ keyword ++ "%")
         (SearchRequest_Role req) start end_ userID s f = (inr evs, s1, f1)
    /\ searchTasks (effectiveType req) keyword ("%" ++ keyword ++ "%")
         (SearchRequest_Role req) start end_ userID s1 f1 = (inr tks, s2, f2)
    /\ rs = (evs ++ tks)%list.
Proof.
  intros Hu. unfold SearchHandler. rewrite Hu. cbv zeta.
  fold (effectiveType (bindSearchRequest c)).
  fold (searchStart (bindSearchRequest c)).
  fold (searchEnd (bindSearchRequest c)).
  destruct (searchStart (bindSearchRequest c)) as [start|]; [|discriminate].
  destruct (searchEnd (bindSearchRequest c)) as [end_|]; [|discriminate].
  unfold bind.
  destruct (searchEvents _ _ _ _ _ _ _ s f) as [[[resp|evs] s1] f1] eqn:Eevs.
  { apply searchEvents_error in Eevs. destruct Eevs as (code & msg & ->).
    discriminate. }
  destruct (searchTasks _ _ _ _ _ _ _ s1 f1) as [[[resp|tks] s2] f2] eqn:Etks.
  { apply searchTasks_error in Etks. destruct Etks as (code & msg & ->).
    discriminate. }
  unfold response, ret. cbn [fst]. intros E. injection E as E.
  exists start, end_, evs, tks, s1, f1, s2, f2.
  split; [reflexivity|]. split; [reflexivity|].
  split; [exact Eevs|]. split; [exact Etks|]. now symmetry.
Qed.

(** X20. Nothing slips past the filters of a search: whichever
    statements fail, when SearchHandler answers 200 on a store with
    distinct event ids, every result is of a kind the type asks for, is
    drawn from the store (a stored event with its tasks, or a stored task
    with the stored event it refers to), and passes every filter of the
    request: the trimmed keyword occurs in a title or description, the
    event's date is within the given bounds (the end bound being the parsed
    end plus 23h59m59s), and the caller is the organizer or holds an
    attendee row when a role is given. *)
Theorem Search_results_within_filters (c : SearchContext) s f userID rs :
  NoDup (map Event_ID (events s)) ->
  getUserIDFromContext (Search_Context c) = Some userID ->
  response (SearchHandler c s f)
  = {| Code := http.StatusOK; Payload := JResults rs |} ->
  let req := bindSearchRequest c in
  exists start end_,
    searchStart req = Some start
    /\ searchEnd req = Some end_
    /\ forall r,
        In r rs ->
        typeAdmits (effectiveType req) r
        /\ drawnFrom s r
        /\ withinFilters s (strings.TrimSpace (SearchRequest_Keyword req))
             (SearchRequest_Role req) start end_ userID r.
Proof.
  intros Hnd Hu Hresp. cbv zeta.
  destruct (SearchHandler_answer c s f userID rs Hu Hresp)
    as (start & end_ & evs & tks & s1 & f1 & s2 & f2
        & Hstart & Hend & Eevs & Etks & ->).
  exists start, end_. split; [exact Hstart|]. split; [exact Hend|].
  assert (s1 = s) as ->.
  { pose proof (f_equal store Eevs) as Hs1.
    rewrite searchEvents_store in Hs1. symmetry. exact Hs1. }
  intros r Hr. apply in_app_or in Hr. destruct Hr as [Hr|Hr].
  - apply (searchEvents_members _ _ _ _ _ _ _ _ _ _ _ Eevs) in Hr.
    destruct Hr as (Hty & e0 & -> & He0 & Hconds).
    split; [|split; [|exact Hconds]].
    + unfold typeAdmits. simpl. tauto.
    + exists e0. split; [exact He0 | reflexivity].
  - destruct (searchTasks_members _ _ _ _ _ _ _ _ _ _ _ Hnd Etks) as [Hsound _].
    destruct (Hsound r Hr) as (Hty & t & e & -> & Hdrawn & Hconds).
    split; [|split; [exact Hdrawn | exact Hconds]].
    unfold typeAdmits. simpl. tauto.
Qed.

Lemma Search_results_within_filters_witness :
  exists start end_,
    searchStart (searchFor " venue " "2024-06-01" "2024-06-01" "organizer" "")
    = Some start
    /\ searchEnd (searchFor " venue " "2024-06-01" "2024-06-01" "organizer" "")
       = Some end_
    /\ forall r,
        In r [TaskResult venueTask offsiteEvent] ->
        typeAdmits "both" r
        /\ drawnFrom venueStore r
        /\ withinFilters venueStore "venue" "organizer" start end_ 1 r.
Proof.
  assert (NoDup (map Event_ID (events venueStore))) as Hnd by concrete_NoDup.
  exact (Search_results_within_filters
           (getSearch 1 (searchFor " venue " "2024-06-01" "2024-06-01" "organizer" ""))
           venueStore [] 1 [TaskResult venueTask offsiteEvent] Hnd eq_refl eq_refl).
Defined.

Lemma wellFormedSearch_parsed (c : SearchContext) userID start end_ :
  getUserIDFromContext (Search_Context c) = Some userID ->
  searchStart (bindSearchRequest c) = Some start ->
  searchEnd (bindSearchRequest c) = Some end_ ->
  SearchRequest_Role (bindSearchRequest c) = ""
  \/ SearchRequest_Role (bindSearchRequest c) = "organizer"
  \/ SearchRequest_Role (bindSearchRequest c) = "attendee" ->
  wellFormedSearch c.
Proof.
  intros Hu Hstart Hend Hrole. unfold wellFormedSearch. cbv zeta.
  split; [rewrite Hu; discriminate|].
  split; [|split; [|exact Hrole]].
  - unfold searchStart, isEmpty in Hstart.
    destruct (String.eqb_spec (SearchRequest_StartDate (bindSearchRequest c)) "");
      [now left|].
    right. rewrite Hstart. discriminate.
  - unfold searchEnd, isEmpty, parseEndDate in Hend.
    destruct (String.eqb_spec (SearchRequest_EndDate (bindSearchRequest c)) "");
      [now left|].
    right. destruct (parseEitherDate _); discriminate.
Qed.

(** X21. A search misses nothing: on a store with distinct event ids,
    for a known caller, dates that are absent or parse, a role that is
    absent, organizer or attendee, and no failing statement, SearchHandler
    answers 200 and its results include every stored event (with its tasks)
    and every stored task (with the stored event it refers to) that is of a
    kind the type asks for and passes the filters of the request. *)
Theorem Search_finds_every_match (c : SearchContext) s f userID start end_ :
  NoDup (map Event_ID (events s)) ->
  getUserIDFromContext (Search_Context c) = Some userID ->
  searchStart (bindSearchRequest c) = Some start ->
  searchEnd (bindSearchRequest c) = Some end_ ->
  SearchRequest_Role (bindSearchRequest c) = ""
  \/ SearchRequest_Role (bindSearchRequest c) = "organizer"
  \/ SearchRequest_Role (bindSearchRequest c) = "attendee" ->
  fault_free f ->
  let req := bindSearchRequest c in
  exists rs,
    response (SearchHandler c s f)
    = {| Code := http.StatusOK; Payload := JResults rs |}
    /\ forall r,
        typeAdmits (effectiveType req) r ->
        drawnFrom s r ->
        withinFilters s (strings.TrimSpace (SearchRequest_Keyword req))
          (SearchRequest_Role req) start end_ userID r ->
        In r rs.
Proof.
  intros Hnd Hu Hstart Hend Hrole Hf. cbv zeta.
  destruct (Search_returns_results c s f
              (wellFormedSearch_parsed c userID start end_ Hu Hstart Hend Hrole) Hf)
    as (rs & Hresp & _).
  exists rs. split; [exact Hresp|].
  destruct (SearchHandler_answer c s f userID rs Hu Hresp)
    as (start' & end' & evs & tks & s1 & f1 & s2 & f2
        & Hstart' & Hend' & Eevs & Etks & ->).
  assert (start' = start) as -> by congruence.
  assert (end' = end_) as -> by congruence.
  assert (s1 = s) as ->.
  { pose proof (f_equal store Eevs) as Hs1.
    rewrite searchEvents_store in Hs1. symmetry. exact Hs1. }
  pose proof (searchEvents_schedule _ _ _ _ _ _ _ _ _ _ _ _ Eevs Hf) as Hf1.
  intros [e|t e] Hty Hdrawn Hconds; apply in_or_app.
  - left. apply (searchEvents_members _ _ _ _ _ _ _ _ _ _ _ Eevs).
    destruct Hdrawn as (e0 & He0 & ->).
    split; [unfold typeAdmits in Hty; simpl in Hty; tauto|].
    exists e0. split; [reflexivity|]. split; [exact He0 | exact Hconds].
  - right.
    destruct (searchTasks_members _ _ _ _ _ _ _ _ _ _ _ Hnd Etks) as [_ Hcomplete].
    apply (Hcomplete Hf1 t e); [|exact Hdrawn | exact Hconds].
    unfold typeAdmits in Hty. simpl in Hty. tauto.
Qed.

Lemma Search_finds_every_match_witness :
  exists rs,
    response (SearchHandler (getSearch 1 (searchFor "off" "2024-06-01" "" "" ""))
                venueStore [])
    = {| Code := http.StatusOK; Payload := JResults rs |}
    /\ forall r,
        typeAdmits "both" r ->
        drawnFrom venueStore r ->
        withinFilters venueStore "off" "" 63852796800000000000 time.zero 1 r ->
        In r rs.
Proof.
  assert (NoDup (map Event_ID (events venueStore))) as Hnd by concrete_NoDup.
  exact (Search_finds_every_match
           (getSearch 1 (searchFor "off" "2024-06-01" "" "" ""))
           venueStore [] 1 63852796800000000000 time.zero Hnd
           eq_refl eq_refl eq_refl (or_introl eq_refl) fault_free_nil).
Defined.

(* ------------------------------------------------------------------ *)
(** ** Search: the checks before the queries *)

(** X22. SearchHandler checks the request before it queries: for a
    known caller, a start date that is given but in neither accepted form
    is answered 400 "invalid start_date format"; failing that, such an end
    date 400 "invalid end_date format"; failing that, a role other than
    organizer or attendee, with a type among both, event and task, 400
    "role must be 'organizer' or 'attendee'".  In each case no statement is
    run: store and schedule are as before. *)
Theorem Search_rejects_malformed (c : SearchContext) s f userID :
  getUserIDFromContext (Search_Context c) = Some userID ->
  let req := bindSearchRequest c in
  (searchStart req = None ->
   SearchHandler c s f
   = (jsonError http.StatusBadRequest "invalid start_date format", s, f))
  /\ (searchStart req <> None -> searchEnd req = None ->
      SearchHandler c s f
      = (jsonError http.StatusBadRequest "invalid end_date format", s, f))
  /\ (searchStart req <> None -> searchEnd req <> None ->
      SearchRequest_Role req <> "" ->
      SearchRequest_Role req <> "organizer" ->
      SearchRequest_Role req <> "attendee" ->
      effectiveType req = "both" \/ effectiveType req = "event"
      \/ effectiveType req = "task" ->
      SearchHandler c s f
      = (jsonError http.StatusBadRequest "role must be 'organizer' or 'attendee'",
         s, f)).
Proof.
  intros Hu. cbv zeta. unfold SearchHandler. rewrite Hu. cbv zeta.
  fold (effectiveType (bindSearchRequest c)).
  fold (searchStart (bindSearchRequest c)).
  fold (searchEnd (bindSearchRequest c)).
  split; [intros ->; reflexivity|]. split.
  { intros Hstart ->.
    destruct (searchStart (bindSearchRequest c)); [reflexivity | contradiction]. }
  intros Hstart Hend Hr1 Hr2 Hr3 Hty.
  destruct (searchStart (bindSearchRequest c)) as [start|]; [|contradiction].
  destruct (searchEnd (bindSearchRequest c)) as [end_|]; [|contradiction].
  assert (forall A (event : A -> Event),
             roleClause (SearchRequest_Role (bindSearchRequest c)) userID event
             = None) as Hnone.
  { intros A event. unfold roleClause, isEmpty.
    apply String.eqb_neq in Hr1, Hr2, Hr3. now rewrite Hr1, Hr2, Hr3. }
  unfold bind, searchEvents, searchTasks. rewrite !Hnone.
  destruct Hty as [-> | [-> | ->]]; reflexivity.
Qed.

Lemma Search_rejects_malformed_witness :
  SearchHandler (getSearch 1 (searchFor "" "2024-06-01" "" "guest" "task"))
    venueStore [Some "connection lost"]
  = (jsonError http.StatusBadRequest "role must be 'organizer' or 'attendee'",
     venueStore, [Some "connection lost"]).
Proof.
  assert (searchStart (bindSearchRequest
                         (getSearch 1 (searchFor "" "2024-06-01" "" "guest" "task")))
          <> None) as H1 by discriminate.
  assert (searchEnd (bindSearchRequest
                       (getSearch 1 (searchFor "" "2024-06-01" "" "guest" "task")))
          <> None) as H2 by discriminate.
  assert (SearchRequest_Role
            (bindSearchRequest
               (getSearch 1 (searchFor "" "2024-06-01" "" "guest" "task"))) <> "")
    as H3 by discriminate.
  assert (SearchRequest_Role
            (bindSearchRequest
               (getSearch 1 (searchFor "" "2024-06-01" "" "guest" "task")))
          <> "organizer") as H4 by discriminate.
  assert (SearchRequest_Role
            (bindSearchRequest
               (getSearch 1 (searchFor "" "2024-06-01" "" "guest" "task")))
          <> "attendee") as H5 by discriminate.
  exact (proj2 (proj2 (Search_rejects_malformed
                         (getSearch 1 (searchFor "" "2024-06-01" "" "guest" "task"))
                         venueStore [Some "connection lost"] 1 eq_refl))
           H1 H2 H3 H4 H5 (or_intror (or_intror eq_refl))).
Defined.

(* ------------------------------------------------------------------ *)
(** ** An error answer and the store *)

Lemma Create_error_store {A} (T : Table A) (a : A) s f :
  exists r s' f',
    Create T a s f = (r, s', f')
    /\ match r with inl _ => s' = s | inr _ => True end.
Proof.
  unfold Create, exec. destruct (next_fault f) as [[msg|] f'].
  - now exists (inl (ErrDB msg)), s, f'.
  - destruct (pk T a =? 0)%N; [do 3 eexists; split; [reflexivity | exact I]|].
    destruct (existsb _ _); do 3 eexists; split; try reflexivity; exact I.
Qed.

Lemma Save_error_store {A} (T : Table A) (a : A) s f :
  exists r s' f',
    Save T a s f = (r, s', f')
    /\ match r with inl _ => s' = s | inr _ => True end.
Proof.
  unfold Save. destruct (pk T a =? 0)%N; [apply Create_error_store|].
  unfold exec. destruct (next_fault f) as [[msg|] f'].
  - now exists (inl (ErrDB msg)), s, f'.
  - destruct (existsb _ _); do 3 eexists; split; try reflexivity; exact I.
Qed.

Lemma Transaction_error_store (fc : DB (Result unit)) s f :
  exists r s' f',
    Transaction fc s f = (r, s', f')
    /\ match r with inl _ => s' = s | inr _ => True end.
Proof.
  unfold Transaction, exec. destruct (next_fault f) as [[msg|] f1].
  { now exists (inl (ErrDB msg)), s, f1. }
  destruct (fc s f1) as [[[e|u] s2] f2].
  { now exists (inl e), s, f2. }
  destruct (next_fault f2) as [[msg|] f3].
  - now exists (inl (ErrDB msg)), s, f3.
  - do 3 eexists. split; [reflexivity | exact I].
Qed.

Lemma InviteUser_error_unchanged (c : Context InviteRequest) s f :
  exists resp s' f',
    InviteUser c s f = (resp, s', f')
    /\ (s' = s \/ Code resp = http.StatusOK).
Proof.
  unfold InviteUser.
  destruct (getUserIDFromContext c) as [userID|];
    [|do 3 eexists; split; [reflexivity | now left]].
  destruct (strconv.ParseUint (Param_id c)) as [eventID|];
    [|do 3 eexists; split; [reflexivity | now left]].
  destruct (ShouldBindJSON c validateInviteRequest) as [err|body];
    [do 3 eexists; split; [reflexivity | now left]|].
  unfold bind at 1.
  destruct (First_cases Events (fun e => (Event_ID e =? eventID)%N) s f)
    as [(msg & f1 & E & _)|(f1 & E & _)]; rewrite E; clear E;
    [do 3 eexists; split; [reflexivity | now left]|].
  destruct (first_by_pk Events _) as [ev|];
    [|do 3 eexists; split; [reflexivity | now left]].
  destruct (negb _); [do 3 eexists; split; [reflexivity | now left]|].
  unfold bind at 1.
  destruct (First_cases Users
              (fun u => (User_ID u =? InviteRequest_UserID body)%N) s f1)
    as [(msg & f2 & E & _)|(f2 & E & _)]; rewrite E; clear E;
    [do 3 eexists; split; [reflexivity | now left]|].
  destruct (first_by_pk Users _) as [invitee|];
    [|do 3 eexists; split; [reflexivity | now left]].
  destruct (_ =? _)%N; [do 3 eexists; split; [reflexivity | now left]|].
  unfold bind at 1.
  match goal with |- context [First EventAttendees ?cond s f2] =>
    destruct (First_cases EventAttendees cond s f2)
      as [(msg & f3 & E & _)|(f3 & E & _)]; rewrite E; clear E;
      [do 3 eexists; split; [reflexivity | now left]|]
  end.
  destruct (first_by_pk EventAttendees _) as [existing|];
    [do 3 eexists; split; [reflexivity | now left]|].
  unfold bind.
  match goal with |- context [Create ?T ?a s f3] =>
    destruct (Create_error_store T a s f3) as (r & s' & f4 & E & H);
    rewrite E; clear E
  end.
  destruct r; do 3 eexists; (split; [reflexivity|]); [now left | now right].
Qed.

Lemma CreateTask_error_unchanged (c : Context CreateTaskRequest) s f :
  exists resp s' f',
    CreateTask c s f = (resp, s', f')
    /\ (s' = s \/ Code resp = http.StatusCreated).
Proof.
  unfold CreateTask.
  destruct (getUserIDFromContext c) as [userID|];
    [|do 3 eexists; split; [reflexivity | now left]].
  destruct (strconv.ParseUint (Param_id c)) as [eventID|];
    [|do 3 eexists; split; [reflexivity | now left]].
  unfold bind at 1.
  destruct (First_cases Events (fun e => (Event_ID e =? eventID)%N) s f)
    as [(msg & f1 & E & _)|(f1 & E & _)]; rewrite E; clear E;
    [do 3 eexists; split; [reflexivity | now left]|].
  destruct (first_by_pk Events _) as [ev|];
    [|do 3 eexists; split; [reflexivity | now left]].
  destruct (negb _); [do 3 eexists; split; [reflexivity | now left]|].
  destruct (ShouldBindJSON c validateCreateTaskRequest) as [err|body];
    [do 3 eexists; split; [reflexivity | now left]|].
  unfold bind.
  match goal with |- context [Create ?T ?a s f1] =>
    destruct (Create_error_store T a s f1) as (r & s' & f2 & E & H);
    rewrite E; clear E
  end.
  destruct r; do 3 eexists; (split; [reflexivity|]); [now left | now right].
Qed.

Lemma SetAttendance_error_unchanged (c : Context AttendanceRequest) s f :
  exists resp s' f',
    SetAttendance c s f = (resp, s', f')
    /\ (s' = s \/ Code resp = http.StatusOK).
Proof.
  unfold SetAttendance.
  destruct (getUserIDFromContext c) as [userID|];
    [|do 3 eexists; split; [reflexivity | now left]].
  destruct (strconv.ParseUint (Param_id c)) as [eventID|];
    [|do 3 eexists; split; [reflexivity | now left]].
  destruct (ShouldBindJSON c validateAttendanceRequest) as [err|body];
    [do 3 eexists; split; [reflexivity | now left]|].
  cbv zeta. destruct (negb _); [do 3 eexists; split; [reflexivity | now left]|].
  unfold bind at 1.
  destruct (First_cases Events (fun e => (Event_ID e =? eventID)%N) s f)
    as [(msg & f1 & E & _)|(f1 & E & _)]; rewrite E; clear E;
    [do 3 eexists; split; [reflexivity | now left]|].
  destruct (first_by_pk Events _) as [ev|];
    [|do 3 eexists; split; [reflexivity | now left]].
  unfold bind at 1.
  match goal with |- context [First EventAttendees ?cond s f1] =>
    destruct (First_cases EventAttendees cond s f1)
      as [(msg & f2 & E & _)|(f2 & E & _)]; rewrite E; clear E;
      [do 3 eexists; split; [reflexivity | now left]|]
  end.
  unfold bind.
  destruct (first_by_pk EventAttendees _) as [existing|].
  - match goal with |- context [Save ?T ?a s f2] =>
      destruct (Save_error_store T a s f2) as (r & s' & f3 & E & H);
      rewrite E; clear E
    end.
    destruct r; do 3 eexists; (split; [reflexivity|]); [now left | now right].
  - match goal with |- context [Create ?T ?a s f2] =>
      destruct (Create_error_store T a s f2) as (r & s' & f3 & E & H);
      rewrite E; clear E
    end.
    destruct r; do 3 eexists; (split; [reflexivity|]); [now left | now right].
Qed.

Lemma DeleteEvent_error_unchanged (c : Context unit) s f :
  exists resp s' f',
    DeleteEvent c s f = (resp, s', f')
    /\ (s' = s \/ Code resp = http.StatusOK).
Proof.
  unfold DeleteEvent.
  destruct (getUserIDFromContext c) as [userID|];
    [|do 3 eexists; split; [reflexivity | now left]].
  cbv zeta.
  destruct (isEmpty (Param_id c)); [do 3 eexists; split; [reflexivity | now left]|].
  destruct (strconv.Atoi (Param_id c)) as [id|];
    [|do 3 eexists; split; [reflexivity | now left]].
  unfold bind at 1.
  destruct (First_cases Events (fun e => Z.of_N (Event_ID e) =? id) s f)
    as [(msg & f1 & E & _)|(f1 & E & _)]; rewrite E; clear E;
    [do 3 eexists; split; [reflexivity | now left]|].
  destruct (first_by_pk Events _) as [ev|];
    [|do 3 eexists; split; [reflexivity | now left]].
  destruct (negb _); [do 3 eexists; split; [reflexivity | now left]|].
  unfold bind at 1.
  match goal with |- context [Transaction ?fc s f1] =>
    destruct (Transaction_error_store fc s f1) as (r & s' & f2 & E & H);
    rewrite E; clear E
  end.
  destruct r; do 3 eexists; (split; [reflexivity|]); [now left | now right].
Qed.

(** X23. Outside POST /events, an error answer means nothing was
    written: for DeleteEvent, InviteUser, SetAttendance and CreateTask,
    whichever statements fail, a response with a status of 400 or more
    leaves the store exactly as it was. *)
Theorem error_answer_keeps_store (r : Request) s f :
  (forall c, r <> PostEvents c) ->
  http.StatusBadRequest <= Code (response (handle r s f)) ->
  store (handle r s f) = s.
Proof.
  intros Hr. destruct r as [c|c|c|c|c]; simpl.
  - now destruct (Hr c).
  - destruct (DeleteEvent_error_unchanged c s f)
      as (resp & s' & f' & -> & [-> | H]); [reflexivity|].
    unfold response. simpl. rewrite H. intros Hcode. exfalso.
    now apply Hcode.
  - destruct (InviteUser_error_unchanged c s f)
      as (resp & s' & f' & -> & [-> | H]); [reflexivity|].
    unfold response. simpl. rewrite H. intros Hcode. exfalso.
    now apply Hcode.
  - destruct (SetAttendance_error_unchanged c s f)
      as (resp & s' & f' & -> & [-> | H]); [reflexivity|].
    unfold response. simpl. rewrite H. intros Hcode. exfalso.
    now apply Hcode.
  - destruct (CreateTask_error_unchanged c s f)
      as (resp & s' & f' & -> & [-> | H]); [reflexivity|].
    unfold response. simpl. rewrite H. intros Hcode. exfalso.
    now apply Hcode.
Qed.

Lemma error_answer_keeps_store_witness :
  store (handle (PostEventsIdInvite
                   (authenticated 2 "1" {| InviteRequest_UserID := 2 |}))
           offsiteStore [])
  = offsiteStore.
Proof.
  assert (forall c,
             PostEventsIdInvite
               (authenticated 2 "1" {| InviteRequest_UserID := 2 |})
             <> PostEvents c) as Hr by discriminate.
  assert (http.StatusBadRequest
          <= Code (response
                     (handle (PostEventsIdInvite
                                (authenticated 2 "1" {| InviteRequest_UserID := 2 |}))
                        offsiteStore []))) as Hcode by (vm_compute; discriminate).
  exact (error_answer_keeps_store _ offsiteStore [] Hr Hcode).
Defined.

(* ------------------------------------------------------------------ *)
(** ** Event ids over time *)

Lemma freshStore_reachable : reachable freshStore.
Proof.
  apply reachable_initial. unfold initial. simpl. repeat split; lia.
Qed.

Lemma evolves_reachable s s' : reachable s -> evolves s s' -> reachable s'.
Proof.
  intros Hs. induction 1 as [|s' r f _ IH|s' us seq _ IH].
  - exact Hs.
  - now apply reachable_handle.
  - now apply reachable_users.
Qed.

Lemma effect_events s faulty s' :
  effect s faulty s' ->
  (events_id_seq s <= events_id_seq s')%N
  /\ forall e, In e (events s') ->
               In e (events s)
               \/ (Event_ID e = events_id_seq s
                   /\ events_id_seq s < events_id_seq s')%N.
Proof.
  destruct 1; simpl; (split; [lia|]); intros e He; auto.
  - apply in_app_or in He. destruct He as [He|[<-|[]]]; [now left|].
    right. simpl. split; [reflexivity | lia].
  - apply in_app_or in He. destruct He as [He|[<-|[]]]; [now left|].
    right. simpl. split; [reflexivity | lia].
  - apply filter_In in He. now left.
Qed.

(** X24. Event ids are never reused and stored events never change:
    starting from a reachable store, after any number of requests
    (whichever statements fail), the event sequence has not gone back; every
    event then stored either was stored before, unchanged, or carries an id
    issued since; so an id below the sequence that names no event (a deleted
    one) names none ever after. *)
Theorem event_ids_never_reused s s' :
  reachable s -> evolves s s' ->
  (events_id_seq s <= events_id_seq s')%N
  /\ (forall e, In e (events s') ->
                In e (events s)
                \/ (events_id_seq s <= Event_ID e < events_id_seq s')%N)
  /\ (forall id, (id < events_id_seq s)%N ->
                 ~ eventStored s id -> ~ eventStored s' id).
Proof.
  intros Hs Hev.
  assert ((events_id_seq s <= events_id_seq s')%N
          /\ forall e, In e (events s') ->
                       In e (events s)
                       \/ (events_id_seq s <= Event_ID e < events_id_seq s')%N)
    as [Hseq Hin].
  { induction Hev as [|s' r f Hev [IHseq IHin]|s' us seq Hev IH].
    - split; [lia | auto].
    - pose proof (reachable_consistent s' (evolves_reachable s s' Hs Hev)) as Hs'.
      destruct (handle_effect r s' f Hs') as (faulty & Heff & _).
      apply effect_events in Heff. destruct Heff as [Hseq' Hin'].
      split; [lia|]. intros e He. destruct (Hin' e He) as [Hold|[Hid Hlt]].
      + destruct (IHin e Hold) as [H|H]; [now left | right; lia].
      + right. lia.
    - exact IH. }
  split; [exact Hseq|]. split; [exact Hin|].
  intros id Hlt Hgone (e & He & Hid). destruct (Hin e He) as [Hold|Hnew].
  - apply Hgone. exists e. split; assumption.
  - lia.
Qed.

Lemma event_ids_never_reused_witness :
  (events_id_seq freshStore <= events_id_seq venueStore)%N
  /\ (forall e, In e (events venueStore) ->
                In e (events freshStore)
                \/ (events_id_seq freshStore <= Event_ID e
                    < events_id_seq venueStore)%N)
  /\ (forall id, (id < events_id_seq freshStore)%N ->
                 ~ eventStored freshStore id -> ~ eventStored venueStore id).
Proof.
  exact (event_ids_never_reused freshStore venueStore freshStore_reachable
           (evolves_handle freshStore _
              (PostEventsIdTasks
                 (authenticated 1 "1"
                    {| CreateTaskRequest_Title := "Book venue";
                       CreateTaskRequest_Description := "" |})) []
              (evolves_handle freshStore _
                 (PostEvents (authenticated 1 "" (offsiteRequest "2024-06-01"))) []
                 (evolves_here freshStore)))).
Defined.

(* ------------------------------------------------------------------ *)
(** ** CreateEvent, then DeleteEvent *)

Lemma event_lookup_int s ev :
  NoDup (map Event_ID (events s)) -> In ev (events s) ->
  first_by_pk Events
    (filter (fun e => Z.of_N (Event_ID e) =? Z.of_N (Event_ID ev)) (events s))
  = Some ev.
Proof.
  intros Hnd Hin.
  rewrite (filter_ext _ (fun e => (Event_ID e =? Event_ID ev)%N)).
  - exact (event_lookup_unique s ev Hnd Hin).
  - intros e. destruct (N.eqb_spec (Event_ID e) (Event_ID ev)) as [->|Hne].
    + apply Z.eqb_refl.
    + apply Z.eqb_neq. intros E. apply Hne. now apply N2Z.inj.
Qed.

Lemma DeleteEvent_deletes (c : Context unit) s f ev :
  NoDup (map Event_ID (events s)) ->
  In ev (events s) ->
  getUserIDFromContext c = Some (Event_OrganizerID ev) ->
  strconv.Atoi (Param_id c) = Some (Z.of_N (Event_ID ev)) ->
  fault_free f ->
  exists f',
    DeleteEvent c s f
    = ({| Code := http.StatusOK; Payload := JMessage "event deleted" |},
       set_rows Events
         (filter (fun e => negb (Event_ID e =? Event_ID ev)%N) (events s))
         (set_rows Tasks
            (filter (fun t => negb (Task_EventID t =? Event_ID ev)%N) (tasks s))
            (set_rows EventAttendees
               (filter (fun a => negb (EventAttendee_EventID a =? Event_ID ev)%N)
                       (event_attendees s)) s)), f').
Proof.
  intros Hnd Hin Hu Hp Hf. unfold DeleteEvent. rewrite Hu. cbv zeta.
  rewrite (Atoi_nonempty _ _ Hp), Hp. unfold bind at 1.
  destruct (First_fault_free Events
              (fun e => Z.of_N (Event_ID e) =? Z.of_N (Event_ID ev)) s f Hf)
    as (f1 & E & Hf1); rewrite E; clear E.
  change (rows Events s) with (events s).
  rewrite (event_lookup_int s ev Hnd Hin), N.eqb_refl. cbn [negb].
  unfold bind, Transaction, Delete, ret.
  repeat match goal with
         | H : fault_free ?f0 |- context [exec ?q ?s0 ?f0] =>
             let f' := fresh "f" in
             let E := fresh "E" in
             let H' := fresh "Hf" in
             destruct (exec_fault_free q s0 f0 H) as (f' & E & H');
             rewrite E; clear E; cbn [fst snd]; cbv beta iota
         end.
  eexists. reflexivity.
Qed.

Lemma filter_all {A} (p : A -> bool) l :
  (forall x, In x l -> p x = true) -> filter p l = l.
Proof.
  induction l as [|a l IH]; intros H; simpl; [reflexivity|].
  rewrite (H a (or_introl eq_refl)). f_equal. apply IH.
  intros x Hx. apply H. now right.
Qed.

(** X25. Deleting a new event undoes its creation, but for the
    sequences: in a reachable store, when a caller creates an event and then
    deletes the event of the id just issued (no statement failing), the
    deletion answers 200 "event deleted" and the rows of events, attendance,
    tasks and users are exactly what they were before the creation; the
    sequences of events and attendance stay advanced by one. *)
Theorem CreateEvent_then_DeleteEvent
        (c : Context CreateEventRequest) (c' : Context unit)
        s f f2 userID body date :
  reachable s ->
  getUserIDFromContext c = Some userID ->
  Body c = inr body ->
  CreateEventRequest_Title body <> "" ->
  parseEitherDate (CreateEventRequest_Date body) = Some date ->
  fault_free f ->
  getUserIDFromContext c' = Some userID ->
  strconv.Atoi (Param_id c') = Some (Z.of_N (events_id_seq s)) ->
  fault_free f2 ->
  let created := store (CreateEvent c s f) in
  let out := DeleteEvent c' created f2 in
  response out = {| Code := http.StatusOK; Payload := JMessage "event deleted" |}
  /\ events (store out) = events s
  /\ event_attendees (store out) = event_attendees s
  /\ tasks (store out) = tasks s
  /\ users (store out) = users s
  /\ events_id_seq (store out) = (events_id_seq s + 1)%N
  /\ event_attendees_id_seq (store out) = (event_attendees_id_seq s + 1)%N.
Proof.
  intros Hreach Hu Hb Htitle Hdate Hf Hu' Hp' Hf2. cbv zeta.
  pose proof (reachable_consistent s Hreach) as Hs.
  destruct (CreateEvent_new c s f userID body date Hs Hu Hb Htitle Hdate Hf)
    as [f' E].
  pose proof (f_equal store E) as Hc. unfold store at 2 in Hc.
  cbn [fst snd] in Hc. rewrite Hc. clear E Hc.
  match goal with |- context [DeleteEvent c' ?s1 f2] => set (created := s1) end.
  set (ev := {| Event_ID := events_id_seq s;
                Event_Title := strings.TrimSpace (CreateEventRequest_Title body);
                Event_Description := CreateEventRequest_Description body;
                Event_Location := CreateEventRequest_Location body;
                Event_Date := date;
                Event_OrganizerID := userID;
                Event_Tasks := [] |}).
  assert (In ev (events created)) as Hin.
  { simpl. apply in_or_app. right. now left. }
  assert (forall e, In e (events s) ->
                    negb (Event_ID e =? events_id_seq s)%N = true) as Hold.
  { intros e He. apply negb_true_iff, N.eqb_neq.
    pose proof (events_below_seq s Hs e He). lia. }
  assert (NoDup (map Event_ID (events created))) as Hnd.
  { simpl. apply NoDup_map_snoc; [exact (events_pk s Hs)|].
    intros e He. pose proof (events_below_seq s Hs e He). simpl. lia. }
  destruct (DeleteEvent_deletes c' created f2 ev Hnd Hin Hu' Hp' Hf2) as (f3 & E2).
  rewrite E2. unfold store, response. cbn [fst snd]. simpl.
  split; [reflexivity|].
  split.
  { rewrite filter_app. simpl. rewrite N.eqb_refl. simpl.
    rewrite app_nil_r. now apply filter_all. }
  split.
  { rewrite filter_app. simpl. rewrite N.eqb_refl. simpl.
    rewrite app_nil_r. apply filter_all. intros a Ha.
    destruct (attendees_event s Hs a Ha) as (e & He & Hid).
    rewrite <- Hid. now apply Hold. }
  split.
  { apply filter_all. intros t Ht.
    destruct (tasks_event s Hs t Ht) as (e & He & Hid).
    rewrite <- Hid. now apply Hold. }
  repeat split.
Qed.

Lemma CreateEvent_then_DeleteEvent_witness :
  response (DeleteEvent (authenticated 1 "1" tt) offsiteStore [])
  = {| Code := http.StatusOK; Payload := JMessage "event deleted" |}
  /\ events (store (DeleteEvent (authenticated 1 "1" tt) offsiteStore []))
     = events freshStore
  /\ event_attendees (store (DeleteEvent (authenticated 1 "1" tt) offsiteStore []))
     = event_attendees freshStore
  /\ events_id_seq (store (DeleteEvent (authenticated 1 "1" tt) offsiteStore []))
     = 2%N.
Proof.
  assert (CreateEventRequest_Title (offsiteRequest "2024-06-01") <> "") as Hne
      by discriminate.
  destruct (CreateEvent_then_DeleteEvent
              (authenticated 1 "" (offsiteRequest "2024-06-01"))
              (authenticated 1 "1" tt) freshStore [] [] 1
              (offsiteRequest "2024-06-01") 63852796800000000000
              freshStore_reachable eq_refl eq_refl Hne eq_refl fault_free_nil
              eq_refl eq_refl fault_free_nil)
    as (H1 & H2 & H3 & _ & _ & H6 & _).
  split; [exact H1|]. split; [exact H2|]. split; [exact H3 | exact H6].
Defined.

(* ------------------------------------------------------------------ *)
(** ** Who can write what *)

Lemma InviteUser_writes (c : Context InviteRequest) s f :
  exists resp s' f',
    InviteUser c s f = (resp, s', f')
    /\ (s' = s
        \/ exists ev invitee,
            In ev (events s)
            /\ getUserIDFromContext c = Some (Event_OrganizerID ev)
            /\ strconv.ParseUint (Param_id c) = Some (Event_ID ev)
            /\ In invitee (users s)
            /\ s' = inserted EventAttendees
                      {| EventAttendee_ID := 0;
                         EventAttendee_EventID := Event_ID ev;
                         EventAttendee_UserID := User_ID invitee;
                         EventAttendee_Role := "attendee";
                         EventAttendee_Status := "" |} s).
Proof.
  unfold InviteUser.
  destruct (getUserIDFromContext c) as [userID|]; [|kept].
  destruct (strconv.ParseUint (Param_id c)) as [eventID|]; [|kept].
  destruct (ShouldBindJSON c validateInviteRequest) as [err|body]; [kept|].
  unfold bind at 1.
  destruct (First_cases Events (fun e => (Event_ID e =? eventID)%N) s f)
    as [(msg & f1 & E & _)|(f1 & E & _)]; rewrite E; clear E; [kept|].
  destruct (first_by_pk Events _) as [ev|] eqn:Eev; [|kept].
  apply first_by_pk_matches in Eev. destruct Eev as [Hev Hid].
  apply N.eqb_eq in Hid.
  destruct (N.eqb_spec (Event_OrganizerID ev) userID) as [Horg|]; [|kept].
  cbn [negb]. unfold bind at 1.
  destruct (First_cases Users
              (fun u => (User_ID u =? InviteRequest_UserID body)%N) s f1)
    as [(msg & f2 & E & _)|(f2 & E & _)]; rewrite E; clear E; [kept|].
  destruct (first_by_pk Users _) as [invitee|] eqn:Einv; [|kept].
  apply first_by_pk_matches in Einv. destruct Einv as [Hinv _].
  destruct (_ =? _)%N; [kept|].
  unfold bind at 1.
  match goal with |- context [First EventAttendees ?cond s f2] =>
    destruct (First_cases EventAttendees cond s f2)
      as [(msg & f3 & E & _)|(f3 & E & _)]; rewrite E; clear E; [kept|]
  end.
  destruct (first_by_pk EventAttendees _) as [existing|]; [kept|].
  unfold bind.
  match goal with |- context [Create EventAttendees ?a s f3] =>
    destruct (Create_cases EventAttendees a s f3 eq_refl)
      as [(msg & f4 & E & _)|(f4 & E & _)]; rewrite E; clear E; [kept|]
  end.
  do 3 eexists. split; [reflexivity|]. right. exists ev, invitee.
  subst userID eventID. repeat split; assumption.
Qed.

Lemma CreateTask_writes (c : Context CreateTaskRequest) s f :
  exists resp s' f',
    CreateTask c s f = (resp, s', f')
    /\ (s' = s
        \/ exists ev task,
            In ev (events s)
            /\ getUserIDFromContext c = Some (Event_OrganizerID ev)
            /\ strconv.ParseUint (Param_id c) = Some (Event_ID ev)
            /\ Task_ID task = 0%N
            /\ Task_EventID task = Event_ID ev
            /\ s' = inserted Tasks task s).
Proof.
  unfold CreateTask.
  destruct (getUserIDFromContext c) as [userID|]; [|kept].
  destruct (strconv.ParseUint (Param_id c)) as [eventID|]; [|kept].
  unfold bind at 1.
  destruct (First_cases Events (fun e => (Event_ID e =? eventID)%N) s f)
    as [(msg & f1 & E & _)|(f1 & E & _)]; rewrite E; clear E; [kept|].
  destruct (first_by_pk Events _) as [ev|] eqn:Eev; [|kept].
  apply first_by_pk_matches in Eev. destruct Eev as [Hev Hid].
  apply N.eqb_eq in Hid.
  destruct (N.eqb_spec (Event_OrganizerID ev) userID) as [Horg|]; [|kept].
  cbn [negb].
  destruct (ShouldBindJSON c validateCreateTaskRequest) as [err|body]; [kept|].
  unfold bind.
  match goal with |- context [Create Tasks ?a s f1] =>
    destruct (Create_cases Tasks a s f1 eq_refl)
      as [(msg & f2 & E & _)|(f2 & E & _)]; rewrite E; clear E; [kept|]
  end.
  do 3 eexists. split; [reflexivity|]. right. exists ev. eexists.
  subst userID eventID.
  split; [exact Hev|]. split; [reflexivity|]. split; [reflexivity|].
  split; [|split; [|reflexivity]]; reflexivity.
Qed.

Lemma SetAttendance_writes (c : Context AttendanceRequest) s f :
  consistent s ->
  exists resp s' f',
    SetAttendance c s f = (resp, s', f')
    /\ (s' = s
        \/ exists userID eventID status,
            getUserIDFromContext c = Some userID
            /\ strconv.ParseUint (Param_id c) = Some eventID
            /\ acceptedStatus status = true
            /\ ((exists att,
                    In att (event_attendees s)
                    /\ EventAttendee_EventID att = eventID
                    /\ EventAttendee_UserID att = userID
                    /\ s' = set_rows EventAttendees
                              (map (fun r =>
                                      if (EventAttendee_ID r
                                          =? EventAttendee_ID att)%N
                                      then withStatus att status else r)
                                   (event_attendees s)) s)
                \/ (attendanceOf s eventID userID = []
                    /\ s' = inserted EventAttendees
                              {| EventAttendee_ID := 0;
                                 EventAttendee_EventID := eventID;
                                 EventAttendee_UserID := userID;
                                 EventAttendee_Role := "attendee";
                                 EventAttendee_Status := status |} s))).
Proof.
  intros Hs. unfold SetAttendance.
  destruct (getUserIDFromContext c) as [userID|]; [|kept].
  destruct (strconv.ParseUint (Param_id c)) as [eventID|]; [|kept].
  destruct (ShouldBindJSON c validateAttendanceRequest) as [err|body]; [kept|].
  cbv zeta.
  destruct (acceptedStatus (normalize (AttendanceRequest_Status body))) eqn:Hacc;
    [|kept].
  cbn [negb]. unfold bind at 1.
  destruct (First_cases Events (fun e => (Event_ID e =? eventID)%N) s f)
    as [(msg & f1 & E & _)|(f1 & E & _)]; rewrite E; clear E; [kept|].
  destruct (first_by_pk Events _) as [ev|]; [|kept].
  unfold bind at 1.
  destruct (First_cases EventAttendees
              (fun a => (EventAttendee_EventID a =? eventID)%N
                        && (EventAttendee_UserID a =? userID)%N) s f1)
    as [(msg & f2 & E & _)|(f2 & E & _)]; rewrite E; clear E; [kept|].
  destruct (first_by_pk EventAttendees _) as [att|] eqn:Eatt.
  - apply first_by_pk_matches in Eatt. destruct Eatt as [Hatt Hc].
    apply andb_true_iff in Hc. destruct Hc as [Hc1 Hc2].
    apply N.eqb_eq in Hc1, Hc2.
    pose proof (attendees_below_seq s Hs att Hatt) as Hid_att.
    unfold bind, Save.
    replace (pk EventAttendees
               (withStatus att (normalize (AttendanceRequest_Status body)))
             =? 0)%N with false
      by (symmetry; apply N.eqb_neq; simpl; lia).
    unfold exec. destruct (next_fault f2) as [[msg|] f3]; [kept|].
    assert (existsb (fun r => (pk EventAttendees r
                               =? pk EventAttendees
                                    (withStatus att
                                       (normalize (AttendanceRequest_Status body))))%N)
                    (rows EventAttendees s) = true) as Htrue.
    { apply existsb_exists. exists att. split; [exact Hatt | apply N.eqb_refl]. }
    rewrite Htrue.
    do 3 eexists. split; [reflexivity|]. right.
    exists userID, eventID, (normalize (AttendanceRequest_Status body)).
    split; [reflexivity|]. split; [reflexivity|]. split; [exact Hacc|].
    left. exists att. repeat split; assumption.
  - unfold bind.
    match goal with |- context [Create EventAttendees ?a s f2] =>
      destruct (Create_cases EventAttendees a s f2 eq_refl)
        as [(msg & f3 & E & _)|(f3 & E & _)]; rewrite E; clear E; [kept|]
    end.
    do 3 eexists. split; [reflexivity|]. right.
    exists userID, eventID, (normalize (AttendanceRequest_Status body)).
    split; [reflexivity|]. split; [reflexivity|]. split; [exact Hacc|].
    right. split; [|reflexivity].
    unfold attendanceOf.
    destruct (filter _ (event_attendees s)) as [|a l] eqn:Efilter; [reflexivity|].
    exfalso.
    assert (In a (filter (fun a0 => (EventAttendee_EventID a0 =? eventID)%N
                                    && (EventAttendee_UserID a0 =? userID)%N)
                         (event_attendees s))) as Ha
        by (rewrite Efilter; now left).
    apply filter_In in Ha. destruct Ha as [Ha Hc].
    pose proof (first_by_pk_none_matches EventAttendees _ _ Eatt a Ha) as Hn.
    simpl in Hn. congruence.
Qed.

Lemma DeleteEvent_writes (c : Context unit) s f :
  exists resp s' f',
    DeleteEvent c s f = (resp, s', f')
    /\ (s' = s
        \/ exists ev,
            In ev (events s)
            /\ getUserIDFromContext c = Some (Event_OrganizerID ev)
            /\ strconv.Atoi (Param_id c) = Some (Z.of_N (Event_ID ev))
            /\ s' = set_rows Events
                      (filter (fun e => negb (Event_ID e =? Event_ID ev)%N)
                              (events s))
                      (set_rows Tasks
                         (filter (fun t => negb (Task_EventID t =? Event_ID ev)%N)
                                 (tasks s))
                         (set_rows EventAttendees
                            (filter (fun a =>
                                       negb (EventAttendee_EventID a
                                             =? Event_ID ev)%N)
                                    (event_attendees s)) s))).
Proof.
  unfold DeleteEvent.
  destruct (getUserIDFromContext c) as [userID|]; [|kept].
  cbv zeta. destruct (isEmpty (Param_id c)); [kept|].
  destruct (strconv.Atoi (Param_id c)) as [id|]; [|kept].
  unfold bind at 1.
  destruct (First_cases Events (fun e => Z.of_N (Event_ID e) =? id) s f)
    as [(msg & f1 & E & _)|(f1 & E & _)]; rewrite E; clear E; [kept|].
  destruct (first_by_pk Events _) as [ev|] eqn:Eev; [|kept].
  apply first_by_pk_matches in Eev. destruct Eev as [Hev Hid].
  apply Z.eqb_eq in Hid.
  destruct (N.eqb_spec (Event_OrganizerID ev) userID) as [Horg|]; [|kept].
  cbn [negb].
  unfold bind, Transaction, Delete, exec, ret.
  repeat match goal with
         | |- context [next_fault ?f0] =>
             let msg := fresh "msg" in
             let f' := fresh "f" in
             destruct (next_fault f0) as [[msg|] f']; cbv beta iota; [kept|]
         end.
  do 3 eexists. split; [reflexivity|]. right. exists ev.
  subst userID id. repeat split. exact Hev.
Qed.

Lemma CreateEvent_writes (c : Context CreateEventRequest) s f :
  consistent s ->
  exists resp s' f',
    CreateEvent c s f = (resp, s', f')
    /\ (s' = s
        \/ exists userID ev,
            getUserIDFromContext c = Some userID
            /\ Event_ID ev = 0%N
            /\ Event_OrganizerID ev = userID
            /\ (s' = inserted Events ev s
                \/ s' = inserted EventAttendees
                          {| EventAttendee_ID := 0;
                             EventAttendee_EventID := events_id_seq s;
                             EventAttendee_UserID := userID;
                             EventAttendee_Role := "organizer";
                             EventAttendee_Status := "" |}
                          (inserted Events ev s))).
Proof.
  intros Hs. unfold CreateEvent.
  destruct (getUserIDFromContext c) as [userID|]; [|kept].
  destruct (ShouldBindJSON c validateCreateEventRequest) as [err|body]; [kept|].
  destruct (parseEitherDate _) as [eventDate|]; [|kept].
  unfold bind at 1.
  match goal with |- context [Create Events ?ev s f] =>
    destruct (Create_cases Events ev s f eq_refl)
      as [(msg & f1 & E & _)|(f1 & E & _)]; rewrite E; clear E;
    [kept|]; set (event := ev) end.
  unfold bind, FirstOrCreate. unfold bind.
  match goal with |- context [First EventAttendees ?cond ?s1 f1] =>
    destruct (First_cases EventAttendees cond s1 f1)
      as [(msg & f2 & E & _)|(f2 & E & _)]; rewrite E; clear E end.
  { do 3 eexists. split; [reflexivity|]. right. exists userID, event.
    split; [reflexivity|]. split; [reflexivity|]. split; [reflexivity|].
    now left. }
  change (rows EventAttendees (inserted Events event s)) with (event_attendees s).
  change (Event_ID (set_pk Events (next_id Events s) event)) with (events_id_seq s).
  rewrite (no_attendance_of_fresh_event s userID Hs).
  match goal with |- context [Create EventAttendees ?a ?s1 f2] =>
    destruct (Create_cases EventAttendees a s1 f2 eq_refl)
      as [(msg & f3 & E & _)|(f3 & E & _)]; rewrite E; clear E end.
  { do 3 eexists. split; [reflexivity|]. right. exists userID, event.
    split; [reflexivity|]. split; [reflexivity|]. split; [reflexivity|].
    now left. }
  do 3 eexists. split; [reflexivity|]. right. exists userID, event.
  split; [reflexivity|]. split; [reflexivity|]. split; [reflexivity|].
  now right.
Qed.

Lemma nothing_removed s s' (P : Event -> Prop) (Q : Task -> Prop)
      (R : EventAttendee -> Prop) :
  (forall e, In e (events s) -> In e (events s')) ->
  (forall t, In t (tasks s) -> In t (tasks s')) ->
  (forall a, In a (event_attendees s) ->
             exists a', In a' (event_attendees s')
                        /\ EventAttendee_ID a' = EventAttendee_ID a) ->
  (forall e, In e (events s) -> ~ In e (events s') -> P e)
  /\ (forall t, In t (tasks s) -> ~ In t (tasks s') -> Q t)
  /\ (forall a, In a (event_attendees s) ->
                (forall a', In a' (event_attendees s') ->
                            EventAttendee_ID a' <> EventAttendee_ID a) ->
                R a).
Proof.
  intros He Ht Ha. split; [|split].
  - intros e Hin Hout. destruct (Hout (He e Hin)).
  - intros t Hin Hout. destruct (Hout (Ht t Hin)).
  - intros a Hin Hout. destruct (Ha a Hin) as (a' & Hin' & Hid).
    destruct (Hout a' Hin' Hid).
Qed.

(** X26. Rows disappear only when the organizer deletes the event: in a
    reachable store, whichever statements fail, if a request makes a stored
    event, a stored task or a stored attendance row (by id) disappear, then
    the request is a DeleteEvent sent by the organizer of that event, of the
    task's event or of the row's event. *)
Theorem rows_removed_only_by_organizer (r : Request) s f :
  reachable s ->
  let s' := store (handle r s f) in
  (forall e, In e (events s) -> ~ In e (events s') ->
             exists c,
               r = DeleteEventsId c
               /\ getUserIDFromContext c = Some (Event_OrganizerID e)
               /\ strconv.Atoi (Param_id c) = Some (Z.of_N (Event_ID e)))
  /\ (forall t, In t (tasks s) -> ~ In t (tasks s') ->
                exists c e,
                  r = DeleteEventsId c
                  /\ In e (events s) /\ Event_ID e = Task_EventID t
                  /\ getUserIDFromContext c = Some (Event_OrganizerID e))
  /\ (forall a, In a (event_attendees s) ->
                (forall a', In a' (event_attendees s') ->
                            EventAttendee_ID a' <> EventAttendee_ID a) ->
                exists c e,
                  r = DeleteEventsId c
                  /\ In e (events s) /\ Event_ID e = EventAttendee_EventID a
                  /\ getUserIDFromContext c = Some (Event_OrganizerID e)).
Proof.
  intros Hreach. cbv zeta.
  pose proof (reachable_consistent s Hreach) as Hs.
  destruct r as [c|c|c|c|c]; simpl handle.
  - destruct (CreateEvent_writes c s f Hs)
      as (resp & s1 & f1 & E & [-> | (userID & ev & _ & _ & _ & [-> | ->])]);
      rewrite E; unfold store; cbn [fst snd];
      apply nothing_removed; simpl; intros; eauto using in_or_app.
  - destruct (DeleteEvent_writes c s f)
      as (resp & s1 & f1 & E & [-> | (ev & Hev & Hu & Hp & ->)]);
      rewrite E; unfold store; cbn [fst snd].
    { apply nothing_removed; eauto. }
    simpl. split; [|split].
    + intros e He Hout. exists c. split; [reflexivity|].
      assert (Event_ID e = Event_ID ev) as Hid.
      { destruct (N.eqb_spec (Event_ID e) (Event_ID ev)) as [Heq|Hne];
          [exact Heq|].
        exfalso. apply Hout. apply filter_In. split; [exact He|].
        apply negb_true_iff. now apply N.eqb_neq. }
      assert (e = ev) as ->
          by exact (NoDup_map_inj Event_ID _ e ev (events_pk s Hs) He Hev Hid).
      split; assumption.
    + intros t Ht Hout. exists c, ev. split; [reflexivity|].
      split; [exact Hev|]. split; [|exact Hu].
      destruct (N.eqb_spec (Task_EventID t) (Event_ID ev)) as [Heq|Hne];
        [now symmetry|].
      exfalso. apply Hout. apply filter_In. split; [exact Ht|].
      apply negb_true_iff. now apply N.eqb_neq.
    + intros a Ha Hout. exists c, ev. split; [reflexivity|].
      split; [exact Hev|]. split; [|exact Hu].
      destruct (N.eqb_spec (EventAttendee_EventID a) (Event_ID ev)) as [Heq|Hne];
        [now symmetry|].
      exfalso. apply (Hout a); [|reflexivity]. apply filter_In.
      split; [exact Ha|]. apply negb_true_iff. now apply N.eqb_neq.
  - destruct (InviteUser_writes c s f)
      as (resp & s1 & f1 & E & [-> | (ev & invitee & _ & _ & _ & _ & ->)]);
      rewrite E; unfold store; cbn [fst snd];
      apply nothing_removed; simpl; intros; eauto using in_or_app.
  - destruct (SetAttendance_writes c s f Hs)
      as (resp & s1 & f1 & E
          & [-> | (userID & eventID & status & _ & _ & _
                   & [(att & _ & _ & _ & ->) | (_ & ->)])]);
      rewrite E; unfold store; cbn [fst snd];
      apply nothing_removed; simpl; intros; eauto using in_or_app.
    match goal with a : EventAttendee, H : In ?a (event_attendees s) |- _ =>
      destruct (EventAttendee_ID a =? EventAttendee_ID att)%N eqn:Eid;
      [exists (withStatus att status) | exists a];
      (split; [apply in_map_iff; exists a; now rewrite Eid|])
    end.
    + simpl. symmetry. now apply N.eqb_eq.
    + reflexivity.
  - destruct (CreateTask_writes c s f)
      as (resp & s1 & f1 & E & [-> | (ev & task & _ & _ & _ & _ & _ & ->)]);
      rewrite E; unfold store; cbn [fst snd];
      apply nothing_removed; simpl; intros; eauto using in_or_app.
Qed.

Lemma rows_removed_only_by_organizer_witness :
  exists c e,
    DeleteEventsId (authenticated 1 "1" tt) = DeleteEventsId c
    /\ In e (events venueStore) /\ Event_ID e = Task_EventID venueTask
    /\ getUserIDFromContext c = Some (Event_OrganizerID e).
Proof.
  assert (~ In venueTask
            (tasks (store (handle (DeleteEventsId (authenticated 1 "1" tt))
                             venueStore [])))) as Hout
      by (vm_compute; tauto).
  exact (proj1 (proj2 (rows_removed_only_by_organizer
                         (DeleteEventsId (authenticated 1 "1" tt)) venueStore []
                         (reachable_without_fault_reachable _ venueStore_reachable)))
           venueTask (or_introl eq_refl) Hout).
Defined.

(** X27. Rows appear or change only with authority: in a reachable
    store, whichever statements fail, a request that leaves an event that
    was not stored is a CreateEvent of the event's organizer; one that
    leaves a task that was not stored is a CreateTask sent by the organizer
    of the task's event; one that leaves an attendance row that was not
    stored as such (new, or changed) is a CreateEvent of the row's user, who
    gets role organizer, or an InviteUser sent by the organizer of the row's
    event, giving role attendee and empty status, or a SetAttendance of the
    row's user on the row's event. *)
Theorem rows_written_only_with_authority (r : Request) s f :
  reachable s ->
  let s' := store (handle r s f) in
  (forall e, In e (events s') -> ~ In e (events s) ->
             exists c,
               r = PostEvents c
               /\ getUserIDFromContext c = Some (Event_OrganizerID e))
  /\ (forall t, In t (tasks s') -> ~ In t (tasks s) ->
                exists c e,
                  r = PostEventsIdTasks c
                  /\ In e (events s) /\ Event_ID e = Task_EventID t
                  /\ getUserIDFromContext c = Some (Event_OrganizerID e))
  /\ (forall a, In a (event_attendees s') -> ~ In a (event_attendees s) ->
                (exists c,
                    r = PostEvents c
                    /\ getUserIDFromContext c = Some (EventAttendee_UserID a)
                    /\ EventAttendee_Role a = "organizer")
                \/ (exists c e,
                       r = PostEventsIdInvite c
                       /\ In e (events s)
                       /\ Event_ID e = EventAttendee_EventID a
                       /\ getUserIDFromContext c = Some (Event_OrganizerID e)
                       /\ EventAttendee_Role a = "attendee"
                       /\ EventAttendee_Status a = "")
                \/ (exists c,
                       r = PostEventsIdRespond c
                       /\ getUserIDFromContext c = Some (EventAttendee_UserID a)
                       /\ strconv.ParseUint (Param_id c)
                          = Some (EventAttendee_EventID a))).
Proof.
  intros Hreach. cbv zeta.
  pose proof (reachable_consistent s Hreach) as Hs.
  destruct r as [c|c|c|c|c]; simpl handle.
  - destruct (CreateEvent_writes c s f Hs)
      as (resp & s1 & f1 & E & [-> | (userID & ev & Hu & _ & Horg & [-> | ->])]);
      rewrite E; unfold store; cbn [fst snd]; simpl;
      (split; [|split]); intros x Hin Hout; try contradiction.
    + apply in_app_or in Hin. destruct Hin as [Hin|[<-|[]]]; [contradiction|].
      exists c. split; [reflexivity|]. simpl. now rewrite Horg.
    + apply in_app_or in Hin. destruct Hin as [Hin|[<-|[]]]; [contradiction|].
      exists c. split; [reflexivity|]. simpl. now rewrite Horg.
    + apply in_app_or in Hin. destruct Hin as [Hin|[<-|[]]]; [contradiction|].
      left. exists c. split; [reflexivity|]. split; [exact Hu | reflexivity].
  - destruct (DeleteEvent_writes c s f)
      as (resp & s1 & f1 & E & [-> | (ev & Hev & Hu & Hp & ->)]);
      rewrite E; unfold store; cbn [fst snd]; simpl;
      (split; [|split]); intros x Hin Hout; try contradiction;
      apply filter_In in Hin; destruct Hin as [Hin _]; contradiction.
  - destruct (InviteUser_writes c s f)
      as (resp & s1 & f1 & E & [-> | (ev & invitee & Hev & Hu & Hp & _ & ->)]);
      rewrite E; unfold store; cbn [fst snd]; simpl;
      (split; [|split]); intros x Hin Hout; try contradiction.
    apply in_app_or in Hin. destruct Hin as [Hin|[<-|[]]]; [contradiction|].
    right. left. exists c, ev. split; [reflexivity|]. split; [exact Hev|].
    split; [reflexivity|]. split; [exact Hu|]. split; reflexivity.
  - destruct (SetAttendance_writes c s f Hs)
      as (resp & s1 & f1 & E
          & [-> | (userID & eventID & status & Hu & Hp & _
                   & [(att & Hatt & HattE & HattU & ->) | (_ & ->)])]);
      rewrite E; unfold store; cbn [fst snd]; simpl;
      (split; [|split]); intros x Hin Hout; try contradiction.
    + apply in_map_iff in Hin. destruct Hin as (a0 & Ha0 & Hin).
      destruct (EventAttendee_ID a0 =? EventAttendee_ID att)%N;
        [|subst x; contradiction].
      subst x. right. right. exists c. split; [reflexivity|]. simpl.
      split; congruence.
    + apply in_app_or in Hin. destruct Hin as [Hin|[<-|[]]]; [contradiction|].
      right. right. exists c. split; [reflexivity|]. simpl.
      split; assumption.
  - destruct (CreateTask_writes c s f)
      as (resp & s1 & f1 & E
          & [-> | (ev & task & Hev & Hu & Hp & Hid & HtE & ->)]);
      rewrite E; unfold store; cbn [fst snd]; simpl;
      (split; [|split]); intros x Hin Hout; try contradiction.
    apply in_app_or in Hin. destruct Hin as [Hin|[<-|[]]]; [contradiction|].
    exists c, ev. split; [reflexivity|]. split; [exact Hev|].
    split; [|exact Hu]. destruct task; simpl in *. now symmetry.
Qed.

Lemma rows_written_only_with_authority_witness :
  exists c e,
    PostEventsIdTasks
      (authenticated 1 "1"
         {| CreateTaskRequest_Title := "Book venue";
            CreateTaskRequest_Description := "" |})
    = PostEventsIdTasks c
    /\ In e (events offsiteStore) /\ Event_ID e = Task_EventID venueTask
    /\ getUserIDFromContext c = Some (Event_OrganizerID e).
Proof.
  assert (~ In venueTask (tasks offsiteStore)) as Hout by (vm_compute; tauto).
  exact (proj1 (proj2 (rows_written_only_with_authority
                         (PostEventsIdTasks
                            (authenticated 1 "1"
                               {| CreateTaskRequest_Title := "Book venue";
                                  CreateTaskRequest_Description := "" |}))
                         offsiteStore []
                         (reachable_without_fault_reachable _ offsiteStore_reachable)))
           venueTask (or_introl eq_refl) Hout).
Defined.

(* ------------------------------------------------------------------ *)
(** ** After a deletion *)

Lemma filter_filter_negb {A} (p q : A -> bool) l :
  (forall x, p x = true -> q x = true) ->
  filter p (filter (fun x => negb (q x)) l) = [].
Proof.
  intros H. apply filter_none. intros x Hx. apply filter_In in Hx.
  destruct Hx as [_ Hq]. destruct (p x) eqn:E; [|reflexivity].
  rewrite (H x E) in Hq. discriminate.
Qed.

(** X28. A deleted event is no longer served: on a store with distinct
    event ids, once the organizer's DeleteEvent has gone through (no
    statement failing), later requests that name the event's id find
    nothing: GetEventAttendees answers 404 "event not found" to any caller,
    GetTasksByEvent answers 200 with an empty list, and an RSVP with an
    accepted status answers 404 "event not found" and writes nothing. *)
Theorem DeleteEvent_then_gone (c : Context unit) s f ev :
  NoDup (map Event_ID (events s)) ->
  In ev (events s) ->
  getUserIDFromContext c = Some (Event_OrganizerID ev) ->
  strconv.Atoi (Param_id c) = Some (Z.of_N (Event_ID ev)) ->
  fault_free f ->
  let after := store (DeleteEvent c s f) in
  (forall (c' : Context unit) f' userID,
      getUserIDFromContext c' = Some userID ->
      strconv.ParseUint (Param_id c') = Some (Event_ID ev) ->
      fault_free f' ->
      response (GetEventAttendees c' after f')
      = jsonError http.StatusNotFound "event not found")
  /\ (forall (c' : Context unit) f',
         strconv.ParseUint (Param_id c') = Some (Event_ID ev) ->
         fault_free f' ->
         response (GetTasksByEvent c' after f')
         = {| Code := http.StatusOK; Payload := JTasks [] |})
  /\ (forall (c' : Context AttendanceRequest) f' userID body,
         getUserIDFromContext c' = Some userID ->
         strconv.ParseUint (Param_id c') = Some (Event_ID ev) ->
         Body c' = inr body ->
         acceptedStatus (normalize (AttendanceRequest_Status body)) = true ->
         fault_free f' ->
         response (SetAttendance c' after f')
         = jsonError http.StatusNotFound "event not found"
         /\ store (SetAttendance c' after f') = after).
Proof.
  intros Hnd Hev Hu Hp Hf. cbv zeta.
  destruct (DeleteEvent_deletes c s f ev Hnd Hev Hu Hp Hf) as (f1 & E).
  pose proof (f_equal store E) as Hafter. unfold store at 2 in Hafter.
  cbn [fst snd] in Hafter. rewrite Hafter. clear E Hafter.
  match goal with |- context [GetTasksByEvent _ ?s1 _] => set (after := s1) end.
  assert (first_by_pk Events
            (filter (fun e => (Event_ID e =? Event_ID ev)%N) (rows Events after))
          = None) as Hgone.
  { simpl. rewrite filter_filter_negb; [reflexivity | auto]. }
  split; [|split].
  - intros c' f' userID Hu' Hp' Hf'. unfold GetEventAttendees.
    rewrite Hu', Hp'. unfold bind.
    destruct (First_fault_free Events (fun e => (Event_ID e =? Event_ID ev)%N)
                after f' Hf') as (f2 & E & _).
    rewrite E, Hgone. reflexivity.
  - intros c' f' Hp' Hf'. unfold GetTasksByEvent. rewrite Hp'. unfold bind.
    match goal with |- context [Find ?q after f'] =>
      destruct (Find_fault_free q after f' Hf') as (f2 & E & _); rewrite E
    end.
    unfold response, Where, Model. simpl.
    rewrite filter_filter_negb; [reflexivity | auto].
  - intros c' f' userID body Hu' Hp' Hb' Hacc Hf'.
    assert (exists f2,
               SetAttendance c' after f'
               = (jsonError http.StatusNotFound "event not found", after, f2))
      as [f2 E].
    { unfold SetAttendance.
      rewrite Hu', Hp', (SetAttendance_bind c' body Hb' Hacc). cbv zeta.
      rewrite Hacc. cbn [negb]. unfold bind.
      destruct (First_fault_free Events (fun e => (Event_ID e =? Event_ID ev)%N)
                  after f' Hf') as (f2 & E & _).
      rewrite E, Hgone. exists f2. reflexivity. }
    rewrite E. split; reflexivity.
Qed.

Lemma DeleteEvent_then_gone_witness :
  response (GetTasksByEvent (authenticated 2 "1" tt)
              (store (DeleteEvent (authenticated 1 "1" tt) venueStore [])) [])
  = {| Code := http.StatusOK; Payload := JTasks [] |}.
Proof.
  assert (NoDup (map Event_ID (events venueStore))) as Hnd by concrete_NoDup.
  exact (proj1 (proj2 (DeleteEvent_then_gone
                         (authenticated 1 "1" tt) venueStore [] offsiteEvent
                         Hnd (or_introl eq_refl) eq_refl eq_refl fault_free_nil))
           (authenticated 2 "1" tt) [] eq_refl fault_free_nil).
Defined.
